(** * Hetero SSHE logistic regression: parameter checking and training base class

    A shallow embedding of

    - [python/federatedml/param/hetero_sshe_lr_param.py]
      (class [LogisticRegressionParam], method [check]), and
    - [python/federatedml/linear_model/logistic_regression/
       hetero_sshe_logistic_regression/hetero_lr_base.py]
      (class [HeteroLRBase]).

    Python objects are records, [self] is passed explicitly, exceptions are
    the [Raise] branch of a result type, and every call that leaves the
    class (tensor engine, transfer variables, cipher, abstract secure
    operations) is recorded in an event log that is threaded with [self]. *)

From Stdlib Require Import ZArith Ascii String List Bool Lia.
From stdpp Require Import base option list strings gmap pretty.

Local Open Scope string_scope.
Local Open Scope Z_scope.

(** ** Python values, exceptions *)

Module Py.

(** The exception classes raised by the two source files (and by the
    Python operations they perform on ill-typed values). *)
Inductive exn : Type :=
| ValueError (msg : string)
| PermissionError (msg : string)
| NotImplementedError (msg : string)
| AttributeError (msg : string)
| TypeError (msg : string)
| KeyError (msg : string)
| IndexError (msg : string)
| UnboundLocalError (msg : string).

Inductive result (A : Type) : Type :=
| Ok (a : A)
| Raise (e : exn).
Arguments Ok {A} a.
Arguments Raise {A} e.

Definition rbind {A B} (r : result A) (k : A -> result B) : result B :=
  match r with
  | Ok a => k a
  | Raise e => Raise e
  end.

Definition is_ok {A} (r : result A) : bool :=
  match r with Ok _ => true | Raise _ => false end.

Definition is_ValueError {A} (r : result A) : bool :=
  match r with Raise (ValueError _) => true | _ => false end.

Definition is_PermissionError {A} (r : result A) : bool :=
  match r with Raise (PermissionError _) => true | _ => false end.

Definition is_NotImplementedError {A} (r : result A) : bool :=
  match r with Raise (NotImplementedError _) => true | _ => false end.

(** A result that is a value or a [ValueError], nothing else. *)
Definition value_or_ValueError {A} (r : result A) : Prop :=
  match r with
  | Ok _ => True
  | Raise (ValueError _) => True
  | Raise _ => False
  end.

(** A Python float: a finite dyadic value [m * 2^e], an infinity or NaN.
    The code below never computes with floats; it only compares one with
    the integer [-1]. *)
Inductive pyfloat : Type :=
| FFinite (m e : Z)
| FInf (negative : bool)
| FNaN.

(** The Python values a configuration field can hold. *)
#[warnings="-register-all"]
Inductive pyval : Type :=
| PyNone
| PyBool (b : bool)
| PyInt (n : Z)
| PyFloat (x : pyfloat)
| PyStr (s : string)
| PyList (l : list pyval)
| PyTuple (l : list pyval)
| PySet (l : list pyval).

(** [type(v).__name__] *)
Definition type_name (v : pyval) : string :=
  match v with
  | PyNone => "NoneType"
  | PyBool _ => "bool"
  | PyInt _ => "int"
  | PyFloat _ => "float"
  | PyStr _ => "str"
  | PyList _ => "list"
  | PyTuple _ => "tuple"
  | PySet _ => "set"
  end.

(** [x in [s1, s2, ...]] for a string [x] and a list of strings. *)
Definition str_in (x : string) (l : list string) : bool :=
  existsb (String.eqb x) l.

(** [isinstance(v, int)]: [bool] is a subclass of [int]. *)
Definition isinstance_int (v : pyval) : bool :=
  match v with PyInt _ | PyBool _ => true | _ => false end.

Definition isinstance_float (v : pyval) : bool :=
  match v with PyFloat _ => true | _ => false end.

Definition isinstance_bool (v : pyval) : bool :=
  match v with PyBool _ => true | _ => false end.

Definition isinstance_list (v : pyval) : bool :=
  match v with PyList _ => true | _ => false end.

(** The integer a value of class [int] (or [bool]) stands for. *)
Definition int_value (v : pyval) : option Z :=
  match v with
  | PyInt n => Some n
  | PyBool true => Some 1
  | PyBool false => Some 0
  | _ => None
  end.

(** [x == k] for a float [x] and an integer [k]. *)
Definition float_eq_int (x : pyfloat) (k : Z) : bool :=
  match x with
  | FFinite m e =>
      if 0 <=? e then m * 2 ^ e =? k else m =? k * 2 ^ (- e)
  | FInf _ | FNaN => false
  end.

(** [v == k] for an integer literal [k]: numbers compare by value across
    [bool], [int] and [float]; every other class is unequal to a number. *)
Definition py_eq_int (v : pyval) (k : Z) : bool :=
  match v with
  | PyInt n => n =? k
  | PyBool b => (if b then 1 else 0) =? k
  | PyFloat x => float_eq_int x k
  | _ => false
  end.

(** [v is None] *)
Definition is_None (v : pyval) : bool :=
  match v with PyNone => true | _ => false end.

(** [v in [s, None]] for a string constant [s]. *)
Definition in_str_or_None (v : pyval) (s : string) : bool :=
  match v with
  | PyStr t => String.eqb t s
  | PyNone => true
  | _ => false
  end.

(** [str.lower] and [str.upper] on the ASCII range; bytes outside it are
    left alone. *)
Definition ascii_lower (c : ascii) : ascii :=
  let n := nat_of_ascii c in
  if (Nat.leb 65 n && Nat.leb n 90)%bool then ascii_of_nat (n + 32) else c.

Definition ascii_upper (c : ascii) : ascii :=
  let n := nat_of_ascii c in
  if (Nat.leb 97 n && Nat.leb n 122)%bool then ascii_of_nat (n - 32) else c.

Fixpoint lower (s : string) : string :=
  match s with
  | EmptyString => EmptyString
  | String c s' => String (ascii_lower c) (lower s')
  end.

Fixpoint upper (s : string) : string :=
  match s with
  | EmptyString => EmptyString
  | String c s' => String (ascii_upper c) (upper s')
  end.

End Py.

Export Py.

Declare Scope result_scope.
Delimit Scope result_scope with result.
Notation "x <- c1 ;; c2" := (rbind c1 (fun x => c2))
  (at level 100, c1 at next level, right associativity) : result_scope.
Notation "c1 ;;; c2" := (rbind c1 (fun _ => c2))
  (at level 100, right associativity) : result_scope.

(** ** [hetero_sshe_lr_param.py]: class [LogisticRegressionParam] *)

Module Param.

Local Open Scope result_scope.

(** The constants of [federatedml.util.consts] that [check] reads.  The
    module is not part of the two files modelled here, so its values are
    parameters of [check]. *)
Record consts : Type := {
  L1_PENALTY : string;
  L2_PENALTY : string;
  MIN_BATCH_SIZE : Z;
  PAILLIER : string;
  ALLOW_REVIEW_GUEST_ONLY : bool
}.

(** The nested parameter objects ([InitParam], [EncryptParam],
    [PredictParam], [StepwiseParam]) belong to other files; [check] only
    calls their own [check] methods and reads [encrypt_param.method]. *)
Class SubParams : Type := {
  InitParam : Type;
  EncryptParam : Type;
  PredictParam : Type;
  StepwiseParam : Type;
  InitParam_check : InitParam -> result InitParam;
  EncryptParam_check : EncryptParam -> result EncryptParam;
  PredictParam_check : PredictParam -> result PredictParam;
  StepwiseParam_check : StepwiseParam -> result StepwiseParam;
  EncryptParam_method : EncryptParam -> pyval
}.

Section Check.

Context `{SubParams}.
Variable c : consts.

(** The attributes set by [__init__]. *)
Record LogisticRegressionParam : Type := {
  penalty : pyval;
  tol : pyval;
  alpha : pyval;
  optimizer : pyval;
  batch_size : pyval;
  learning_rate : pyval;
  init_param : InitParam;
  max_iter : pyval;
  early_stop : pyval;
  encrypt_param : EncryptParam;
  predict_param : PredictParam;
  random_field : pyval;
  decay : pyval;
  decay_sqrt : pyval;
  multi_class : pyval;
  validation_freqs : pyval;
  stepwise_param : StepwiseParam;
  early_stopping_rounds : pyval;
  metrics : pyval;
  use_first_metric_only : pyval;
  floating_point_precision : pyval;
  use_mix_rand : pyval;
  review_strategy : pyval
}.

Definition descr : string := "logistic_param's".

(** Modelled from the spec: [BaseParam.check_valid_value], a method of the
    parent class in [base_param.py], which is not among the modelled files.
    The spec lists the recognised values of an option and calls any other
    value a configuration error. *)
Definition check_valid_value (value : string) (descr : string)
    (valid_values : list string) : result unit :=
  if str_in value valid_values then Ok tt
  else Raise (ValueError (descr ++ " {} is not supported, it should be in {}")).

(** Lines 150-159.  The accepted value is the upper-cased one. *)
Definition check_penalty (v : pyval) : result pyval :=
  match v with
  | PyNone => Ok PyNone
  | PyStr s =>
      let s' := upper s in
      if negb (str_in s' [L1_PENALTY c; L2_PENALTY c; "NONE"]) then
        Raise (ValueError
          "logistic_param's penalty not supported, penalty should be 'L1', 'L2' or 'none'")
      else Ok (PyStr s')
  | _ =>
      Raise (ValueError "logistic_param's penalty {} not supported, should be str type")
  end.

(** Lines 161-163: [isinstance(self.tol, (int, float))]. *)
Definition check_tol (v : pyval) : result unit :=
  if negb (isinstance_int v || isinstance_float v) then
    Raise (ValueError "logistic_param's tol {} not supported, should be float type")
  else Ok tt.

(** Lines 165-167. *)
Definition check_alpha (v : pyval) : result unit :=
  if negb (str_in (type_name v) ["float"; "int"]) then
    Raise (ValueError "logistic_param's alpha {} not supported, should be float or int type")
  else Ok tt.

(** Lines 169-177. *)
Definition check_optimizer (v : pyval) : result pyval :=
  match v with
  | PyStr s =>
      let s' := lower s in
      if negb (str_in s' ["sgd"; "rmsprop"; "adam"; "adagrad"; "nesterov_momentum_sgd"; "sqn"])
      then Raise (ValueError
        "logistic_param's optimizer not supported, optimizer should be 'sgd', 'rmsprop', 'adam', 'nesterov_momentum_sgd', 'sqn' or 'adagrad'")
      else Ok (PyStr s')
  | _ =>
      Raise (ValueError "logistic_param's optimizer {} not supported, should be str type")
  end.

(** [self.batch_size < consts.MIN_BATCH_SIZE], reached only when
    [batch_size] is of class [int] (the [or] short-circuits). *)
Definition below_min_batch_size (v : pyval) : bool :=
  match v with
  | PyInt n => n <? MIN_BATCH_SIZE c
  | _ => false
  end.

(** Lines 179-183. *)
Definition check_batch_size (v : pyval) : result unit :=
  if negb (py_eq_int v (-1)) then
    if negb (str_in (type_name v) ["int"]) || below_min_batch_size v then
      Raise (ValueError
        (descr ++ " {} not supported, should be larger than {} or -1 represent for all data"))
    else Ok tt
  else Ok tt.

(** Lines 185-188. *)
Definition check_learning_rate (v : pyval) : result unit :=
  if negb (isinstance_float v || isinstance_int v) then
    Raise (ValueError
      "logistic_param's learning_rate {} not supported, should be float or int type")
  else Ok tt.

(** Lines 192-197. *)
Definition check_max_iter (v : pyval) : result unit :=
  match v with
  | PyInt n =>
      if n <=? 0 then
        Raise (ValueError "logistic_param's max_iter must be greater or equal to 1")
      else Ok tt
  | _ =>
      Raise (ValueError "logistic_param's max_iter {} not supported, should be int type")
  end.

(** Lines 199-208. *)
Definition check_early_stop (v : pyval) : result pyval :=
  match v with
  | PyStr s =>
      let s' := lower s in
      if negb (str_in s' ["diff"; "abs"; "weight_diff"]) then
        Raise (ValueError
          "logistic_param's early_stop not supported, converge_func should be 'diff', 'weight_diff' or 'abs'")
      else Ok (PyStr s')
  | _ =>
      Raise (ValueError "logistic_param's early_stop {} not supported, should be str type")
  end.

(** Lines 212-214. *)
Definition check_encrypt_method (e : EncryptParam) : result unit :=
  if negb (in_str_or_None (EncryptParam_method e) (PAILLIER c)) then
    Raise (ValueError "logistic_param's encrypted method support 'Paillier' or None only")
  else Ok tt.

(** Lines 216-219. *)
Definition check_decay (v : pyval) : result unit :=
  if negb (str_in (type_name v) ["int"; "float"]) then
    Raise (ValueError "logistic_param's decay {} not supported, should be 'int' or 'float'")
  else Ok tt.

(** Lines 221-224. *)
Definition check_decay_sqrt (v : pyval) : result unit :=
  if negb (str_in (type_name v) ["bool"]) then
    Raise (ValueError "logistic_param's decay_sqrt {} not supported, should be 'bool'")
  else Ok tt.

(** Lines 227-233. *)
Definition check_validation_freqs (v : pyval) : result unit :=
  if negb (is_None v) then
    if negb (str_in (type_name v) ["int"; "list"; "tuple"; "set"]) then
      Raise (ValueError
        "validation strategy param's validate_freqs's type not supported , should be int or list or tuple or set")
    else
      match v with
      | PyInt n =>
          if n <=? 0 then
            Raise (ValueError "validation strategy param's validate_freqs should greater than 0")
          else Ok tt
      | _ => Ok tt
      end
  else Ok tt.

(** Lines 235-241. *)
Definition check_early_stopping_rounds (v freqs : pyval) : result unit :=
  if is_None v then Ok tt
  else
    match int_value v with
    | Some n =>
        if n <? 1 then
          Raise (ValueError "early stopping rounds should be larger than 0 when it's integer")
        else if is_None freqs then
          Raise (ValueError "validation freqs must be set when early stopping is enabled")
        else Ok tt
    | None => Ok tt
    end.

(** Lines 243-244. *)
Definition check_metrics (v : pyval) : result unit :=
  if negb (is_None v) && negb (isinstance_list v) then
    Raise (ValueError "metrics should be a list")
  else Ok tt.

(** Lines 246-247. *)
Definition check_use_first_metric_only (v : pyval) : result unit :=
  if negb (isinstance_bool v) then
    Raise (ValueError "use_first_metric_only should be a boolean")
  else Ok tt.

(** Lines 249-252. *)
Definition check_floating_point_precision (v : pyval) : result unit :=
  if negb (is_None v) &&
     match int_value v with
     | None => true
     | Some n => (n <? 0) || (63 <? n)
     end
  then Raise (ValueError
         "floating point precision should be null or a integer between 0 and 63")
  else Ok tt.

(** Lines 254-257.  [self.review_strategy.lower()] needs a string: the
    other classes of [pyval] have no attribute [lower]. *)
Definition check_review_strategy (v : pyval) : result pyval :=
  match v with
  | PyStr s =>
      let s' := lower s in
      check_valid_value s' descr ["respectively"; "all_review_in_guest"];;;
      if negb (ALLOW_REVIEW_GUEST_ONLY c) && String.eqb s' "all_review_in_guest" then
        Raise (PermissionError
          "review strategy: all_review_in_guest has not been authorized.")
      else Ok (PyStr s')
  | _ => Raise (AttributeError "object has no attribute 'lower'")
  end.

(** [LogisticRegressionParam.check]: the clauses in source order.  On
    success the method returns [True]; [Ok p'] carries the object as the
    method leaves it (penalty upper-cased, optimizer, early_stop and
    review_strategy lower-cased, nested objects as their checks leave
    them). *)
Definition check (p : LogisticRegressionParam) : result LogisticRegressionParam :=
  penalty' <- check_penalty (penalty p);;
  check_tol (tol p);;;
  check_alpha (alpha p);;;
  optimizer' <- check_optimizer (optimizer p);;
  check_batch_size (batch_size p);;;
  check_learning_rate (learning_rate p);;;
  init_param' <- InitParam_check (init_param p);;
  check_max_iter (max_iter p);;;
  early_stop' <- check_early_stop (early_stop p);;
  encrypt_param' <- EncryptParam_check (encrypt_param p);;
  predict_param' <- PredictParam_check (predict_param p);;
  check_encrypt_method encrypt_param';;;
  check_decay (decay p);;;
  check_decay_sqrt (decay_sqrt p);;;
  stepwise_param' <- StepwiseParam_check (stepwise_param p);;
  check_validation_freqs (validation_freqs p);;;
  check_early_stopping_rounds (early_stopping_rounds p) (validation_freqs p);;;
  check_metrics (metrics p);;;
  check_use_first_metric_only (use_first_metric_only p);;;
  check_floating_point_precision (floating_point_precision p);;;
  review_strategy' <- check_review_strategy (review_strategy p);;
  Ok {| penalty := penalty';
        tol := tol p;
        alpha := alpha p;
        optimizer := optimizer';
        batch_size := batch_size p;
        learning_rate := learning_rate p;
        init_param := init_param';
        max_iter := max_iter p;
        early_stop := early_stop';
        encrypt_param := encrypt_param';
        predict_param := predict_param';
        random_field := random_field p;
        decay := decay p;
        decay_sqrt := decay_sqrt p;
        multi_class := multi_class p;
        validation_freqs := validation_freqs p;
        stepwise_param := stepwise_param';
        early_stopping_rounds := early_stopping_rounds p;
        metrics := metrics p;
        use_first_metric_only := use_first_metric_only p;
        floating_point_precision := floating_point_precision p;
        use_mix_rand := use_mix_rand p;
        review_strategy := review_strategy' |}.

(** The same object with another [batch_size] / [review_strategy]. *)
Definition with_batch_size (p : LogisticRegressionParam) (v : pyval) :
    LogisticRegressionParam :=
  {| penalty := penalty p; tol := tol p; alpha := alpha p;
     optimizer := optimizer p; batch_size := v;
     learning_rate := learning_rate p; init_param := init_param p;
     max_iter := max_iter p; early_stop := early_stop p;
     encrypt_param := encrypt_param p; predict_param := predict_param p;
     random_field := random_field p; decay := decay p;
     decay_sqrt := decay_sqrt p; multi_class := multi_class p;
     validation_freqs := validation_freqs p;
     stepwise_param := stepwise_param p;
     early_stopping_rounds := early_stopping_rounds p;
     metrics := metrics p;
     use_first_metric_only := use_first_metric_only p;
     floating_point_precision := floating_point_precision p;
     use_mix_rand := use_mix_rand p;
     review_strategy := review_strategy p |}.

Definition with_review_strategy (p : LogisticRegressionParam) (v : pyval) :
    LogisticRegressionParam :=
  {| penalty := penalty p; tol := tol p; alpha := alpha p;
     optimizer := optimizer p; batch_size := batch_size p;
     learning_rate := learning_rate p; init_param := init_param p;
     max_iter := max_iter p; early_stop := early_stop p;
     encrypt_param := encrypt_param p; predict_param := predict_param p;
     random_field := random_field p; decay := decay p;
     decay_sqrt := decay_sqrt p; multi_class := multi_class p;
     validation_freqs := validation_freqs p;
     stepwise_param := stepwise_param p;
     early_stopping_rounds := early_stopping_rounds p;
     metrics := metrics p;
     use_first_metric_only := use_first_metric_only p;
     floating_point_precision := floating_point_precision p;
     use_mix_rand := use_mix_rand p;
     review_strategy := v |}.

(** The claim's reading of an acceptable batch size: it equals [-1], or
    it is of class [int] and at least [MIN_BATCH_SIZE]. *)
Definition batch_size_ok (v : pyval) : bool :=
  py_eq_int v (-1) ||
  match v with
  | PyInt n => MIN_BATCH_SIZE c <=? n
  | _ => false
  end.

End Check.

(** A concrete environment for running [check]: nested parameter objects
    reduced to the one attribute [check] reads, with checks that accept. *)
#[local] Instance unit_sub_params : SubParams := {|
  InitParam := unit;
  EncryptParam := pyval;
  PredictParam := unit;
  StepwiseParam := unit;
  InitParam_check := Ok;
  EncryptParam_check := Ok;
  PredictParam_check := Ok;
  StepwiseParam_check := Ok;
  EncryptParam_method := fun m => m
|}.

Definition test_consts (allow : bool) : consts :=
  {| L1_PENALTY := "L1"; L2_PENALTY := "L2"; MIN_BATCH_SIZE := 10;
     PAILLIER := "Paillier"; ALLOW_REVIEW_GUEST_ONLY := allow |}.

(** The defaults of [__init__] (floats as dyadic values: the checks do not
    look at them). *)
Definition default_param : LogisticRegressionParam :=
  {| penalty := PyStr "L2";
     tol := PyFloat (FFinite 1 (-13));
     alpha := PyFloat (FFinite 1 0);
     optimizer := PyStr "rmsprop";
     batch_size := PyInt (-1);
     learning_rate := PyFloat (FFinite 1 (-7));
     init_param := tt;
     max_iter := PyInt 100;
     early_stop := PyStr "diff";
     encrypt_param := PyStr "Paillier";
     predict_param := tt;
     random_field := PyInt (2 ^ 20);
     decay := PyInt 1;
     decay_sqrt := PyBool true;
     multi_class := PyStr "ovr";
     validation_freqs := PyNone;
     stepwise_param := tt;
     early_stopping_rounds := PyNone;
     metrics := PyList [];
     use_first_metric_only := PyBool false;
     floating_point_precision := PyInt 23;
     use_mix_rand := PyBool false;
     review_strategy := PyStr "respectively" |}.

End Param.

(** ** [hetero_lr_base.py]: class [HeteroLRBase] *)

Module LRBase.

(** [consts.GUEST] and [consts.HOST]: the two roles of a training session. *)
Inductive Role : Type := GUEST | HOST.

Definition Role_eqb (a b : Role) : bool :=
  match a, b with
  | GUEST, GUEST | HOST, HOST => true
  | _, _ => false
  end.

(** A transfer tag is a Python tuple of strings and integers, such as
    [("z", n_iter, batch_idx)]. *)
Inductive tag_elem : Type :=
| TagStr (s : string)
| TagInt (n : Z).

Definition suffix_t : Type := list tag_elem.

(** Modelled from the spec: [LinearModelWeights], a class of
    [linear_model_weight.py], which is not among the modelled files.  The
    spec's ModelWeights is a coefficient vector plus an optional intercept;
    the object keeps the flat vector it was built from, with the intercept
    as last entry when [fit_intercept] is set. *)
Record LinearModelWeights (Coef : Type) : Type := {
  unboxed : list Coef;
  lmw_fit_intercept : bool
}.
Arguments unboxed {Coef} _.
Arguments lmw_fit_intercept {Coef} _.

(** Modelled from the spec: the properties [coef_] (the vector without the
    intercept) and [intercept_] (the last entry, or zero when there is no
    intercept) of [LinearModelWeights]. *)
Definition coef_ {Coef} (m : LinearModelWeights Coef) : list Coef :=
  if lmw_fit_intercept m then removelast (unboxed m) else unboxed m.

Definition intercept_ {Coef} (zero : Coef) (m : LinearModelWeights Coef) : Coef :=
  if lmw_fit_intercept m then List.last (unboxed m) zero else zero.

(** Everything [HeteroLRBase] uses from outside the class: the secret-shared
    tensor engine, the transfer variables, the cipher, the validation hook
    and the parent class [SSHEModelBase].  [World] is whatever state those
    collaborators keep (network, keys, randomness, the validation history);
    an external call transforms it and may raise. *)
Class Engine : Type := {
  Coef : Type;
  zero : Coef;
  (** the float [nan], what a [float64] array stores for [None] *)
  nan : Coef;
  Party : Type;
  Encoder : Type;
  PubKey : Type;
  Cipher : Type;
  Spdz : Type;
  (** [fixedpoint_numpy.FixedPointTensor] *)
  Tensor : Type;
  (** [fixedpoint_table.FixedPointTensor] *)
  TableTensor : Type;
  (** a distributed table *)
  Table : Type;
  ValidationStrategy : Type;
  World : Type;
  (** attributes *)
  tensor_shape : Tensor -> list nat;
  encoder_n : Encoder -> Z;
  pubkey_n : PubKey -> Z;
  table_tensor_value : TableTensor -> Table;
  best_iteration : ValidationStrategy -> Z;
  (** [a.join(b, operator.sub)] and
      [fixedpoint_table.FixedPointTensor.from_value] *)
  table_join_sub : Table -> Table -> Table;
  table_tensor_from_value : Table -> Z -> Encoder -> TableTensor;
  create_fixpoint_encoder : Z -> Encoder;
  (** calls with an effect on the world *)
  from_source :
    string -> list Coef + Party -> Encoder -> Z -> World -> result Tensor * World;
  reconstruct_unilateral :
    Tensor -> string -> World -> result (list Coef) * World;
  broadcast_reconstruct_share :
    Tensor -> string -> World -> result unit * World;
  distribute_encrypt : Cipher -> Table -> World -> result Table * World;
  encrypted_share_matrix_remote :
    Table -> Role -> suffix_t -> World -> result unit * World;
  encrypted_share_matrix_get :
    Role -> Z -> suffix_t -> World -> result Table * World;
  check_converge :
    list Coef * list (LinearModelWeights Coef) -> list Coef -> suffix_t ->
    World -> result bool * World;
  validate : ValidationStrategy -> Z -> World -> result unit * World;
  need_stop : ValidationStrategy -> World -> result bool * World
}.

Section Base.

Context `{Engine}.

(** [fixedpoint_table.PaillierFixedPointTensor(value, q_field=, endec=)]:
    the constructor stores its three arguments. *)
Record PaillierFixedPointTensor : Type := {
  pft_value : Table;
  pft_q_field : Z;
  pft_endec : Encoder
}.

(** The attributes of [self.model_param] that the class reads. *)
Record ModelParam : Type := {
  review_strategy : string;
  init_param_fit_intercept : bool;
  use_mix_rand : bool
}.

(** The attributes of [self] that the modelled methods read or write. *)
Record Self : Type := {
  role : Role;
  local_party_role : Role;
  other_party : Party;
  model_param : ModelParam;
  random_field : Z;
  max_iter : Z;
  fit_intercept : bool;
  header : option (list string);
  cipher : option Cipher;
  validation_strategy : option ValidationStrategy;
  labels : option Table;
  fixpoint_encoder : option Encoder;
  n_iter_ : Z;
  is_converged : bool;
  loss_history : list Coef;
  model_weights : option (LinearModelWeights Coef);
  hosted_model_weights : list (LinearModelWeights Coef)
}.

(** The calls that leave the class, in the order they are made. *)
Inductive Event : Type :=
| EvTransferPubkey
| EvFromSource (name : string) (source : list Coef + Party)
| EvCalPrediction (w_self w_remote : Tensor) (features : TableTensor)
    (suffix : suffix_t)
| EvComputeGradient (wa wb : Tensor) (error features : TableTensor)
    (suffix : suffix_t)
| EvReviewModels (w_self w_remote : Tensor)
| EvReconstructUnilateral (t : Tensor) (tensor_name : string)
| EvBroadcastReconstructShare (t : Tensor) (tensor_name : string)
| EvCheckConverge (suffix : suffix_t)
| EvValidate (n_iter : Z)
| EvNeedStop
| EvDistributeEncrypt (value : Table)
| EvRemote (obj : Table) (to : Role) (suffix : suffix_t)
| EvGet (from : Role) (idx : Z) (suffix : suffix_t).

(** The state a method runs in: the object, the collaborators' world and
    the log of calls made so far (oldest first). *)
Record St : Type := {
  self : Self;
  world : World;
  log : list Event
}.

Definition M (A : Type) : Type := St -> result A * St.

Definition ret {A} (a : A) : M A := fun st => (Ok a, st).

Definition raise {A} (e : exn) : M A := fun st => (Raise e, st).

Definition bind {A B} (m : M A) (k : A -> M B) : M B :=
  fun st =>
    match m st with
    | (Ok a, st') => k a st'
    | (Raise e, st') => (Raise e, st')
    end.

Definition get_self : M Self := fun st => (Ok (self st), st).

Definition put_self (s : Self) : M unit :=
  fun st => (Ok tt, {| self := s; world := world st; log := log st |}).

(** An external call: the event is logged, then the collaborator runs on
    the world. *)
Definition call {A} (ev : Event) (f : World -> result A * World) : M A :=
  fun st =>
    let rw := f (world st) in
    (fst rw, {| self := self st; world := snd rw; log := log st ++ [ev] |}).

(** A log entry for entering a method of the class itself. *)
Definition enter (ev : Event) : M unit :=
  fun st => (Ok tt, {| self := self st; world := world st; log := log st ++ [ev] |}).

(** Attribute assignments [self.x = v]. *)
Definition set_labels (v : option Table) (s : Self) : Self :=
  {| role := role s; local_party_role := local_party_role s; other_party
     := other_party s; model_param := model_param s; random_field :=
     random_field s; max_iter := max_iter s; fit_intercept :=
     fit_intercept s; header := header s; cipher := cipher s;
     validation_strategy := validation_strategy s; labels := v;
     fixpoint_encoder := fixpoint_encoder s; n_iter_ := n_iter_ s;
     is_converged := is_converged s; loss_history := loss_history s;
     model_weights := model_weights s; hosted_model_weights :=
     hosted_model_weights s |}.

Definition set_fixpoint_encoder (v : option Encoder) (s : Self) : Self :=
  {| role := role s; local_party_role := local_party_role s; other_party
     := other_party s; model_param := model_param s; random_field :=
     random_field s; max_iter := max_iter s; fit_intercept :=
     fit_intercept s; header := header s; cipher := cipher s;
     validation_strategy := validation_strategy s; labels := labels s;
     fixpoint_encoder := v; n_iter_ := n_iter_ s; is_converged :=
     is_converged s; loss_history := loss_history s; model_weights :=
     model_weights s; hosted_model_weights := hosted_model_weights s |}.

Definition set_n_iter_ (v : Z) (s : Self) : Self :=
  {| role := role s; local_party_role := local_party_role s; other_party
     := other_party s; model_param := model_param s; random_field :=
     random_field s; max_iter := max_iter s; fit_intercept :=
     fit_intercept s; header := header s; cipher := cipher s;
     validation_strategy := validation_strategy s; labels := labels s;
     fixpoint_encoder := fixpoint_encoder s; n_iter_ := v; is_converged :=
     is_converged s; loss_history := loss_history s; model_weights :=
     model_weights s; hosted_model_weights := hosted_model_weights s |}.

Definition set_is_converged (v : bool) (s : Self) : Self :=
  {| role := role s; local_party_role := local_party_role s; other_party
     := other_party s; model_param := model_param s; random_field :=
     random_field s; max_iter := max_iter s; fit_intercept :=
     fit_intercept s; header := header s; cipher := cipher s;
     validation_strategy := validation_strategy s; labels := labels s;
     fixpoint_encoder := fixpoint_encoder s; n_iter_ := n_iter_ s;
     is_converged := v; loss_history := loss_history s; model_weights :=
     model_weights s; hosted_model_weights := hosted_model_weights s |}.

Definition set_model_weights (v : option (LinearModelWeights Coef)) (s : Self) : Self :=
  {| role := role s; local_party_role := local_party_role s; other_party
     := other_party s; model_param := model_param s; random_field :=
     random_field s; max_iter := max_iter s; fit_intercept :=
     fit_intercept s; header := header s; cipher := cipher s;
     validation_strategy := validation_strategy s; labels := labels s;
     fixpoint_encoder := fixpoint_encoder s; n_iter_ := n_iter_ s;
     is_converged := is_converged s; loss_history := loss_history s;
     model_weights := v; hosted_model_weights := hosted_model_weights s
     |}.

Definition set_hosted_model_weights (v : list (LinearModelWeights Coef)) (s : Self) : Self :=
  {| role := role s; local_party_role := local_party_role s; other_party
     := other_party s; model_param := model_param s; random_field :=
     random_field s; max_iter := max_iter s; fit_intercept :=
     fit_intercept s; header := header s; cipher := cipher s;
     validation_strategy := validation_strategy s; labels := labels s;
     fixpoint_encoder := fixpoint_encoder s; n_iter_ := n_iter_ s;
     is_converged := is_converged s; loss_history := loss_history s;
     model_weights := model_weights s; hosted_model_weights := v |}.

Definition set_validation_strategy (v : option ValidationStrategy) (s : Self) : Self :=
  {| role := role s; local_party_role := local_party_role s; other_party
     := other_party s; model_param := model_param s; random_field :=
     random_field s; max_iter := max_iter s; fit_intercept :=
     fit_intercept s; header := header s; cipher := cipher s;
     validation_strategy := v; labels := labels s; fixpoint_encoder :=
     fixpoint_encoder s; n_iter_ := n_iter_ s; is_converged :=
     is_converged s; loss_history := loss_history s; model_weights :=
     model_weights s; hosted_model_weights := hosted_model_weights s |}.

Definition modify_self (f : Self -> Self) : M unit :=
  fun st => (Ok tt, {| self := f (self st); world := world st; log := log st |}).

Declare Scope lr_scope.
Delimit Scope lr_scope with lr.
Notation "x <- c1 ;; c2" := (bind c1 (fun x => c2))
  (at level 100, c1 at next level, right associativity) : lr_scope.
Notation "c1 ;;; c2" := (bind c1 (fun _ => c2))
  (at level 100, right associativity) : lr_scope.
Local Open Scope lr_scope.

(** The f-string [f"{prefix}_{n}"]. *)
Definition tensor_name (prefix : string) (n : Z) : string :=
  prefix ++ "_" ++ pretty n.

(** [np.zeros(shape)], as the flat contents of the array. *)
Definition np_zeros (shape : list nat) : list Coef :=
  replicate (foldr Nat.mul 1%nat shape) zero.

(** [enumerate(l)] *)
Definition enumerate {A} (l : list A) : list (nat * A) :=
  imap (fun i x => (i, x)) l.

(** The secure operations a concrete variant (a subclass) supplies.  They
    read [self] and act on the collaborators' world. *)
Record Methods : Type := {
  cal_prediction :
    Self -> Tensor -> Tensor -> TableTensor -> Spdz -> suffix_t ->
    World -> result TableTensor * World;
  compute_gradient :
    Self -> Tensor -> Tensor -> TableTensor -> TableTensor -> suffix_t ->
    World -> result (Tensor * Tensor) * World;
  transfer_pubkey : Self -> World -> result PubKey * World
}.

(** Lines 109-116: the three methods as [HeteroLRBase] itself defines
    them. *)
Definition HeteroLRBase_cal_prediction (s : Self) (w_self w_remote : Tensor)
    (features : TableTensor) (spdz : Spdz) (suffix : suffix_t) (w : World) :
    result TableTensor * World :=
  (Raise (NotImplementedError "Should not call here"), w).

Definition HeteroLRBase_compute_gradient (s : Self) (wa wb : Tensor)
    (error features : TableTensor) (suffix : suffix_t) (w : World) :
    result (Tensor * Tensor) * World :=
  (Raise (NotImplementedError "Should not call here"), w).

Definition HeteroLRBase_transfer_pubkey (s : Self) (w : World) :
    result PubKey * World :=
  (Raise (NotImplementedError "Should not call here"), w).

Definition HeteroLRBase_methods : Methods :=
  {| cal_prediction := HeteroLRBase_cal_prediction;
     compute_gradient := HeteroLRBase_compute_gradient;
     transfer_pubkey := HeteroLRBase_transfer_pubkey |}.

(** Lines 82-84. *)
Definition is_respectively_reviewed (s : Self) : bool :=
  String.eqb (review_strategy (model_param s)) "respectively".

(** Lines 86-107.  [source = [w, self.other_party]]; the elements of the
    returned tuple are evaluated left to right. *)
Definition share_init_model (w : list Coef) (fix_point_encoder : Encoder)
    (n_iter : Z) : M (Tensor * Tensor) :=
  s <- get_self;;
  let source := (w, other_party s) in
  if Role_eqb (local_party_role s) GUEST then
    wb <- call (EvFromSource (tensor_name "wb" n_iter) (inl (fst source)))
            (from_source (tensor_name "wb" n_iter) (inl (fst source))
               fix_point_encoder (random_field s));;
    wa <- call (EvFromSource (tensor_name "wa" n_iter) (inr (snd source)))
            (from_source (tensor_name "wa" n_iter) (inr (snd source))
               fix_point_encoder (random_field s));;
    ret (wb, wa)
  else
    wa <- call (EvFromSource (tensor_name "wa" n_iter) (inl (fst source)))
            (from_source (tensor_name "wa" n_iter) (inl (fst source))
               fix_point_encoder (random_field s));;
    wb <- call (EvFromSource (tensor_name "wb" n_iter) (inr (snd source)))
            (from_source (tensor_name "wb" n_iter) (inr (snd source))
               fix_point_encoder (random_field s));;
    ret (wa, wb).

(** [t.reconstruct_unilateral(tensor_name=name)] and
    [t.broadcast_reconstruct_share(tensor_name=name)]. *)
Definition do_reconstruct_unilateral (t : Tensor) (name : string) : M (list Coef) :=
  call (EvReconstructUnilateral t name) (reconstruct_unilateral t name).

Definition do_broadcast_reconstruct_share (t : Tensor) (name : string) : M unit :=
  call (EvBroadcastReconstructShare t name) (broadcast_reconstruct_share t name).

(** Lines 213-240.  [w_remote.shape[0]] needs a tensor of at least one
    dimension. *)
Definition review_models (w_self w_remote : Tensor) : M (list Coef) :=
  enter (EvReviewModels w_self w_remote);;;
  s <- get_self;;
  new_w <-
    (if String.eqb (review_strategy (model_param s)) "respectively" then
       if Role_eqb (role s) GUEST then
         new_w <- do_reconstruct_unilateral w_self (tensor_name "wb" (n_iter_ s));;
         do_broadcast_reconstruct_share w_remote (tensor_name "wa" (n_iter_ s));;;
         ret new_w
       else
         do_broadcast_reconstruct_share w_remote (tensor_name "wb" (n_iter_ s));;;
         new_w <- do_reconstruct_unilateral w_self (tensor_name "wa" (n_iter_ s));;
         ret new_w
     else if String.eqb (review_strategy (model_param s)) "all_review_in_guest" then
       if Role_eqb (role s) GUEST then
         new_w <- do_reconstruct_unilateral w_self (tensor_name "wb" (n_iter_ s));;
         hosted_weights <-
           do_reconstruct_unilateral w_remote (tensor_name "wa" (n_iter_ s));;
         modify_self (set_hosted_model_weights
           [ {| unboxed := hosted_weights; lmw_fit_intercept := false |} ]);;;
         ret new_w
       else
         match tensor_shape w_remote with
         | [] => raise (IndexError "tuple index out of range")
         | d :: _ =>
             if Nat.ltb 2 d then
               raise (ValueError
                 "Too many features in Guest. Review strategy: 'all_review_in_guest' should not be used.")
             else
               do_broadcast_reconstruct_share w_remote (tensor_name "wb" (n_iter_ s));;;
               do_broadcast_reconstruct_share w_self (tensor_name "wa" (n_iter_ s));;;
               ret (np_zeros (tensor_shape w_self))
         end
     else
       raise (NotImplementedError "review strategy: {} has not been implemented."));;
  modify_self (set_model_weights
    (Some {| unboxed := new_w;
             lmw_fit_intercept := init_param_fit_intercept (model_param s) |}));;;
  ret new_w.

(** The local variables of [fit_binary] that the training loop updates.
    [new_w] is unbound until the first batch has been processed. *)
Record Locals : Type := {
  w_self : Tensor;
  w_remote : Tensor;
  new_w : option (list Coef);
  last_models : list Coef * list (LinearModelWeights Coef)
}.

(** Lines 174-192: the body of the [for] loop over the batches.  On GUEST
    the labels and the encoder have been set by lines 148 and 157. *)
Definition batch_step (mt : Methods) (spdz : Spdz) (lv : Locals)
    (item : nat * TableTensor) : M Locals :=
  let batch_idx := fst item in
  let batch_data := snd item in
  s <- get_self;;
  let current_suffix := [TagInt (n_iter_ s); TagInt (Z.of_nat batch_idx)] in
  y <- call (EvCalPrediction (w_self lv) (w_remote lv) batch_data current_suffix)
         (cal_prediction mt s (w_self lv) (w_remote lv) batch_data spdz current_suffix);;
  ws <-
    (if Role_eqb (role s) GUEST then
       match labels s, fixpoint_encoder s with
       | Some lbl, Some enc =>
           let error := table_join_sub (table_tensor_value y) lbl in
           let error := table_tensor_from_value error (encoder_n enc) enc in
           r <- call (EvComputeGradient (w_remote lv) (w_self lv) error batch_data
                        current_suffix)
                  (compute_gradient mt s (w_remote lv) (w_self lv) error batch_data
                     current_suffix);;
           (* w_remote, w_self = ... *)
           ret (snd r, fst r)
       | _, _ => raise (AttributeError "'NoneType' object has no attribute")
       end
     else
       r <- call (EvComputeGradient (w_self lv) (w_remote lv) y batch_data
                    current_suffix)
              (compute_gradient mt s (w_self lv) (w_remote lv) y batch_data
                 current_suffix);;
       (* w_self, w_remote = ... *)
       ret (fst r, snd r));;
  new_w' <- review_models (fst ws) (snd ws);;
  modify_self (set_model_weights
    (Some {| unboxed := new_w';
             lmw_fit_intercept := init_param_fit_intercept (model_param s) |}));;;
  ret {| w_self := fst ws; w_remote := snd ws; new_w := Some new_w';
         last_models := last_models lv |}.

(** Line 172: [for batch_idx, batch_data in enumerate(encoded_batch_data)]. *)
Fixpoint for_batches (mt : Methods) (spdz : Spdz)
    (items : list (nat * TableTensor)) (lv : Locals) : M Locals :=
  match items with
  | [] => ret lv
  | item :: rest =>
      lv' <- batch_step mt spdz lv item;;
      for_batches mt spdz rest lv'
  end.

(** How one pass through the body of the [while] loop ends: at its last
    statement, at the [break] of line 203 or at the [break] of line 206. *)
Inductive Flow : Type := Continue | BreakEarlyStop | BreakConverged.

(** How the [while] loop is left without an exception: its condition is
    false, or one of the two [break] statements ran. *)
Inductive Exit : Type := MaxIterReached | EarlyStop | Converged.

(** Lines 172-207: one epoch, the body of the [while] loop. *)
Definition epoch (mt : Methods) (spdz : Spdz)
    (encoded_batch_data : list TableTensor) (lv : Locals) : M (Flow * Locals) :=
  lv <- for_batches mt spdz (enumerate encoded_batch_data) lv;;
  match new_w lv with
  | None => raise (UnboundLocalError "local variable 'new_w' referenced before assignment")
  | Some nw =>
      s <- get_self;;
      conv <- call (EvCheckConverge [TagInt (n_iter_ s)])
                (check_converge (last_models lv) nw [TagInt (n_iter_ s)]);;
      modify_self (set_is_converged conv);;;
      s <- get_self;;
      let lv := {| w_self := w_self lv; w_remote := w_remote lv; new_w := new_w lv;
                   last_models := (nw, hosted_model_weights s) |} in
      stop <-
        match validation_strategy s with
        | Some vs =>
            call (EvValidate (n_iter_ s)) (validate vs (n_iter_ s));;;
            call EvNeedStop (need_stop vs)
        | None => ret false
        end;;
      if stop then ret (BreakEarlyStop, lv)
      else if is_converged s then ret (BreakConverged, lv)
      else
        modify_self (fun s => set_n_iter_ (n_iter_ s + 1) s);;;
        ret (Continue, lv)
  end.

(** Line 170: [while self.n_iter_ < self.max_iter].  [None] means the fuel
    ran out before the loop was left. *)
Fixpoint while_loop (fuel : nat) (mt : Methods) (spdz : Spdz)
    (encoded_batch_data : list TableTensor) (lv : Locals) (st : St) :
    option (result (Exit * Locals) * St) :=
  if n_iter_ (self st) <? max_iter (self st) then
    match fuel with
    | O => None
    | S fuel' =>
        match epoch mt spdz encoded_batch_data lv st with
        | (Ok (Continue, lv'), st') =>
            while_loop fuel' mt spdz encoded_batch_data lv' st'
        | (Ok (BreakEarlyStop, lv'), st') => Some (Ok (EarlyStop, lv'), st')
        | (Ok (BreakConverged, lv'), st') => Some (Ok (Converged, lv'), st')
        | (Raise e, st') => Some (Raise e, st')
        end
    end
  else Some (Ok (MaxIterReached, lv), st).

(** Lines 146-207 of [fit_binary].  The results of the preparation steps
    that do not belong to the class are arguments: the validation strategy
    (line 141), the initial weights [w] (line 144), the label table
    (line 148), the SPDZ session (line 151) and the encoded batches
    (lines 160-168).  The model export after the loop (lines 209-211) is
    not part of the training loop and is left out. *)
Definition fit_binary (fuel : nat) (mt : Methods) (spdz : Spdz)
    (vs : option ValidationStrategy) (w : list Coef) (label_table : Table)
    (encoded_batch_data : list TableTensor) (st : St) :
    option (result (Exit * Locals) * St) :=
  let prepare : M Locals :=
    modify_self (set_validation_strategy vs);;;
    s <- get_self;;
    let last_models := (w, hosted_model_weights s) in
    (if Role_eqb (role s) GUEST then modify_self (set_labels (Some label_table))
     else ret tt);;;
    s <- get_self;;
    remote_pubkey <- call EvTransferPubkey (transfer_pubkey mt s);;
    let enc := create_fixpoint_encoder (pubkey_n remote_pubkey) in
    modify_self (set_fixpoint_encoder (Some enc));;;
    ws <- share_init_model w enc (-1);;
    ret {| w_self := fst ws; w_remote := snd ws; new_w := None;
           last_models := last_models |} in
  match prepare st with
  | (Ok lv, st') => while_loop fuel mt spdz encoded_batch_data lv st'
  | (Raise e, st') => Some (Raise e, st')
  end.

(** [for x in l: body(x)] *)
Fixpoint for_each {A} (l : list A) (body : A -> M unit) : M unit :=
  match l with
  | [] => ret tt
  | x :: rest => body x;;; for_each rest body
  end.

(** [for x in l: res.append(body(x))] *)
Fixpoint for_append {A B} (l : list A) (res : list B) (body : A -> M B) : M (list B) :=
  match l with
  | [] => ret res
  | x :: rest => r <- body x;; for_append rest (res ++ [r])%list body
  end.

(** Lines 242-263.  [kwargs] maps keyword names to tensors; the method
    returns [None] on HOST and a 3-tuple otherwise. *)
Definition share_z (suffix : suffix_t) (kwargs : gmap string TableTensor) :
    M (option (PaillierFixedPointTensor * PaillierFixedPointTensor *
               PaillierFixedPointTensor)) :=
  s <- get_self;;
  if Role_eqb (role s) HOST then
    for_each ["z"] (fun var_name =>
      match kwargs !! var_name with
      | None => raise (KeyError var_name)
      | Some z =>
          match cipher s with
          | None => raise (AttributeError "'NoneType' object has no attribute 'distribute_encrypt'")
          | Some ci =>
              encrypt_z <- call (EvDistributeEncrypt (table_tensor_value z))
                             (distribute_encrypt ci (table_tensor_value z));;
              call (EvRemote encrypt_z GUEST (TagStr var_name :: suffix))
                (encrypted_share_matrix_remote encrypt_z GUEST
                   (TagStr var_name :: suffix))
          end
      end);;;
    ret None
  else
    res <- for_append ["z"] [] (fun var_name =>
      let dest_role := if Role_eqb (role s) HOST then GUEST else HOST in
      z_table <- call (EvGet dest_role 0 (TagStr var_name :: suffix))
                   (encrypted_share_matrix_get dest_role 0
                      (TagStr var_name :: suffix));;
      match fixpoint_encoder s with
      | None => raise (AttributeError "'NoneType' object has no attribute 'n'")
      | Some enc =>
          ret {| pft_value := z_table; pft_q_field := encoder_n enc;
                 pft_endec := enc |}
      end);;
    match res !! 0%nat with
    | Some r => ret (Some (r, r, r))
    | None => raise (IndexError "list index out of range")
    end.

(** The dictionary built by [get_single_model_param]; [load_single_model]
    reads the fields [weight], [intercept] and [iters] of the same
    record. *)
Record SingleModelParam : Type := {
  iters : Z;
  res_loss_history : list Coef;
  res_is_converged : bool;
  weight : gmap string Coef;
  intercept : Coef;
  res_header : list string;
  res_best_iteration : Z
}.

(** Lines 283-285: [weight_dict[header_name] = model_weights.coef_[idx]]. *)
Fixpoint fill_weight_dict (items : list (nat * string))
    (model_weights : option (LinearModelWeights Coef))
    (weight_dict : gmap string Coef) : result (gmap string Coef) :=
  match items with
  | [] => Ok weight_dict
  | (idx, header_name) :: rest =>
      match model_weights with
      | None => Raise (AttributeError "'NoneType' object has no attribute 'coef_'")
      | Some mw =>
          match coef_ mw !! idx with
          | None => Raise (IndexError "index is out of bounds")
          | Some coef_i =>
              fill_weight_dict rest model_weights (<[header_name := coef_i]> weight_dict)
          end
      end
  end.

(** Lines 279-296.  [x if x else y] takes [y] when [x] is [None] (or, for
    the header, an empty list). *)
Definition get_single_model_param (s : Self)
    (model_weights_arg : option (LinearModelWeights Coef))
    (header_arg : option (list string)) : result SingleModelParam :=
  let weight_dict : gmap string Coef := ∅ in
  let mw := match model_weights_arg with
            | Some m => Some m
            | None => model_weights s
            end in
  let hdr := match header_arg with
             | Some (h :: t) => Some (h :: t)
             | _ => header s
             end in
  match hdr with
  | None => Raise (TypeError "'NoneType' object is not iterable")
  | Some hdr =>
      (weight_dict <- fill_weight_dict (enumerate hdr) mw weight_dict;;
       match model_weights s with
       | None => Raise (AttributeError "'NoneType' object has no attribute 'intercept_'")
       | Some smw =>
           Ok {| iters := n_iter_ s;
                 res_loss_history := loss_history s;
                 res_is_converged := is_converged s;
                 weight := weight_dict;
                 intercept := intercept_ zero smw;
                 res_header := hdr;
                 res_best_iteration :=
                   match validation_strategy s with
                   | None => -1
                   | Some vs => best_iteration vs
                   end |}
       end)%result
  end.

(** Lines 328-329: [tmp_vars[idx] = weight_dict.get(header_name)].  For a
    missing name [dict.get] gives [None], and the [float64] array
    [tmp_vars] stores [None] as [nan]; nothing is raised. *)
Fixpoint fill_tmp_vars (items : list (nat * string))
    (weight_dict : gmap string Coef) (tmp_vars : list Coef) : result (list Coef) :=
  match items with
  | [] => Ok tmp_vars
  | (idx, header_name) :: rest =>
      match weight_dict !! header_name with
      | None => fill_tmp_vars rest weight_dict (<[idx := nan]> tmp_vars)
      | Some v => fill_tmp_vars rest weight_dict (<[idx := v]> tmp_vars)
      end
  end.

(** Lines 322-335.  The method returns [self]. *)
Definition load_single_model (s : Self) (single_model_obj : SingleModelParam) :
    result Self :=
  match header s with
  | None => Raise (TypeError "object of type 'NoneType' has no len()")
  | Some hdr =>
      let feature_shape := length hdr in
      let tmp_vars := np_zeros [feature_shape] in
      let weight_dict := weight single_model_obj in
      (tmp_vars <- fill_tmp_vars (enumerate hdr) weight_dict tmp_vars;;
       let tmp_vars :=
         if fit_intercept s then (tmp_vars ++ [intercept single_model_obj])%list
         else tmp_vars in
       Ok (set_n_iter_ (iters single_model_obj)
             (set_model_weights
                (Some {| unboxed := tmp_vars; lmw_fit_intercept := fit_intercept s |})
                s)))%result
  end.

(** *** Reading the log and the object *)

(** The attributes that steer the training loop. *)
Definition same_control (s s' : Self) : Prop :=
  n_iter_ s' = n_iter_ s /\
  max_iter s' = max_iter s /\
  is_converged s' = is_converged s /\
  validation_strategy s' = validation_strategy s /\
  role s' = role s.

(** The tensors a batch step passes as [wa] and [wb] to
    [compute_gradient], read off lines 183 and 187. *)
Definition grad_wa (s : Self) (lv : Locals) : Tensor :=
  if Role_eqb (role s) GUEST then w_remote lv else w_self lv.

Definition grad_wb (s : Self) (lv : Locals) : Tensor :=
  if Role_eqb (role s) GUEST then w_self lv else w_remote lv.


(** The two halves of the reconstruction protocol. *)
Definition is_tensor_op (ev : Event) : bool :=
  match ev with
  | EvReconstructUnilateral _ _ | EvBroadcastReconstructShare _ _ => true
  | _ => false
  end.


Definition is_review_call (ev : Event) : bool :=
  match ev with EvReviewModels _ _ => true | _ => false end.

Definition is_broadcast (ev : Event) : bool :=
  match ev with EvBroadcastReconstructShare _ _ => true | _ => false end.

Definition is_check_converge (ev : Event) : bool :=
  match ev with EvCheckConverge _ => true | _ => false end.

(** Number of times [review_models] was entered. *)
Definition review_calls (l : list Event) : nat :=
  length (List.filter is_review_call l).

(** Number of epochs that got as far as the convergence check. *)
Definition epochs_checked (l : list Event) : nat :=
  length (List.filter is_check_converge l).


End Base.

End LRBase.

(** ** A small concrete engine

    A stand-in for the collaborators, used to run the methods on concrete
    inputs: tensors remember their name, what they were built from and
    their shape; tables are strings; coefficients are integers, with one
    integer set apart to stand for [nan]; the world is empty; no call
    fails. *)

Module Example.

Import LRBase.

Record TestTensor : Type := {
  tt_name : string;
  tt_source : list Z + string;
  tt_shape : list nat
}.

#[local] Instance test_engine : Engine := {|
  Coef := Z;
  zero := 0;
  nan := -999;
  Party := string;
  Encoder := Z;
  PubKey := Z;
  Cipher := unit;
  Spdz := unit;
  Tensor := TestTensor;
  TableTensor := string;
  Table := string;
  ValidationStrategy := unit;
  World := unit;
  tensor_shape := tt_shape;
  encoder_n := fun n => n;
  pubkey_n := fun n => n;
  table_tensor_value := fun t => t;
  best_iteration := fun _ => 0;
  table_join_sub := fun a b => a ++ "-" ++ b;
  table_tensor_from_value := fun t _ _ => t;
  create_fixpoint_encoder := fun n => n;
  from_source := fun name src _ _ w =>
    (Ok {| tt_name := name; tt_source := src;
           tt_shape := [match src with inl l => length l | inr _ => 0%nat end] |}, w);
  reconstruct_unilateral := fun t _ w =>
    (Ok (replicate (foldr Nat.mul 1%nat (tt_shape t)) 1), w);
  broadcast_reconstruct_share := fun _ _ w => (Ok tt, w);
  distribute_encrypt := fun _ v w => (Ok ("enc(" ++ v ++ ")"), w);
  encrypted_share_matrix_remote := fun _ _ _ w => (Ok tt, w);
  encrypted_share_matrix_get := fun _ _ _ w => (Ok "ciphertext", w);
  check_converge := fun _ _ _ w => (Ok false, w);
  validate := fun _ _ w => (Ok tt, w);
  need_stop := fun _ w => (Ok false, w)
|}.

(** A variant whose secure operations succeed: the prediction is a named
    table and the gradient step hands back the shares it was given. *)
Definition test_methods : Methods :=
  {| cal_prediction := fun _ _ _ _ _ _ w => (Ok "y", w);
     compute_gradient := fun _ wa wb _ _ _ w => (Ok (wa, wb), w);
     transfer_pubkey := fun _ w => (Ok 7, w) |}.

Definition test_self (r : Role) (strategy : string) (max_it : Z) : Self :=
  {| role := r;
     local_party_role := r;
     other_party := "peer";
     model_param := {| review_strategy := strategy;
                       init_param_fit_intercept := false;
                       use_mix_rand := false |};
     random_field := 2 ^ 20;
     max_iter := max_it;
     fit_intercept := false;
     header := Some ["x0"; "x1"];
     cipher := Some tt;
     validation_strategy := None;
     labels := Some "labels";
     fixpoint_encoder := Some 7;
     n_iter_ := 0;
     is_converged := false;
     loss_history := [];
     model_weights := None;
     hosted_model_weights := [] |}.

Definition test_st (r : Role) (strategy : string) (max_it : Z) : St :=
  {| self := test_self r strategy max_it; world := tt; log := [] |}.

(** A share of dimension [n] named [name]. *)
Definition share (name : string) (n : nat) : TestTensor :=
  {| tt_name := name; tt_source := inr "peer"; tt_shape := [n] |}.

Definition test_locals (a b : TestTensor) : Locals :=
  {| w_self := a; w_remote := b; new_w := None; last_models := ([], []) |}.

(** A fitted object: two named coefficients and an intercept. *)
Definition fitted_self : Self :=
  {| role := HOST;
     local_party_role := HOST;
     other_party := "peer";
     model_param := {| review_strategy := "respectively";
                       init_param_fit_intercept := true;
                       use_mix_rand := false |};
     random_field := 2 ^ 20;
     max_iter := 5;
     fit_intercept := true;
     header := Some ["x0"; "x1"];
     cipher := None;
     validation_strategy := None;
     labels := None;
     fixpoint_encoder := None;
     n_iter_ := 4;
     is_converged := true;
     loss_history := [];
     model_weights := Some {| unboxed := [3; 4; 5]; lmw_fit_intercept := true |};
     hosted_model_weights := [] |}.

(** An object whose header repeats a feature name. *)
Definition dup_self : Self :=
  {| role := GUEST;
     local_party_role := GUEST;
     other_party := "peer";
     model_param := {| review_strategy := "respectively";
                       init_param_fit_intercept := false;
                       use_mix_rand := false |};
     random_field := 2 ^ 20;
     max_iter := 5;
     fit_intercept := false;
     header := Some ["x"; "x"];
     cipher := None;
     validation_strategy := None;
     labels := None;
     fixpoint_encoder := None;
     n_iter_ := 3;
     is_converged := false;
     loss_history := [];
     model_weights := Some {| unboxed := [1; 2]; lmw_fit_intercept := false |};
     hosted_model_weights := [] |}.

End Example.

(** ** More of [hetero_sshe_lr_param.py]: the constructor *)

Module ParamInit.

Import Param.

Section Init.

Context `{subs : SubParams}.

(** Truth value of a Python value, as [x or y] tests it: [None], [False],
    zero, the empty string and the empty containers are false. *)
Definition py_truthy (v : pyval) : bool :=
  match v with
  | PyNone => false
  | PyBool b => b
  | PyInt n => negb (n =? 0)
  | PyFloat (FFinite m _) => negb (m =? 0)
  | PyFloat _ => true
  | PyStr s => negb (String.eqb s "")
  | PyList l | PyTuple l | PySet l =>
      match l with [] => false | _ :: _ => true end
  end.

(** Lines 110-145: [LogisticRegressionParam.__init__], arguments in the
    order of the signature.  [copy.deepcopy] of a value is the value; the
    one computed attribute is [self.metrics = metrics or []]. *)
Definition __init__
    (penalty tol alpha optimizer batch_size learning_rate : pyval)
    (init_param : InitParam) (max_iter early_stop : pyval)
    (encrypt_param : EncryptParam) (predict_param : PredictParam)
    (decay decay_sqrt multi_class validation_freqs early_stopping_rounds : pyval)
    (stepwise_param : StepwiseParam)
    (floating_point_precision metrics use_first_metric_only use_mix_rand
       random_field review_strategy : pyval) : LogisticRegressionParam :=
  {| Param.penalty := penalty;
     Param.tol := tol;
     Param.alpha := alpha;
     Param.optimizer := optimizer;
     Param.batch_size := batch_size;
     Param.learning_rate := learning_rate;
     Param.init_param := init_param;
     Param.max_iter := max_iter;
     Param.early_stop := early_stop;
     Param.encrypt_param := encrypt_param;
     Param.predict_param := predict_param;
     Param.random_field := random_field;
     Param.decay := decay;
     Param.decay_sqrt := decay_sqrt;
     Param.multi_class := multi_class;
     Param.validation_freqs := validation_freqs;
     Param.stepwise_param := stepwise_param;
     Param.early_stopping_rounds := early_stopping_rounds;
     Param.metrics := if py_truthy metrics then metrics else PyList [];
     Param.use_first_metric_only := use_first_metric_only;
     Param.floating_point_precision := floating_point_precision;
     Param.use_mix_rand := use_mix_rand;
     Param.review_strategy := review_strategy |}.

End Init.

End ParamInit.

(** ** More ways to read the log of [HeteroLRBase] *)

Module LRBaseMore.

Import LRBase.

Section Reading.

Context `{eng : Engine}.

Local Open Scope list_scope.

(** The two sides of the reconstruction protocol. *)
Inductive ReviewOp : Type := Reconstruct | Broadcast.

Definition other_side (o : ReviewOp) : ReviewOp :=
  match o with Reconstruct => Broadcast | Broadcast => Reconstruct end.

(** The reconstruction calls of a log: which side, and under which tag. *)
Definition review_ops (l : list Event) : list (ReviewOp * string) :=
  omap (fun ev => match ev with
                  | EvReconstructUnilateral _ name => Some (Reconstruct, name)
                  | EvBroadcastReconstructShare _ name => Some (Broadcast, name)
                  | _ => None
                  end) l.

(** The reconstruction calls one [review_models] makes, read off lines
    213-237 branch by branch. *)
Definition review_ops_of (r : Role) (strategy : string) (n : Z) :
    list (ReviewOp * string) :=
  if String.eqb strategy "respectively" then
    if Role_eqb r GUEST then
      [(Reconstruct, tensor_name "wb" n); (Broadcast, tensor_name "wa" n)]
    else
      [(Broadcast, tensor_name "wb" n); (Reconstruct, tensor_name "wa" n)]
  else
    if Role_eqb r GUEST then
      [(Reconstruct, tensor_name "wb" n); (Reconstruct, tensor_name "wa" n)]
    else
      [(Broadcast, tensor_name "wb" n); (Broadcast, tensor_name "wa" n)].

(** The suffixes of the [cal_prediction] calls of a log. *)
Definition prediction_suffixes (l : list Event) : list suffix_t :=
  omap (fun ev => match ev with
                  | EvCalPrediction _ _ _ suffix => Some suffix
                  | _ => None
                  end) l.

(** The calls the body of the training loop makes itself, lines 174-194:
    the prediction and the gradient step of a batch, each with its suffix,
    the entry into [review_models], and the convergence check. *)
Inductive LoopCall : Type :=
| CallPrediction (suffix : suffix_t)
| CallGradient (suffix : suffix_t)
| CallReview
| CallCheckConverge (suffix : suffix_t).

(** Those calls as a log has them, in order; the reconstruction calls made
    inside [review_models] and the validation calls are left out. *)
Definition loop_calls (l : list Event) : list LoopCall :=
  omap (fun ev => match ev with
                  | EvCalPrediction _ _ _ suffix => Some (CallPrediction suffix)
                  | EvComputeGradient _ _ _ _ suffix => Some (CallGradient suffix)
                  | EvReviewModels _ _ => Some CallReview
                  | EvCheckConverge suffix => Some (CallCheckConverge suffix)
                  | _ => None
                  end) l.



(** [self] as lines 141-148 of [fit_binary] leave it: the validation
    strategy stored, and on GUEST the label table. *)
Definition prepared_self (vs : option ValidationStrategy) (label_table : Table)
    (s : Self) : Self :=
  let s1 := set_validation_strategy vs s in
  if Role_eqb (role s1) GUEST then set_labels (Some label_table) s1 else s1.

End Reading.

End LRBaseMore.

(** ** More concrete inputs *)

Module ExampleMore.

Import LRBase Example.

#[local] Existing Instance test_engine.

(** An object whose header has three names for two coefficients. *)
Definition long_header_self : Self :=
  {| role := GUEST;
     local_party_role := GUEST;
     other_party := "peer";
     model_param := {| review_strategy := "respectively";
                       init_param_fit_intercept := false;
                       use_mix_rand := false |};
     random_field := 2 ^ 20;
     max_iter := 5;
     fit_intercept := false;
     header := Some ["a"; "b"; "c"];
     cipher := None;
     validation_strategy := None;
     labels := None;
     fixpoint_encoder := None;
     n_iter_ := 0;
     is_converged := false;
     loss_history := [];
     model_weights := Some {| unboxed := [1; 2]; lmw_fit_intercept := false |};
     hosted_model_weights := [] |}.

(** A saved record with a spare weight and a header of its own. *)
Definition spare_record : SingleModelParam :=
  {| iters := 9;
     res_loss_history := [];
     res_is_converged := false;
     weight := {[ "x1" := 4; "x0" := 3; "spare" := 8 ]};
     intercept := 5;
     res_header := ["spare"];
     res_best_iteration := -1 |}.

(** A saved record that lacks the weight of [x1]. *)
Definition partial_record : SingleModelParam :=
  {| iters := 9;
     res_loss_history := [];
     res_is_converged := false;
     weight := {[ "x0" := 3; "spare" := 8 ]};
     intercept := 5;
     res_header := ["x0"; "x1"];
     res_best_iteration := -1 |}.

End ExampleMore.

(** * Properties of [LogisticRegressionParam.check] *)

Module ParamProofs.

Import Param.

Section CheckProofs.

Context `{SubParams}.
Variable c : consts.

Lemma check_penalty_ValueError v : value_or_ValueError (check_penalty c v).
Proof.
  destruct v; simpl; trivial.
  destruct (negb _); simpl; trivial.
Qed.

Lemma check_tol_ValueError v : value_or_ValueError (check_tol v).
Proof. unfold check_tol. destruct (negb _); simpl; trivial. Qed.

Lemma check_alpha_ValueError v : value_or_ValueError (check_alpha v).
Proof. unfold check_alpha. destruct (negb _); simpl; trivial. Qed.

Lemma check_optimizer_ValueError v : value_or_ValueError (check_optimizer v).
Proof.
  destruct v; simpl; trivial.
  destruct (negb _); simpl; trivial.
Qed.

(** The batch-size clause on its own: it accepts exactly the acceptable
    values and raises [ValueError] on every other one. *)
Lemma check_batch_size_spec v :
  if batch_size_ok c v then check_batch_size c v = Ok tt
  else is_ValueError (check_batch_size c v) = true.
Proof.
  unfold batch_size_ok, check_batch_size.
  destruct (py_eq_int v (-1)) eqn:E; simpl; [reflexivity|].
  destruct v; simpl; try reflexivity.
  rewrite Z.leb_antisym. destruct (n <? MIN_BATCH_SIZE c); reflexivity.
Qed.

(** Only clauses that raise [ValueError] come before the batch-size
    clause, so an unacceptable batch size always ends in [ValueError]. *)
Lemma check_bad_batch_size p v :
  batch_size_ok c v = false ->
  is_ValueError (check c (with_batch_size p v)) = true.
Proof.
  intros Hbad. unfold check, rbind. simpl.
  pose proof (check_penalty_ValueError (penalty p)) as H1.
  pose proof (check_tol_ValueError (tol p)) as H2.
  pose proof (check_alpha_ValueError (alpha p)) as H3.
  pose proof (check_optimizer_ValueError (optimizer p)) as H4.
  pose proof (check_batch_size_spec v) as H5. rewrite Hbad in H5.
  destruct (check_penalty c (penalty p)) as [?|[]]; simpl in *; try easy.
  destruct (check_tol (tol p)) as [?|[]]; simpl in *; try easy.
  destruct (check_alpha (alpha p)) as [?|[]]; simpl in *; try easy.
  destruct (check_optimizer (optimizer p)) as [?|[]]; simpl in *; try easy.
  destruct (check_batch_size c v) as [?|[]]; simpl in *; easy.
Qed.

(** In a configuration that passes, the batch size can be replaced by any
    acceptable value, and by no other. *)
Lemma check_other_batch_size p v :
  is_ok (check c p) = true ->
  is_ok (check c (with_batch_size p v)) = batch_size_ok c v.
Proof.
  unfold check, rbind. simpl. intros Hok.
  pose proof (check_batch_size_spec v) as H5.
  destruct (check_penalty c (penalty p)); simpl in *; [|discriminate].
  destruct (check_tol (tol p)); simpl in *; [|discriminate].
  destruct (check_alpha (alpha p)); simpl in *; [|discriminate].
  destruct (check_optimizer (optimizer p)); simpl in *; [|discriminate].
  destruct (check_batch_size c (batch_size p)); simpl in *; [|discriminate].
  destruct (batch_size_ok c v).
  - rewrite H5.
    repeat match type of Hok with
    | context [match ?r with Ok _ => _ | Raise _ => _ end] =>
        destruct r; simpl in *; try discriminate
    end.
    reflexivity.
  - destruct (check_batch_size c v) as [?|[]]; simpl in *; easy.
Qed.

Lemma zero_not_acceptable : 0 < MIN_BATCH_SIZE c -> batch_size_ok c (PyInt 0) = false.
Proof.
  intros Hmin. unfold batch_size_ok. simpl.
  apply Z.leb_gt. exact Hmin.
Qed.

(** C7: [check] accepts a batch size exactly when it equals [-1] or is an
    [int] not below [MIN_BATCH_SIZE].  Any other value makes [check]
    raise [ValueError], whatever the rest of the configuration is; in a
    configuration that is otherwise valid, every acceptable value passes.
    With a positive [MIN_BATCH_SIZE], [batch_size = 0] is rejected.
    [check] is a function of the parameter object alone: it has no access
    to the collaborators' world, so nothing is exchanged before it
    raises. *)
Theorem check_batch_size_accepts_exactly (p : LogisticRegressionParam) (v : pyval) :
  (batch_size_ok c v = false ->
     is_ValueError (check c (with_batch_size p v)) = true) /\
  (is_ok (check c p) = true ->
     (is_ok (check c (with_batch_size p v)) = true <-> batch_size_ok c v = true)) /\
  (0 < MIN_BATCH_SIZE c ->
     is_ValueError (check c (with_batch_size p (PyInt 0))) = true).
Proof.
  split; [apply check_bad_batch_size|]. split.
  - intros Hok. rewrite (check_other_batch_size p v Hok). tauto.
  - intros Hmin. apply check_bad_batch_size, zero_not_acceptable, Hmin.
Qed.

(** The review-strategy clause on the guest-only strategy. *)
Lemma check_review_strategy_guest_only s :
  lower s = "all_review_in_guest" ->
  check_review_strategy c (PyStr s) =
    if ALLOW_REVIEW_GUEST_ONLY c then Ok (PyStr "all_review_in_guest")
    else Raise (PermissionError
                  "review strategy: all_review_in_guest has not been authorized.").
Proof.
  intros Hs. unfold check_review_strategy. simpl. rewrite Hs. simpl.
  destruct (ALLOW_REVIEW_GUEST_ONLY c); reflexivity.
Qed.

Lemma check_review_strategy_respectively :
  check_review_strategy c (PyStr "respectively") = Ok (PyStr "respectively").
Proof.
  unfold check_review_strategy. simpl.
  destruct (ALLOW_REVIEW_GUEST_ONLY c); reflexivity.
Qed.

Lemma check_guest_only_refused p s :
  review_strategy p = PyStr s ->
  lower s = "all_review_in_guest" ->
  ALLOW_REVIEW_GUEST_ONLY c = false ->
  is_ok (check c p) = false.
Proof.
  intros Hp Hs Hflag. unfold check, rbind.
  rewrite Hp, (check_review_strategy_guest_only s Hs), Hflag.
  repeat match goal with
  | |- context [match ?r with Ok _ => _ | Raise _ => _ end] =>
      destruct r; simpl; try reflexivity
  end.
Qed.

Lemma check_guest_only_gated p s :
  review_strategy p = PyStr s ->
  lower s = "all_review_in_guest" ->
  is_ok (check c (with_review_strategy p (PyStr "respectively"))) = true ->
  if ALLOW_REVIEW_GUEST_ONLY c then is_ok (check c p) = true
  else is_PermissionError (check c p) = true.
Proof.
  intros Hp Hs. unfold check, rbind.
  rewrite Hp, (check_review_strategy_guest_only s Hs).
  cbn -[check_review_strategy].
  rewrite check_review_strategy_respectively.
  intros Hok.
  repeat match type of Hok with
  | context [match ?r with Ok _ => _ | Raise _ => _ end] =>
      destruct r; simpl in *; try discriminate
  end.
  destruct (ALLOW_REVIEW_GUEST_ONLY c); reflexivity.
Qed.

(** C5: when the review strategy lower-cases to ["all_review_in_guest"],
    [check] never passes without the flag [ALLOW_REVIEW_GUEST_ONLY]; in a
    configuration whose other options are valid (it passes with
    ["respectively"]) the refusal is the [PermissionError] of the last
    clause, and with the flag set the same configuration passes.  [check]
    is a function of the parameter object and the constants alone, so the
    refusal comes before anything is exchanged. *)
Theorem check_guest_only_needs_authorization (p : LogisticRegressionParam) (s : string) :
  review_strategy p = PyStr s ->
  lower s = "all_review_in_guest" ->
  (ALLOW_REVIEW_GUEST_ONLY c = false -> is_ok (check c p) = false) /\
  (is_ok (check c (with_review_strategy p (PyStr "respectively"))) = true ->
     if ALLOW_REVIEW_GUEST_ONLY c then is_ok (check c p) = true
     else is_PermissionError (check c p) = true).
Proof.
  intros Hp Hs. split.
  - apply (check_guest_only_refused p s Hp Hs).
  - apply (check_guest_only_gated p s Hp Hs).
Qed.

End CheckProofs.

(** The batch-size theorem at the default configuration, with
    [MIN_BATCH_SIZE = 10]: [0] and [True] are refused, [-1] and [10] pass. *)
Lemma check_batch_size_accepts_exactly_witness :
  is_ValueError (check (test_consts true) (with_batch_size default_param (PyInt 0))) = true /\
  is_ValueError (check (test_consts true) (with_batch_size default_param (PyBool true))) = true /\
  is_ok (check (test_consts true) (with_batch_size default_param (PyInt 10))) = true.
Proof.
  split; [|split].
  - apply (check_batch_size_accepts_exactly (test_consts true) default_param (PyInt 0)).
    reflexivity.
  - apply (check_batch_size_accepts_exactly (test_consts true) default_param (PyBool true)).
    reflexivity.
  - apply (check_batch_size_accepts_exactly (test_consts true) default_param (PyInt 10));
      reflexivity.
Defined.

(** The authorization theorem at the default configuration with the
    strategy written in mixed case. *)
Lemma check_guest_only_needs_authorization_witness :
  is_ok (check (test_consts false)
           (with_review_strategy default_param (PyStr "All_Review_In_Guest"))) = false /\
  is_ok (check (test_consts true)
           (with_review_strategy default_param (PyStr "All_Review_In_Guest"))) = true.
Proof.
  split.
  - apply (check_guest_only_needs_authorization (test_consts false)
             (with_review_strategy default_param (PyStr "All_Review_In_Guest"))
             "All_Review_In_Guest" eq_refl eq_refl).
    reflexivity.
  - apply (check_guest_only_needs_authorization (test_consts true)
             (with_review_strategy default_param (PyStr "All_Review_In_Guest"))
             "All_Review_In_Guest" eq_refl eq_refl).
    reflexivity.
Defined.

End ParamProofs.
Module BaseProofs.

Import LRBase.

Local Open Scope list_scope.

Section Proofs.
Context `{eng : Engine}.

Lemma same_control_refl s : same_control s s.
Proof. repeat split. Qed.

Lemma same_control_trans s1 s2 s3 :
  same_control s1 s2 -> same_control s2 s3 -> same_control s1 s3.
Proof.
  unfold same_control. intros (?&?&?&?&?) (?&?&?&?&?).
  repeat split; congruence.
Qed.


Lemma bind_Raise {A B} (m : M A) (k : A -> M B) st e st1 :
  m st = (Raise e, st1) -> bind m k st = (Raise e, st1).
Proof. intros E. unfold bind. rewrite E. reflexivity. Qed.

(** Inversion of a run of [bind]. *)
Lemma bind_inv {A B} (m : M A) (k : A -> M B) st r st' :
  bind m k st = (r, st') ->
  (exists a st1, m st = (Ok a, st1) /\ k a st1 = (r, st')) \/
  (exists e, m st = (Raise e, st') /\ r = Raise e).
Proof.
  unfold bind. destruct (m st) as [[a|e] st1]; intros E.
  - left. eauto.
  - right. inversion E; subst. eauto.
Qed.

Ltac run_calls :=
  repeat match goal with
  | |- context [fst ?x] =>
      let E := fresh "E" in destruct x as [[?|?] ?] eqn:E; simpl
  end.

Lemma review_models_run w_self w_remote st r st' :
  review_models w_self w_remote st = (r, st') ->
  same_control (self st) (self st') /\
  exists evs,
    log st' = log st ++ EvReviewModels w_self w_remote :: evs /\
    forallb is_tensor_op evs = true.
Proof.
  unfold review_models, do_reconstruct_unilateral, do_broadcast_reconstruct_share,
    bind, enter, get_self, call, modify_self, ret, raise.
  simpl.
  destruct (String.eqb _ "respectively");
    [|destruct (String.eqb _ "all_review_in_guest")];
    try destruct (Role_eqb _ GUEST); simpl;
    try (destruct (tensor_shape w_remote) as [|d ?]; simpl;
         [|destruct (Nat.ltb 2 d); simpl]);
    run_calls;
    intros Hrun; inversion Hrun; subst; simpl;
    (split; [repeat split|]);
    rewrite <- ?app_assoc; simpl; eexists; (split; [reflexivity|reflexivity]).
Qed.


Lemma review_calls_app l1 l2 :
  review_calls (l1 ++ l2) = (review_calls l1 + review_calls l2)%nat.
Proof. unfold review_calls. rewrite List.filter_app, length_app. reflexivity. Qed.


Lemma tensor_ops_no_review evs :
  forallb is_tensor_op evs = true -> review_calls evs = 0%nat.
Proof.
  unfold review_calls. induction evs as [|ev evs IH]; simpl; [reflexivity|].
  intros Hall. apply andb_true_iff in Hall as [Hev Hall].
  destruct ev; simpl in *; try discriminate; apply IH, Hall.
Qed.


Lemma batch_step_run mt spdz lv item st r st' :
  batch_step mt spdz lv item st = (r, st') ->
  same_control (self st) (self st') /\
  forall lv', r = Ok lv' ->
    exists error gr w0 w1 evs,
      let suffix := [TagInt (n_iter_ (self st)); TagInt (Z.of_nat (fst item))] in
      compute_gradient mt (self st) (grad_wa (self st) lv) (grad_wb (self st) lv)
        error (snd item) suffix w0 = (Ok gr, w1) /\
      log st' =
        log st ++
        [EvCalPrediction (w_self lv) (w_remote lv) (snd item) suffix;
         EvComputeGradient (grad_wa (self st) lv) (grad_wb (self st) lv)
           error (snd item) suffix;
         EvReviewModels (w_self lv') (w_remote lv')] ++ evs /\
      forallb is_tensor_op evs = true /\
      w_self lv' = (if Role_eqb (role (self st)) GUEST then snd gr else fst gr) /\
      w_remote lv' = (if Role_eqb (role (self st)) GUEST then fst gr else snd gr) /\
      is_Some (new_w lv').
Proof.
  unfold batch_step, grad_wa, grad_wb, bind, get_self, call, modify_self, ret, raise.
  simpl.
  destruct (cal_prediction _ _ _ _ _ _ _ _) as [[y|e] w1] eqn:Ey; simpl;
    [|intros Hrun; inversion Hrun; subst; simpl; split; [repeat split|discriminate]].
  destruct (Role_eqb (role (self st)) GUEST); simpl.
  - destruct (labels (self st)) as [lbl|]; simpl;
      [destruct (fixpoint_encoder (self st)) as [enc|]; simpl|];
      try (intros Hrun; inversion Hrun; subst; simpl; split; [repeat split|discriminate]).
    destruct (compute_gradient _ _ _ _ _ _ _ _) as [[gr|e] w2] eqn:Eg; simpl;
      [|intros Hrun; inversion Hrun; subst; simpl; split; [repeat split|discriminate]].
    destruct (review_models _ _ _) as [[nw|e] st2] eqn:Erev; simpl;
      apply review_models_run in Erev as [Hsc (evs & Hlog & Hevs)]; simpl in *;
      intros Hrun; inversion Hrun; subst; simpl; (split; [exact Hsc|]);
      [|discriminate].
    intros lv' Hlv. inversion Hlv; subst; simpl.
    eexists _, gr, _, w2, evs. split; [exact Eg|].
    rewrite Hlog, <- !app_assoc. simpl. repeat split; eauto.
  - destruct (compute_gradient _ _ _ _ _ _ _ _) as [[gr|e] w2] eqn:Eg; simpl;
      [|intros Hrun; inversion Hrun; subst; simpl; split; [repeat split|discriminate]].
    destruct (review_models _ _ _) as [[nw|e] st2] eqn:Erev; simpl;
      apply review_models_run in Erev as [Hsc (evs & Hlog & Hevs)]; simpl in *;
      intros Hrun; inversion Hrun; subst; simpl; (split; [exact Hsc|]);
      [|discriminate].
    intros lv' Hlv. inversion Hlv; subst; simpl.
    eexists _, gr, _, w2, evs. split; [exact Eg|].
    rewrite Hlog, <- !app_assoc. simpl. repeat split; eauto.
Qed.

Lemma for_batches_run mt spdz items : forall lv st r st',
  for_batches mt spdz items lv st = (r, st') ->
  same_control (self st) (self st') /\
  forall lv', r = Ok lv' ->
    review_calls (log st') = (review_calls (log st) + length items)%nat.
Proof.
  induction items as [|item rest IH]; intros lv st r st' Hrun; simpl in Hrun.
  - unfold ret in Hrun. inversion Hrun; subst. split; [apply same_control_refl|].
    intros lv' Hlv. simpl. lia.
  - apply bind_inv in Hrun as [(lv1 & st1 & Hstep & Hrest)|(e & Hstep & ->)].
    + apply batch_step_run in Hstep as [Hsc1 Hstep].
      destruct (Hstep lv1 eq_refl)
        as (error & gr & w0 & w1 & evs & _ & Hlog & Hevs & _).
      apply IH in Hrest as [Hsc2 Hrest].
      split; [eapply same_control_trans; eassumption|].
      intros lv' Hlv. rewrite (Hrest lv' Hlv), Hlog, !review_calls_app,
        (tensor_ops_no_review evs Hevs).
      simpl. lia.
    + apply batch_step_run in Hstep as [Hsc1 _]. split; [exact Hsc1|discriminate].
Qed.

Lemma length_enumerate {A} (l : list A) : length (enumerate l) = length l.
Proof. unfold enumerate. apply length_imap. Qed.

(** What one epoch does to the attributes that steer the loop, and to the
    number of [review_models] calls. *)
Lemma epoch_run mt spdz batches lv st r st' :
  epoch mt spdz batches lv st = (r, st') ->
  max_iter (self st') = max_iter (self st) /\
  forall fl lv', r = Ok (fl, lv') ->
    review_calls (log st') = (review_calls (log st) + length batches)%nat /\
    match fl with
    | Continue =>
        n_iter_ (self st') = n_iter_ (self st) + 1 /\
        is_converged (self st') = false
    | BreakConverged => is_converged (self st') = true
    | BreakEarlyStop =>
        exists vs w0,
          validation_strategy (self st') = Some vs /\
          need_stop vs w0 = (Ok true, world st')
    end.
Proof.
  unfold epoch. intros Hrun.
  apply bind_inv in Hrun as [(lv1 & st1 & Hfor & Hrun)|(e & Hfor & ->)];
    apply for_batches_run in Hfor as [(Hn & Hm & Hc & Hv & Hr) Hfor];
    [|split; [exact Hm|discriminate]].
  specialize (Hfor lv1 eq_refl). rewrite length_enumerate in Hfor.
  destruct (new_w lv1) as [nw|];
    [|unfold raise in Hrun; inversion Hrun; subst; split; [exact Hm|discriminate]].
  revert Hrun.
  unfold bind, get_self, call, modify_self, ret, raise. simpl.
  destruct (check_converge _ _ _ _) as [[conv|e] w1] eqn:Econv; simpl;
    [|intros Hrun; inversion Hrun; subst; simpl; split; [exact Hm|discriminate]].
  rewrite Hv.
  destruct (validation_strategy (self st)) as [vs|] eqn:Evs; simpl.
  - destruct (validate vs _ _) as [[[]|e] w2] eqn:Eval; simpl;
      [|intros Hrun; inversion Hrun; subst; simpl; split; [exact Hm|discriminate]].
    destruct (need_stop vs w2) as [[stop|e] w3] eqn:Estop; simpl;
      [|intros Hrun; inversion Hrun; subst; simpl; split; [exact Hm|discriminate]].
    destruct stop; [|destruct conv]; simpl;
      intros Hrun; inversion Hrun; subst; simpl; (split; [exact Hm|]);
      intros fl lv' Hfl; inversion Hfl; subst;
      rewrite ?review_calls_app, Hfor; unfold review_calls; simpl; (split; [lia|]).
    + exists vs, w2. rewrite Hv. split; [reflexivity|exact Estop].
    + reflexivity.
    + rewrite Hn. split; reflexivity.
  - destruct conv; simpl;
      intros Hrun; inversion Hrun; subst; simpl; (split; [exact Hm|]);
      intros fl lv' Hfl; inversion Hfl; subst;
      rewrite ?review_calls_app, Hfor; unfold review_calls; simpl; (split; [lia|]).
    + reflexivity.
    + rewrite Hn. split; reflexivity.
Qed.




(** C8: the three secure operations as [HeteroLRBase] defines them raise
    [NotImplementedError] on every argument and every world, and leave the
    world as it was; none of them returns a value. *)
Theorem base_secure_operations_unimplemented
    (s : Self) (w_self w_remote wa wb : Tensor) (features error : TableTensor)
    (spdz : Spdz) (suffix : suffix_t) (w : World) :
  cal_prediction HeteroLRBase_methods s w_self w_remote features spdz suffix w =
    (Raise (NotImplementedError "Should not call here"), w) /\
  compute_gradient HeteroLRBase_methods s wa wb error features suffix w =
    (Raise (NotImplementedError "Should not call here"), w) /\
  transfer_pubkey HeteroLRBase_methods s w =
    (Raise (NotImplementedError "Should not call here"), w).
Proof. repeat split. Qed.

Lemma share_init_model_run st w enc n_iter t_own t_peer w1 w2 :
  let s := self st in
  let own_name := if Role_eqb (local_party_role s) GUEST then "wb" else "wa" in
  let peer_name := if Role_eqb (local_party_role s) GUEST then "wa" else "wb" in
  from_source (tensor_name own_name n_iter) (inl w) enc (random_field s) (world st)
    = (Ok t_own, w1) ->
  from_source (tensor_name peer_name n_iter) (inr (other_party s)) enc
    (random_field s) w1 = (Ok t_peer, w2) ->
  share_init_model w enc n_iter st =
    (Ok (t_own, t_peer),
     {| self := s; world := w2;
        log := log st ++ [EvFromSource (tensor_name own_name n_iter) (inl w);
                          EvFromSource (tensor_name peer_name n_iter)
                            (inr (other_party s))] |}).
Proof.
  intros s own_name peer_name. subst s own_name peer_name.
  unfold share_init_model, bind, get_self, call, ret. simpl.
  destruct (Role_eqb (local_party_role (self st)) GUEST); simpl;
    intros E1 E2; rewrite E1; simpl; rewrite E2; simpl;
    rewrite <- app_assoc; reflexivity.
Qed.

Lemma review_models_bound_run w_self w_remote st d rest :
  role (self st) = HOST ->
  review_strategy (model_param (self st)) = "all_review_in_guest" ->
  tensor_shape w_remote = d :: rest ->
  (2 < d)%nat ->
  review_models w_self w_remote st =
    (Raise (ValueError
       "Too many features in Guest. Review strategy: 'all_review_in_guest' should not be used."),
     {| self := self st; world := world st;
        log := log st ++ [EvReviewModels w_self w_remote] |}).
Proof.
  intros Hrole Hstrat Hshape Hd.
  unfold review_models, bind, enter, get_self, raise. simpl.
  rewrite Hstrat, Hrole, Hshape. simpl.
  apply Nat.ltb_lt in Hd. rewrite Hd. reflexivity.
Qed.

Lemma share_z_host st suffix (kwargs : gmap string TableTensor) z ci ct w1 w2 :
  role (self st) = HOST ->
  kwargs !! "z" = Some z ->
  cipher (self st) = Some ci ->
  distribute_encrypt ci (table_tensor_value z) (world st) = (Ok ct, w1) ->
  encrypted_share_matrix_remote ct GUEST (TagStr "z" :: suffix) w1 = (Ok tt, w2) ->
  share_z suffix kwargs st =
    (Ok None,
     {| self := self st; world := w2;
        log := log st ++ [EvDistributeEncrypt (table_tensor_value z);
                          EvRemote ct GUEST (TagStr "z" :: suffix)] |}).
Proof.
  intros Hrole Hz Hci Henc Hrem.
  unfold share_z, bind, get_self. simpl. rewrite Hrole. simpl.
  unfold bind. rewrite Hz, Hci. unfold bind, call, ret. simpl.
  rewrite Henc. simpl. rewrite Hrem. simpl.
  rewrite <- app_assoc. reflexivity.
Qed.

Lemma share_z_guest st suffix (kwargs : gmap string TableTensor) enc z_table w1 :
  role (self st) = GUEST ->
  fixpoint_encoder (self st) = Some enc ->
  encrypted_share_matrix_get HOST 0 (TagStr "z" :: suffix) (world st) = (Ok z_table, w1) ->
  share_z suffix kwargs st =
    (let t := {| pft_value := z_table; pft_q_field := encoder_n enc;
                 pft_endec := enc |} in
     Ok (Some (t, t, t)),
     {| self := self st; world := w1;
        log := log st ++ [EvGet HOST 0 (TagStr "z" :: suffix)] |}).
Proof.
  intros Hrole Henc Hget.
  unfold share_z, bind, get_self. simpl. rewrite Hrole. simpl.
  unfold bind, call, ret. simpl. rewrite Hget, Henc. simpl. reflexivity.
Qed.


(** [enumerate] from an offset, the shape the loops recurse on. *)
Lemma enumerate_from {A} (l : list A) :
  enumerate l = imap (fun i x => (0 + i, x)%nat) l.
Proof. reflexivity. Qed.

Lemma imap_shift {A} (k : nat) (l : list A) :
  imap ((fun i x => (k + i, x)%nat) ∘ S) l = imap (fun i x => (S k + i, x)%nat) l.
Proof. apply imap_ext. intros i x _. simpl. f_equal. lia. Qed.

(** The dictionary loop: with distinct names, each name ends up bound to
    the coefficient at its own index. *)
Lemma fill_weight_dict_run (mw : LinearModelWeights Coef) :
  forall (hdr : list string) (k : nat) (d : gmap string Coef),
    NoDup hdr ->
    (k + length hdr <= length (coef_ mw))%nat ->
    exists d',
      fill_weight_dict (imap (fun i x => (k + i, x)%nat) hdr) (Some mw) d = Ok d' /\
      (forall i name, hdr !! i = Some name -> d' !! name = coef_ mw !! (k + i)%nat) /\
      (forall name, name ∉ hdr -> d' !! name = d !! name).
Proof.
  induction hdr as [|name0 tl IH]; intros k d Hnd Hlen.
  - exists d. split; [reflexivity|]. split; [intros i name Hi; discriminate|].
    reflexivity.
  - rewrite imap_cons. simpl. simpl in Hlen.
    destruct (lookup_lt_is_Some_2 (coef_ mw) (k + 0)) as [c Hc]; [lia|].
    rewrite Hc. rewrite imap_shift.
    apply NoDup_cons in Hnd as [Hnotin Hnd].
    destruct (IH (S k) (<[name0 := c]> d) Hnd) as (d' & Hrun & Hin & Hout); [lia|].
    exists d'. split; [exact Hrun|]. split.
    + intros [|i] name Hi; simpl in Hi.
      * inversion Hi; subst. rewrite (Hout name Hnotin), lookup_insert_eq.
        symmetry. exact Hc.
      * rewrite (Hin i name Hi). f_equal. lia.
    + intros name Hname. apply not_elem_of_cons in Hname as [Hne Hname].
      rewrite (Hout name Hname). apply lookup_insert_ne. congruence.
Qed.

(** The array loop: it rebuilds the vector the dictionary was made from. *)
Lemma fill_tmp_vars_run (d : gmap string Coef) (cs : list Coef) :
  forall (hdr : list string) (k : nat) (tv : list Coef),
    length cs = (k + length hdr)%nat ->
    length tv = length cs ->
    take k tv = take k cs ->
    (forall i name, hdr !! i = Some name -> d !! name = cs !! (k + i)%nat) ->
    fill_tmp_vars (imap (fun i x => (k + i, x)%nat) hdr) d tv = Ok cs.
Proof.
  induction hdr as [|name0 tl IH]; intros k tv Hcs Htv Htake Hd.
  - simpl in *. rewrite !take_ge in Htake by lia. subst. reflexivity.
  - rewrite imap_cons. simpl. simpl in Hcs.
    destruct (lookup_lt_is_Some_2 cs (k + 0)) as [c Hc]; [lia|].
    rewrite (Hd 0%nat name0 eq_refl), Hc. rewrite imap_shift.
    replace (k + 0)%nat with k in * by lia.
    apply IH.
    + lia.
    + rewrite length_insert. exact Htv.
    + rewrite (take_S_r cs k c Hc).
      rewrite (take_S_r (<[k:=c]> tv) k c).
      * rewrite take_insert_ge by lia. rewrite Htake. reflexivity.
      * apply list_lookup_insert_eq. lia.
    + intros i name Hi. rewrite (Hd (S i) name Hi). f_equal. lia.
Qed.

Lemma coef_of_vector (c : list Coef) (b : Coef) (fi : bool) :
  coef_ {| unboxed := if fi then c ++ [b] else c; lmw_fit_intercept := fi |} = c.
Proof. unfold coef_. destruct fi; simpl; [apply removelast_last|reflexivity]. Qed.

Lemma intercept_of_vector (c : list Coef) (b : Coef) :
  intercept_ zero {| unboxed := c ++ [b]; lmw_fit_intercept := true |} = b.
Proof. unfold intercept_. simpl. apply last_last. Qed.

Lemma model_param_round_trip_run (s : Self) (hdr : list string) (c : list Coef) (b : Coef) :
  NoDup hdr ->
  length c = length hdr ->
  header s = Some hdr ->
  model_weights s =
    Some {| unboxed := if fit_intercept s then c ++ [b] else c;
            lmw_fit_intercept := fit_intercept s |} ->
  exists rec,
    get_single_model_param s None None = Ok rec /\
    iters rec = n_iter_ s /\
    forall s0,
      header s0 = Some hdr ->
      fit_intercept s0 = fit_intercept s ->
      exists s1,
        load_single_model s0 rec = Ok s1 /\
        model_weights s1 = model_weights s /\
        n_iter_ s1 = n_iter_ s.
Proof.
  intros Hnd Hlen Hhdr Hmw.
  unfold get_single_model_param. rewrite Hhdr, Hmw.
  set (mw := {| unboxed := if fit_intercept s then c ++ [b] else c;
                lmw_fit_intercept := fit_intercept s |}).
  assert (Hcoef : coef_ mw = c) by apply coef_of_vector.
  destruct (fill_weight_dict_run mw hdr 0 ∅ Hnd) as (d & Hrun & Hin & _).
  { rewrite Hcoef. simpl. lia. }
  rewrite enumerate_from. unfold rbind. rewrite Hrun.
  eexists. split; [reflexivity|]. split; [reflexivity|].
  intros s0 Hhdr0 Hfi0. unfold load_single_model. rewrite Hhdr0. simpl.
  rewrite enumerate_from.
  rewrite (fill_tmp_vars_run d c hdr 0).
  - simpl. eexists. split; [reflexivity|]. split; [|reflexivity].
    simpl. rewrite Hfi0. f_equal. unfold mw.
    destruct (fit_intercept s) eqn:Hfi; [|reflexivity].
    rewrite intercept_of_vector. reflexivity.
  - simpl. exact Hlen.
  - unfold np_zeros. simpl. rewrite length_replicate. lia.
  - reflexivity.
  - intros i name Hi. rewrite (Hin i name Hi), Hcoef. reflexivity.
Qed.


(** C1 (as the code has it): on HOST under ["all_review_in_guest"], when
    the first dimension of [w_remote] (the share HOST holds of the GUEST
    side weights [wb]) exceeds 2, [review_models] raises [ValueError]
    before any [broadcast_reconstruct_share]: the world is untouched and
    the log gains nothing but the entry into the method. *)
Theorem review_models_guest_only_bound
    (w_self w_remote : Tensor) (st : St) (d : nat) (rest : list nat) :
  role (self st) = HOST ->
  review_strategy (model_param (self st)) = "all_review_in_guest" ->
  tensor_shape w_remote = d :: rest ->
  (2 < d)%nat ->
  review_models w_self w_remote st =
    (Raise (ValueError
       "Too many features in Guest. Review strategy: 'all_review_in_guest' should not be used."),
     {| self := self st; world := world st;
        log := log st ++ [EvReviewModels w_self w_remote] |}).
Proof. apply review_models_bound_run. Qed.

(** C2 (as the code has it): in both roles [share_init_model] returns the
    share built from the local [w] first and the share received from the
    other party second; what depends on the role is the naming, [wb] then
    [wa] on GUEST and [wa] then [wb] on HOST. *)
Theorem share_init_model_own_share_first
    (st : St) (w : list Coef) (enc : Encoder) (n_iter : Z)
    (t_own t_peer : Tensor) (w1 w2 : World) :
  let s := self st in
  let own_name := if Role_eqb (local_party_role s) GUEST then "wb" else "wa" in
  let peer_name := if Role_eqb (local_party_role s) GUEST then "wa" else "wb" in
  from_source (tensor_name own_name n_iter) (inl w) enc (random_field s) (world st)
    = (Ok t_own, w1) ->
  from_source (tensor_name peer_name n_iter) (inr (other_party s)) enc
    (random_field s) w1 = (Ok t_peer, w2) ->
  share_init_model w enc n_iter st =
    (Ok (t_own, t_peer),
     {| self := s; world := w2;
        log := log st ++ [EvFromSource (tensor_name own_name n_iter) (inl w);
                          EvFromSource (tensor_name peer_name n_iter)
                            (inr (other_party s))] |}).
Proof. apply share_init_model_run. Qed.


(** C9: [share_z] by role.  On HOST the tensor passed as [z] is encrypted
    with the local cipher, the ciphertext is sent to GUEST under the tag
    [("z",) + suffix], and the method returns [None].  On GUEST one table
    is received from HOST under the same tag and wrapped, as received, in
    a [PaillierFixedPointTensor]; the method returns that one tensor three
    times.  The log shows the only calls made. *)
Theorem share_z_role_asymmetric
    (st : St) (suffix : suffix_t) (kwargs : gmap string TableTensor) :
  (forall z ci ct w1 w2,
     role (self st) = HOST ->
     kwargs !! "z" = Some z ->
     cipher (self st) = Some ci ->
     distribute_encrypt ci (table_tensor_value z) (world st) = (Ok ct, w1) ->
     encrypted_share_matrix_remote ct GUEST (TagStr "z" :: suffix) w1 = (Ok tt, w2) ->
     share_z suffix kwargs st =
       (Ok None,
        {| self := self st; world := w2;
           log := log st ++ [EvDistributeEncrypt (table_tensor_value z);
                             EvRemote ct GUEST (TagStr "z" :: suffix)] |})) /\
  (forall enc z_table w1,
     role (self st) = GUEST ->
     fixpoint_encoder (self st) = Some enc ->
     encrypted_share_matrix_get HOST 0 (TagStr "z" :: suffix) (world st)
       = (Ok z_table, w1) ->
     share_z suffix kwargs st =
       (let t := {| pft_value := z_table; pft_q_field := encoder_n enc;
                    pft_endec := enc |} in
        Ok (Some (t, t, t)),
        {| self := self st; world := w1;
           log := log st ++ [EvGet HOST 0 (TagStr "z" :: suffix)] |})).
Proof.
  split.
  - intros. eapply share_z_host; eassumption.
  - intros. eapply share_z_guest; eassumption.
Qed.

(** C10 (as the code has it): for a header of distinct names and a
    coefficient vector of the same length, the record made by
    [get_single_model_param] is read back by [load_single_model], on any
    object with the same header and the same [fit_intercept], into the
    same weight vector (intercept last exactly when [fit_intercept] is
    set) and the same [n_iter_]. *)
Theorem model_param_round_trip
    (s : Self) (hdr : list string) (c : list Coef) (b : Coef) :
  NoDup hdr ->
  length c = length hdr ->
  header s = Some hdr ->
  model_weights s =
    Some {| unboxed := if fit_intercept s then c ++ [b] else c;
            lmw_fit_intercept := fit_intercept s |} ->
  exists rec,
    get_single_model_param s None None = Ok rec /\
    iters rec = n_iter_ s /\
    forall s0,
      header s0 = Some hdr ->
      fit_intercept s0 = fit_intercept s ->
      exists s1,
        load_single_model s0 rec = Ok s1 /\
        model_weights s1 = model_weights s /\
        n_iter_ s1 = n_iter_ s.
Proof. apply model_param_round_trip_run. Qed.

End Proofs.

Import Example.

#[local] Existing Instance test_engine.

(** The bound at work: HOST holds a share of dimension 3 of the GUEST side
    weights. *)
Lemma review_models_guest_only_bound_witness :
  review_models (share "wa" 1) (share "wb" 3) (test_st HOST "all_review_in_guest" 1) =
    (Raise (ValueError
       "Too many features in Guest. Review strategy: 'all_review_in_guest' should not be used."),
     {| self := test_self HOST "all_review_in_guest" 1; world := tt;
        log := [EvReviewModels (share "wa" 1) (share "wb" 3)] |}).
Proof.
  apply (review_models_guest_only_bound (eng := test_engine) (share "wa" 1) (share "wb" 3)
           (test_st HOST "all_review_in_guest" 1) 3 []);
    [reflexivity | reflexivity | reflexivity | lia].
Defined.

(** C1, as stated, fails: HOST's own share [wa] has dimension 4, above the
    bound, while its share of [wb] has dimension 1.  [review_models]
    raises nothing and both shares are broadcast. *)
Lemma review_models_host_dimension_counterexample :
  let w_self := share "wa" 4 in
  let w_remote := share "wb" 1 in
  let r := review_models w_self w_remote (test_st HOST "all_review_in_guest" 1) in
  tensor_shape w_self = [4%nat] /\
  fst r = Ok [0; 0; 0; 0] /\
  List.filter is_broadcast (log (snd r)) =
    [EvBroadcastReconstructShare w_remote "wb_0";
     EvBroadcastReconstructShare w_self "wa_0"].
Proof. repeat split. Qed.

(** On HOST the pair is ([wa] built from [w], [wb] received from the
    peer). *)
Lemma share_init_model_own_share_first_witness :
  share_init_model [1; 2] 7 (-1) (test_st HOST "respectively" 1) =
    (Ok ({| tt_name := "wa_-1"; tt_source := inl [1; 2]; tt_shape := [2%nat] |},
         {| tt_name := "wb_-1"; tt_source := inr "peer"; tt_shape := [0%nat] |}),
     {| self := test_self HOST "respectively" 1; world := tt;
        log := [EvFromSource "wa_-1" (inl [1; 2]);
                EvFromSource "wb_-1" (inr "peer")] |}).
Proof.
  apply (share_init_model_own_share_first (eng := test_engine) (test_st HOST "respectively" 1)
           [1; 2] 7 (-1) _ _ tt tt); reflexivity.
Defined.

(** C2, as stated, fails on HOST: the first component of the returned pair
    is the share built from the local [w], the second the one received
    from the peer, the same positions as on GUEST. *)
Lemma share_init_model_host_order_counterexample :
  let own := {| tt_name := "wa_-1"; tt_source := inl [1; 2]; tt_shape := [2%nat] |} in
  let peer := {| tt_name := "wb_-1"; tt_source := inr "peer"; tt_shape := [0%nat] |} in
  fst (share_init_model [1; 2] 7 (-1) (test_st HOST "respectively" 1)) = Ok (own, peer) /\
  fst (share_init_model [1; 2] 7 (-1) (test_st HOST "respectively" 1)) <> Ok (peer, own).
Proof. split; [reflexivity|discriminate]. Qed.

(** C3, as stated, fails: one epoch over two batches completes and has
    entered [review_models] twice, the first time before the second batch
    is predicted. *)
Lemma review_models_per_epoch_counterexample :
  let r := epoch test_methods tt ["b0"; "b1"]
             (test_locals (share "own" 2) (share "peer" 2))
             (test_st GUEST "respectively" 1) in
  is_ok (fst r) = true /\
  review_calls (log (snd r)) = 2%nat /\
  review_calls (take 5 (log (snd r))) = 1%nat /\
  log (snd r) !! 5%nat =
    Some (EvCalPrediction (share "own" 2) (share "peer" 2) "b1" [TagInt 0; TagInt 1]).
Proof. repeat split. Qed.



(** Both roles on the concrete engine. *)
Lemma share_z_role_asymmetric_witness :
  fst (share_z [TagInt 0; TagInt 1] {[ "z" := "zval" ]}
         (test_st HOST "respectively" 1)) = Ok None /\
  fst (share_z [TagInt 0; TagInt 1] {[ "z" := "zval" ]}
         (test_st GUEST "respectively" 1)) =
    (let t := {| pft_value := "ciphertext"; pft_q_field := 7; pft_endec := 7 |} in
     Ok (Some (t, t, t))).
Proof.
  split.
  - rewrite (proj1 (share_z_role_asymmetric (eng := test_engine)
                      (test_st HOST "respectively" 1)
                      [TagInt 0; TagInt 1] {[ "z" := "zval" ]})
               "zval" tt "enc(zval)" tt tt);
      [reflexivity | reflexivity | vm_compute; reflexivity
      | reflexivity | reflexivity | reflexivity].
  - rewrite (proj2 (share_z_role_asymmetric (eng := test_engine)
                      (test_st GUEST "respectively" 1)
                      [TagInt 0; TagInt 1] {[ "z" := "zval" ]})
               7 "ciphertext" tt);
      reflexivity.
Defined.

(** A fitted model with an intercept, saved and loaded. *)
Lemma model_param_round_trip_witness :
  exists rec,
    get_single_model_param fitted_self None None = Ok rec /\
    iters rec = 4 /\
    exists s1,
      load_single_model fitted_self rec = Ok s1 /\
      model_weights s1 = Some {| unboxed := [3; 4; 5]; lmw_fit_intercept := true |} /\
      n_iter_ s1 = 4.
Proof.
  destruct (model_param_round_trip (eng := test_engine) fitted_self ["x0"; "x1"] [3; 4] 5)
    as (rec & Hget & Hit & Hload).
  - apply (bool_decide_unpack _). vm_compute. exact I.
  - reflexivity.
  - reflexivity.
  - reflexivity.
  - exists rec. split; [exact Hget|]. split; [exact Hit|].
    apply (Hload fitted_self); reflexivity.
Defined.

(** C10, as stated, fails for a header that repeats a name: the
    dictionary keeps one coefficient per name, so coefficients [1; 2]
    under the header [x; x] come back as [2; 2]. *)
Lemma model_param_round_trip_duplicate_counterexample :
  exists rec s1,
    get_single_model_param dup_self None None = Ok rec /\
    load_single_model dup_self rec = Ok s1 /\
    model_weights dup_self = Some {| unboxed := [1; 2]; lmw_fit_intercept := false |} /\
    model_weights s1 = Some {| unboxed := [2; 2]; lmw_fit_intercept := false |}.
Proof. eexists _, _. repeat split. Qed.

End BaseProofs.

(** * More properties of [LogisticRegressionParam] *)

Module ParamMoreProofs.

Import Param ParamInit.

Local Open Scope list_scope.

Section CheckMore.

Context `{SubParams}.
Variable c : consts.

(** A configuration passes exactly when every clause passes; the object it
    leaves is built from the clauses' results. *)
Lemma check_Ok_inv p p' :
  check c p = Ok p' ->
  exists pen opt ip es ep pp sp rs,
    check_penalty c (penalty p) = Ok pen /\
    check_tol (tol p) = Ok tt /\
    check_alpha (alpha p) = Ok tt /\
    check_optimizer (optimizer p) = Ok opt /\
    check_batch_size c (batch_size p) = Ok tt /\
    check_learning_rate (learning_rate p) = Ok tt /\
    InitParam_check (init_param p) = Ok ip /\
    check_max_iter (max_iter p) = Ok tt /\
    check_early_stop (early_stop p) = Ok es /\
    EncryptParam_check (encrypt_param p) = Ok ep /\
    PredictParam_check (predict_param p) = Ok pp /\
    check_encrypt_method c ep = Ok tt /\
    check_decay (decay p) = Ok tt /\
    check_decay_sqrt (decay_sqrt p) = Ok tt /\
    StepwiseParam_check (stepwise_param p) = Ok sp /\
    check_validation_freqs (validation_freqs p) = Ok tt /\
    check_early_stopping_rounds (early_stopping_rounds p) (validation_freqs p) = Ok tt /\
    check_metrics (metrics p) = Ok tt /\
    check_use_first_metric_only (use_first_metric_only p) = Ok tt /\
    check_floating_point_precision (floating_point_precision p) = Ok tt /\
    check_review_strategy c (review_strategy p) = Ok rs /\
    p' = {| penalty := pen; tol := tol p; alpha := alpha p; optimizer := opt;
            batch_size := batch_size p; learning_rate := learning_rate p;
            init_param := ip; max_iter := max_iter p; early_stop := es;
            encrypt_param := ep; predict_param := pp;
            random_field := random_field p; decay := decay p;
            decay_sqrt := decay_sqrt p; multi_class := multi_class p;
            validation_freqs := validation_freqs p; stepwise_param := sp;
            early_stopping_rounds := early_stopping_rounds p;
            metrics := metrics p;
            use_first_metric_only := use_first_metric_only p;
            floating_point_precision := floating_point_precision p;
            use_mix_rand := use_mix_rand p; review_strategy := rs |}.
Proof.
  unfold check, rbind. intros Hc.
  destruct (check_penalty c (penalty p)) as [pen|] eqn:E1; [|discriminate].
  destruct (check_tol (tol p)) as [[]|] eqn:E2; [|discriminate].
  destruct (check_alpha (alpha p)) as [[]|] eqn:E3; [|discriminate].
  destruct (check_optimizer (optimizer p)) as [opt|] eqn:E4; [|discriminate].
  destruct (check_batch_size c (batch_size p)) as [[]|] eqn:E5; [|discriminate].
  destruct (check_learning_rate (learning_rate p)) as [[]|] eqn:E6; [|discriminate].
  destruct (InitParam_check (init_param p)) as [ip|] eqn:E7; [|discriminate].
  destruct (check_max_iter (max_iter p)) as [[]|] eqn:E8; [|discriminate].
  destruct (check_early_stop (early_stop p)) as [es|] eqn:E9; [|discriminate].
  destruct (EncryptParam_check (encrypt_param p)) as [ep|] eqn:E10; [|discriminate].
  destruct (PredictParam_check (predict_param p)) as [pp|] eqn:E11; [|discriminate].
  destruct (check_encrypt_method c ep) as [[]|] eqn:E12; [|discriminate].
  destruct (check_decay (decay p)) as [[]|] eqn:E13; [|discriminate].
  destruct (check_decay_sqrt (decay_sqrt p)) as [[]|] eqn:E14; [|discriminate].
  destruct (StepwiseParam_check (stepwise_param p)) as [sp|] eqn:E15; [|discriminate].
  destruct (check_validation_freqs (validation_freqs p)) as [[]|] eqn:E16; [|discriminate].
  destruct (check_early_stopping_rounds (early_stopping_rounds p) (validation_freqs p))
    as [[]|] eqn:E17; [|discriminate].
  destruct (check_metrics (metrics p)) as [[]|] eqn:E18; [|discriminate].
  destruct (check_use_first_metric_only (use_first_metric_only p)) as [[]|] eqn:E19;
    [|discriminate].
  destruct (check_floating_point_precision (floating_point_precision p)) as [[]|] eqn:E20;
    [|discriminate].
  destruct (check_review_strategy c (review_strategy p)) as [rs|] eqn:E21; [|discriminate].
  inversion Hc; subst.
  exists pen, opt, ip, es, ep, pp, sp, rs. repeat split; assumption.
Qed.

(** The converse: clauses that all pass make [check] pass. *)
Lemma check_Ok_intro p pen opt ip es ep pp sp rs :
  check_penalty c (penalty p) = Ok pen ->
  check_tol (tol p) = Ok tt ->
  check_alpha (alpha p) = Ok tt ->
  check_optimizer (optimizer p) = Ok opt ->
  check_batch_size c (batch_size p) = Ok tt ->
  check_learning_rate (learning_rate p) = Ok tt ->
  InitParam_check (init_param p) = Ok ip ->
  check_max_iter (max_iter p) = Ok tt ->
  check_early_stop (early_stop p) = Ok es ->
  EncryptParam_check (encrypt_param p) = Ok ep ->
  PredictParam_check (predict_param p) = Ok pp ->
  check_encrypt_method c ep = Ok tt ->
  check_decay (decay p) = Ok tt ->
  check_decay_sqrt (decay_sqrt p) = Ok tt ->
  StepwiseParam_check (stepwise_param p) = Ok sp ->
  check_validation_freqs (validation_freqs p) = Ok tt ->
  check_early_stopping_rounds (early_stopping_rounds p) (validation_freqs p) = Ok tt ->
  check_metrics (metrics p) = Ok tt ->
  check_use_first_metric_only (use_first_metric_only p) = Ok tt ->
  check_floating_point_precision (floating_point_precision p) = Ok tt ->
  check_review_strategy c (review_strategy p) = Ok rs ->
  check c p =
    Ok {| penalty := pen; tol := tol p; alpha := alpha p; optimizer := opt;
          batch_size := batch_size p; learning_rate := learning_rate p;
          init_param := ip; max_iter := max_iter p; early_stop := es;
          encrypt_param := ep; predict_param := pp;
          random_field := random_field p; decay := decay p;
          decay_sqrt := decay_sqrt p; multi_class := multi_class p;
          validation_freqs := validation_freqs p; stepwise_param := sp;
          early_stopping_rounds := early_stopping_rounds p;
          metrics := metrics p;
          use_first_metric_only := use_first_metric_only p;
          floating_point_precision := floating_point_precision p;
          use_mix_rand := use_mix_rand p; review_strategy := rs |}.
Proof.
  intros. unfold check, rbind.
  repeat match goal with
  | Hc : ?r = Ok _ |- context [match ?r with Ok _ => _ | Raise _ => _ end] =>
      rewrite Hc
  end.
  reflexivity.
Qed.

Lemma ascii_lower_idem a : ascii_lower (ascii_lower a) = ascii_lower a.
Proof. destruct a as [[] [] [] [] [] [] [] []]; reflexivity. Qed.

Lemma ascii_upper_idem a : ascii_upper (ascii_upper a) = ascii_upper a.
Proof. destruct a as [[] [] [] [] [] [] [] []]; reflexivity. Qed.

Lemma lower_idem s : lower (lower s) = lower s.
Proof.
  induction s as [|a s IH]; simpl; [reflexivity|].
  rewrite ascii_lower_idem, IH. reflexivity.
Qed.

Lemma upper_idem s : upper (upper s) = upper s.
Proof.
  induction s as [|a s IH]; simpl; [reflexivity|].
  rewrite ascii_upper_idem, IH. reflexivity.
Qed.

Lemma str_in_In x l : str_in x l = true <-> In x l.
Proof.
  unfold str_in. rewrite existsb_exists. split.
  - intros (y & Hy & Heq). apply String.eqb_eq in Heq. subst. exact Hy.
  - intros Hx. exists x. split; [exact Hx|apply String.eqb_refl].
Qed.

Lemma check_penalty_inv v pen :
  check_penalty c v = Ok pen ->
  (v = PyNone /\ pen = PyNone) \/
  exists s, v = PyStr s /\ pen = PyStr (upper s) /\
            str_in (upper s) [L1_PENALTY c; L2_PENALTY c; "NONE"] = true.
Proof.
  unfold check_penalty. destruct v; try discriminate.
  - intros Hc. inversion Hc. left. split; reflexivity.
  - match goal with |- context [str_in ?a ?l] => destruct (str_in a l) eqn:Hin end;
      simpl; [|discriminate].
    intros Hc. inversion Hc. right. exists s. repeat split; assumption.
Qed.

Lemma check_optimizer_inv v opt :
  check_optimizer v = Ok opt ->
  exists s, v = PyStr s /\ opt = PyStr (lower s) /\
            str_in (lower s)
              ["sgd"; "rmsprop"; "adam"; "adagrad"; "nesterov_momentum_sgd"; "sqn"] = true.
Proof.
  unfold check_optimizer. destruct v; try discriminate.
  match goal with |- context [str_in ?a ?l] => destruct (str_in a l) eqn:Hin end;
    simpl; [|discriminate].
  intros Hc. inversion Hc. exists s. repeat split; assumption.
Qed.

Lemma check_early_stop_inv v es :
  check_early_stop v = Ok es ->
  exists s, v = PyStr s /\ es = PyStr (lower s) /\
            str_in (lower s) ["diff"; "abs"; "weight_diff"] = true.
Proof.
  unfold check_early_stop. destruct v; try discriminate.
  match goal with |- context [str_in ?a ?l] => destruct (str_in a l) eqn:Hin end;
    simpl; [|discriminate].
  intros Hc. inversion Hc. exists s. repeat split; assumption.
Qed.

Lemma check_review_strategy_inv v rs :
  check_review_strategy c v = Ok rs ->
  exists s, v = PyStr s /\ rs = PyStr (lower s) /\
            check_valid_value (lower s) descr ["respectively"; "all_review_in_guest"]
              = Ok tt /\
            (lower s = "all_review_in_guest" -> ALLOW_REVIEW_GUEST_ONLY c = true).
Proof.
  destruct v; simpl; try discriminate. unfold rbind.
  destruct (check_valid_value (lower s) descr _) as [[]|] eqn:Hv; [|discriminate].
  destruct (ALLOW_REVIEW_GUEST_ONLY c) eqn:Hflag; simpl.
  - intros Hc. inversion Hc. exists s. repeat split; try assumption; reflexivity.
  - destruct (String.eqb (lower s) "all_review_in_guest") eqn:Heq; [discriminate|].
    intros Hc. inversion Hc. exists s.
    split; [reflexivity|]. split; [reflexivity|]. split; [assumption || reflexivity|].
    intros Hs. rewrite Hs in Heq. discriminate Heq.
Qed.

Lemma check_max_iter_inv v :
  check_max_iter v = Ok tt -> exists n, v = PyInt n /\ 1 <= n.
Proof.
  destruct v; simpl; try discriminate.
  destruct (n <=? 0) eqn:Hn; [discriminate|].
  intros _. exists n. split; [reflexivity|]. apply Z.leb_gt in Hn. lia.
Qed.

Lemma check_floating_point_precision_inv v :
  check_floating_point_precision v = Ok tt ->
  v = PyNone \/ exists n, int_value v = Some n /\ 0 <= n <= 63.
Proof.
  unfold check_floating_point_precision.
  destruct v; simpl; try discriminate; try (left; reflexivity).
  - destruct b; intros _; right; eexists; (split; [reflexivity|lia]).
  - destruct (n <? 0) eqn:H0; [discriminate|].
    destruct (63 <? n) eqn:H1; [discriminate|]. simpl.
    intros _. right. exists n. split; [reflexivity|].
    apply Z.ltb_ge in H0. apply Z.ltb_ge in H1. lia.
Qed.

Lemma check_early_stopping_rounds_inv v freqs n :
  check_early_stopping_rounds v freqs = Ok tt ->
  v = PyInt n -> 1 <= n /\ freqs <> PyNone.
Proof.
  intros Hc ->. unfold check_early_stopping_rounds in Hc. simpl in Hc.
  destruct (n <? 1) eqn:Hn; [discriminate|].
  destruct freqs; simpl in Hc; try discriminate;
    (split; [apply Z.ltb_ge in Hn; lia|discriminate]).
Qed.

Lemma check_validation_freqs_inv v n :
  check_validation_freqs v = Ok tt -> v = PyInt n -> 0 < n.
Proof.
  intros Hc ->. unfold check_validation_freqs in Hc. simpl in Hc.
  destruct (n <=? 0) eqn:Hn; [discriminate|]. apply Z.leb_gt in Hn. exact Hn.
Qed.

(** X1: what a passing [check] changes.  Penalty comes back upper-cased
    (or stays [None]); optimizer, early_stop and review_strategy come back
    lower-cased; every other plain option is left as it was. *)
Theorem check_normalises_case_only (p p' : LogisticRegressionParam) :
  check c p = Ok p' ->
  ((penalty p = PyNone /\ penalty p' = PyNone) \/
   exists s, penalty p = PyStr s /\ penalty p' = PyStr (upper s)) /\
  (exists s, optimizer p = PyStr s /\ optimizer p' = PyStr (lower s)) /\
  (exists s, early_stop p = PyStr s /\ early_stop p' = PyStr (lower s)) /\
  (exists s, review_strategy p = PyStr s /\ review_strategy p' = PyStr (lower s)) /\
  tol p' = tol p /\ alpha p' = alpha p /\ batch_size p' = batch_size p /\
  learning_rate p' = learning_rate p /\ max_iter p' = max_iter p /\
  random_field p' = random_field p /\ decay p' = decay p /\
  decay_sqrt p' = decay_sqrt p /\ multi_class p' = multi_class p /\
  validation_freqs p' = validation_freqs p /\
  early_stopping_rounds p' = early_stopping_rounds p /\
  metrics p' = metrics p /\
  use_first_metric_only p' = use_first_metric_only p /\
  floating_point_precision p' = floating_point_precision p /\
  use_mix_rand p' = use_mix_rand p.
Proof.
  intros Hc. apply check_Ok_inv in Hc
    as (pen & opt & ip & es & ep & pp & sp & rs & H1 & _ & _ & H4 & _ & _ & _ & _ &
        H9 & _ & _ & _ & _ & _ & _ & _ & _ & _ & _ & _ & H21 & ->).
  simpl.
  apply check_penalty_inv in H1. apply check_optimizer_inv in H4 as (so & ? & ? & _).
  apply check_early_stop_inv in H9 as (se & ? & ? & _).
  apply check_review_strategy_inv in H21 as (sr & ? & ? & _).
  repeat split; eauto.
  destruct H1 as [[? ?]|(s & ? & ? & _)]; [left|right]; eauto.
Qed.

(** X2: [check] is idempotent.  Run on the object a passing [check] left,
    it passes again and changes nothing, provided the nested parameter
    objects accept the state their own checks left them in. *)
Theorem check_idempotent (p p' : LogisticRegressionParam) :
  check c p = Ok p' ->
  InitParam_check (init_param p') = Ok (init_param p') ->
  EncryptParam_check (encrypt_param p') = Ok (encrypt_param p') ->
  PredictParam_check (predict_param p') = Ok (predict_param p') ->
  StepwiseParam_check (stepwise_param p') = Ok (stepwise_param p') ->
  check c p' = Ok p'.
Proof.
  intros Hc. apply check_Ok_inv in Hc
    as (pen & opt & ip & es & ep & pp & sp & rs & H1 & H2 & H3 & H4 & H5 & H6 & H7 & H8 &
        H9 & H10 & H11 & H12 & H13 & H14 & H15 & H16 & H17 & H18 & H19 & H20 & H21 & ->).
  simpl. intros Hip Hep Hpp Hsp.
  rewrite (check_Ok_intro _ pen opt ip es ep pp sp rs); simpl;
    try assumption; try reflexivity.
  - apply check_penalty_inv in H1 as [[_ ->]|(s & _ & -> & Hin)]; [reflexivity|].
    unfold check_penalty. rewrite upper_idem, Hin. reflexivity.
  - apply check_optimizer_inv in H4 as (s & _ & -> & Hin).
    unfold check_optimizer. rewrite lower_idem, Hin. reflexivity.
  - apply check_early_stop_inv in H9 as (s & _ & -> & Hin).
    unfold check_early_stop. rewrite lower_idem, Hin. reflexivity.
  - apply check_review_strategy_inv in H21 as (s & _ & -> & Hv & Hflag).
    unfold check_review_strategy, rbind. rewrite lower_idem, Hv.
    destruct (String.eqb (lower s) "all_review_in_guest") eqn:Heq.
    + apply String.eqb_eq in Heq. rewrite (Hflag Heq). reflexivity.
    + rewrite andb_false_r. reflexivity.
Qed.

(** X3: what a passing configuration guarantees about its numbers.
    [max_iter] is an [int] of at least 1; the batch size is [-1] or an
    [int] not below [MIN_BATCH_SIZE]; the precision is [None] or lies in
    [0, 63]; an [int] number of early-stopping rounds is at least 1 and
    comes with validation frequencies; an [int] validation frequency is
    positive. *)
Theorem check_passed_numbers (p : LogisticRegressionParam) :
  is_ok (check c p) = true ->
  (exists n, max_iter p = PyInt n /\ 1 <= n) /\
  batch_size_ok c (batch_size p) = true /\
  (floating_point_precision p = PyNone \/
   exists n, int_value (floating_point_precision p) = Some n /\ 0 <= n <= 63) /\
  (forall n, early_stopping_rounds p = PyInt n ->
     1 <= n /\ validation_freqs p <> PyNone) /\
  (forall n, validation_freqs p = PyInt n -> 0 < n).
Proof.
  intros Hok. destruct (check c p) as [p'|] eqn:Hc; [|discriminate].
  apply check_Ok_inv in Hc
    as (pen & opt & ip & es & ep & pp & sp & rs & _ & _ & _ & _ & H5 & _ & _ & H8 &
        _ & _ & _ & _ & _ & _ & _ & H16 & H17 & _ & _ & H20 & _ & _).
  split; [apply check_max_iter_inv, H8|].
  split.
  { pose proof (ParamProofs.check_batch_size_spec c (batch_size p)) as Hs.
    destruct (batch_size_ok c (batch_size p)); [reflexivity|].
    rewrite H5 in Hs. discriminate Hs. }
  split; [apply check_floating_point_precision_inv, H20|].
  split.
  - intros n Hn. eapply check_early_stopping_rounds_inv; eassumption.
  - intros n Hn. eapply check_validation_freqs_inv; eassumption.
Qed.

(** X4: what a passing configuration guarantees about its named options.
    The optimizer and the convergence criterion left by [check] are among
    the supported names, the penalty is [None] or one of the three penalty
    names, and the review strategy is ["all_review_in_guest"] only when
    [ALLOW_REVIEW_GUEST_ONLY] is set. *)
Theorem check_passed_options (p p' : LogisticRegressionParam) :
  check c p = Ok p' ->
  (exists s, optimizer p' = PyStr s /\
     In s ["sgd"; "rmsprop"; "adam"; "adagrad"; "nesterov_momentum_sgd"; "sqn"]) /\
  (exists s, early_stop p' = PyStr s /\ In s ["diff"; "abs"; "weight_diff"]) /\
  (penalty p' = PyNone \/
   exists s, penalty p' = PyStr s /\ In s [L1_PENALTY c; L2_PENALTY c; "NONE"]) /\
  (review_strategy p' = PyStr "all_review_in_guest" ->
     ALLOW_REVIEW_GUEST_ONLY c = true).
Proof.
  intros Hc. apply check_Ok_inv in Hc
    as (pen & opt & ip & es & ep & pp & sp & rs & H1 & _ & _ & H4 & _ & _ & _ & _ &
        H9 & _ & _ & _ & _ & _ & _ & _ & _ & _ & _ & _ & H21 & ->).
  simpl.
  apply check_optimizer_inv in H4 as (so & _ & -> & Ho).
  apply check_early_stop_inv in H9 as (se & _ & -> & He).
  apply check_review_strategy_inv in H21 as (sr & _ & -> & _ & Hr).
  split; [exists (lower so); split; [reflexivity|exact (proj1 (str_in_In _ _) Ho)]|].
  split; [exists (lower se); split; [reflexivity|exact (proj1 (str_in_In _ _) He)]|].
  split.
  - apply check_penalty_inv in H1 as [[_ ->]|(s & _ & -> & Hin)]; [left; reflexivity|].
    right. exists (upper s). split; [reflexivity|exact (proj1 (str_in_In _ _) Hin)].
  - intros Heq. inversion Heq as [Hs]. apply Hr, Hs.
Qed.

(** X5: a review strategy that is not a string (such as [None]) is not
    reported as a configuration error: in a configuration whose other
    options are valid, [check] ends in the [AttributeError] of calling
    [lower] on it. *)
Theorem check_review_strategy_not_a_string (p : LogisticRegressionParam) (v : pyval) :
  is_ok (check c (with_review_strategy p (PyStr "respectively"))) = true ->
  (forall s, v <> PyStr s) ->
  check c (with_review_strategy p v) =
    Raise (AttributeError "object has no attribute 'lower'").
Proof.
  intros Hok Hv.
  destruct (check c (with_review_strategy p (PyStr "respectively"))) as [p'|] eqn:Hc;
    [|discriminate].
  apply check_Ok_inv in Hc
    as (pen & opt & ip & es & ep & pp & sp & rs & H1 & H2 & H3 & H4 & H5 & H6 & H7 & H8 &
        H9 & H10 & H11 & H12 & H13 & H14 & H15 & H16 & H17 & H18 & H19 & H20 & _ & _).
  simpl in *. unfold check, rbind. simpl.
  rewrite H1, H2, H3, H4, H5, H6, H7, H8, H9, H10, H11, H12, H13, H14, H15, H16, H17,
    H18, H19, H20.
  destruct v; try reflexivity. exfalso. eapply Hv. reflexivity.
Qed.

(** X6: the constructor never leaves [metrics] empty-handed.  A false
    value ([None], [0], an empty string or container) becomes the empty
    list, any other value is kept; so a constructed configuration that
    passes [check] holds a list in [metrics]. *)
Theorem init_metrics_default
    (penalty tol alpha optimizer batch_size learning_rate : pyval)
    (init_param : InitParam) (max_iter early_stop : pyval)
    (encrypt_param : EncryptParam) (predict_param : PredictParam)
    (decay decay_sqrt multi_class validation_freqs early_stopping_rounds : pyval)
    (stepwise_param : StepwiseParam)
    (floating_point_precision metrics use_first_metric_only use_mix_rand
       random_field review_strategy : pyval) :
  let p := __init__ penalty tol alpha optimizer batch_size learning_rate init_param
             max_iter early_stop encrypt_param predict_param decay decay_sqrt
             multi_class validation_freqs early_stopping_rounds stepwise_param
             floating_point_precision metrics use_first_metric_only use_mix_rand
             random_field review_strategy in
  Param.metrics p = (if py_truthy metrics then metrics else PyList []) /\
  Param.metrics p <> PyNone /\
  (is_ok (check c p) = true -> exists l, Param.metrics p = PyList l).
Proof.
  simpl. split; [reflexivity|]. split.
  - destruct metrics as [| | | | | | |]; simpl; try discriminate.
    + destruct b; discriminate.
    + destruct (negb _); discriminate.
    + destruct x; try discriminate. destruct (negb _); discriminate.
    + destruct (negb _); discriminate.
    + destruct l; discriminate.
    + destruct l; discriminate.
    + destruct l; discriminate.
  - intros Hok.
    match type of Hok with is_ok (check c ?q) = true =>
      destruct (check c q) as [p'|] eqn:Hc; [|discriminate] end.
    apply check_Ok_inv in Hc
      as (pen & opt & ip & es & ep & pp & sp & rs & _ & _ & _ & _ & _ & _ & _ & _ &
          _ & _ & _ & _ & _ & _ & _ & _ & _ & H18 & _).
    simpl in H18. unfold check_metrics in H18.
    destruct (if py_truthy metrics then metrics else PyList []) eqn:Hm;
      simpl in H18; try discriminate.
    + exfalso. destruct metrics as [| | | | | | |]; simpl in Hm; try discriminate;
        repeat match type of Hm with
        | (if ?b then _ else _) = _ => destruct b; try discriminate
        | match ?x with _ => _ end = _ => destruct x; try discriminate
        end.
    + eexists. reflexivity.
Qed.

End CheckMore.

(** The default configuration, with the review strategy capitalised. *)
Lemma check_normalises_case_only_witness :
  exists p',
    check (test_consts true)
      (with_review_strategy default_param (PyStr "Respectively")) = Ok p' /\
    review_strategy p' = PyStr "respectively" /\
    batch_size p' = PyInt (-1).
Proof.
  destruct (check (test_consts true)
              (with_review_strategy default_param (PyStr "Respectively")))
    as [p'|e] eqn:Hc; [|vm_compute in Hc; discriminate Hc].
  exists p'. split; [reflexivity|].
  destruct (check_normalises_case_only (test_consts true) _ p' Hc)
    as (_ & _ & _ & (s & Hs & Hs') & _ & _ & Hb & _).
  split; [|exact Hb].
  rewrite Hs'. simpl in Hs. inversion Hs. reflexivity.
Defined.

Lemma check_idempotent_witness :
  exists p',
    check (test_consts true)
      (with_review_strategy default_param (PyStr "Respectively")) = Ok p' /\
    check (test_consts true) p' = Ok p'.
Proof.
  destruct (check (test_consts true)
              (with_review_strategy default_param (PyStr "Respectively")))
    as [p'|e] eqn:Hc; [|vm_compute in Hc; discriminate Hc].
  exists p'. split; [reflexivity|].
  apply (check_idempotent (test_consts true) _ p' Hc); reflexivity.
Defined.

Lemma check_passed_numbers_witness :
  exists n, max_iter default_param = PyInt n /\ 1 <= n.
Proof.
  apply (check_passed_numbers (test_consts true) default_param). reflexivity.
Defined.

Lemma check_passed_options_witness :
  exists p',
    check (test_consts false) default_param = Ok p' /\
    exists s, optimizer p' = PyStr s /\
      In s ["sgd"; "rmsprop"; "adam"; "adagrad"; "nesterov_momentum_sgd"; "sqn"].
Proof.
  destruct (check (test_consts false) default_param) as [p'|e] eqn:Hc;
    [|vm_compute in Hc; discriminate Hc].
  exists p'. split; [reflexivity|].
  apply (check_passed_options (test_consts false) default_param p' Hc).
Defined.

Lemma check_review_strategy_not_a_string_witness :
  check (test_consts true) (with_review_strategy default_param PyNone) =
    Raise (AttributeError "object has no attribute 'lower'").
Proof.
  apply (check_review_strategy_not_a_string (test_consts true) default_param PyNone).
  - reflexivity.
  - intros s. discriminate.
Defined.

Lemma init_metrics_default_witness :
  exists l,
    metrics (__init__ (subs := unit_sub_params) (PyStr "L2") (PyFloat (FFinite 1 (-13))) (PyFloat (FFinite 1 0))
               (PyStr "rmsprop") (PyInt (-1)) (PyFloat (FFinite 1 (-7))) tt
               (PyInt 100) (PyStr "diff") (PyStr "Paillier") tt (PyInt 1)
               (PyBool true) (PyStr "ovr") PyNone PyNone tt (PyInt 23) PyNone
               (PyBool false) (PyBool false) (PyInt (2 ^ 20))
               (PyStr "respectively")) = PyList l.
Proof.
  apply (init_metrics_default (H := unit_sub_params) (test_consts true)). reflexivity.
Defined.

End ParamMoreProofs.

(** * More properties of [HeteroLRBase] *)

Module BaseMoreProofs.

Import LRBase LRBaseMore BaseProofs.

Local Open Scope list_scope.

Section MoreProofs.

Context `{eng : Engine}.

Ltac run_ext :=
  repeat match goal with
  | |- context [fst ?x] =>
      let E := fresh "E" in destruct x as [[?|?] ?] eqn:E; simpl
  end.

Lemma review_ops_app l1 l2 : review_ops (l1 ++ l2) = review_ops l1 ++ review_ops l2.
Proof. unfold review_ops. apply omap_app. Qed.

Lemma prediction_suffixes_app l1 l2 :
  prediction_suffixes (l1 ++ l2) = prediction_suffixes l1 ++ prediction_suffixes l2.
Proof. unfold prediction_suffixes. apply omap_app. Qed.

(** A successful [review_models], branch by branch: the calls it made, the
    vector it returned and the object it left. *)
Lemma review_models_ok w_self w_remote st nw st' :
  review_models w_self w_remote st = (Ok nw, st') ->
  let s := self st in
  let n := n_iter_ s in
  let guest_only := negb (String.eqb (review_strategy (model_param s)) "respectively") in
  (String.eqb (review_strategy (model_param s)) "respectively" = true \/
   String.eqb (review_strategy (model_param s)) "all_review_in_guest" = true) /\
  log st' =
    log st ++ EvReviewModels w_self w_remote ::
      (if Role_eqb (role s) GUEST then
         [EvReconstructUnilateral w_self (tensor_name "wb" n);
          if guest_only then EvReconstructUnilateral w_remote (tensor_name "wa" n)
          else EvBroadcastReconstructShare w_remote (tensor_name "wa" n)]
       else
         [EvBroadcastReconstructShare w_remote (tensor_name "wb" n);
          if guest_only then EvBroadcastReconstructShare w_self (tensor_name "wa" n)
          else EvReconstructUnilateral w_self (tensor_name "wa" n)]) /\
  model_weights (self st') =
    Some {| unboxed := nw;
            lmw_fit_intercept := init_param_fit_intercept (model_param s) |} /\
  same_control s (self st').
Proof.
  unfold review_models, do_reconstruct_unilateral, do_broadcast_reconstruct_share,
    bind, enter, get_self, call, modify_self, ret, raise.
  simpl.
  destruct (String.eqb _ "respectively");
    [|destruct (String.eqb _ "all_review_in_guest")];
    try destruct (Role_eqb _ GUEST); simpl;
    try (destruct (tensor_shape w_remote) as [|d ?]; simpl;
         [|destruct (Nat.ltb 2 d); simpl]);
    run_ext;
    intros Hrun; inversion Hrun; subst; simpl;
    rewrite <- ?app_assoc; simpl;
    (split; [auto|]); (split; [reflexivity|]); (split; [reflexivity|]);
    repeat split.
Qed.

(** X7: a review strategy other than the two known ones makes
    [review_models] raise [NotImplementedError] before any tensor is
    touched: the world and the object are as before. *)
Theorem review_models_unknown_strategy (w_self w_remote : Tensor) (st : St) :
  review_strategy (model_param (self st)) <> "respectively" ->
  review_strategy (model_param (self st)) <> "all_review_in_guest" ->
  review_models w_self w_remote st =
    (Raise (NotImplementedError "review strategy: {} has not been implemented."),
     {| self := self st; world := world st;
        log := log st ++ [EvReviewModels w_self w_remote] |}).
Proof.
  intros H1 H2. apply String.eqb_neq in H1. apply String.eqb_neq in H2.
  unfold review_models, bind, enter, get_self, raise. simpl.
  rewrite H1, H2. reflexivity.
Qed.

(** X8: the two parties' reviews fit together.  With the same strategy
    and epoch, GUEST and HOST each make two reconstruction calls, under
    the same tags in the same order, and at each position one party
    reconstructs or broadcasts exactly when the other does the
    opposite. *)
Theorem review_models_tags_pair_up
    (wsG wrG : Tensor) (stG : St) (nwG : list Coef) (stG' : St)
    (wsH wrH : Tensor) (stH : St) (nwH : list Coef) (stH' : St) :
  role (self stG) = GUEST ->
  role (self stH) = HOST ->
  review_strategy (model_param (self stH)) = review_strategy (model_param (self stG)) ->
  n_iter_ (self stH) = n_iter_ (self stG) ->
  review_models wsG wrG stG = (Ok nwG, stG') ->
  review_models wsH wrH stH = (Ok nwH, stH') ->
  exists opsG opsH,
    review_ops (log stG') = review_ops (log stG) ++ opsG /\
    review_ops (log stH') = review_ops (log stH) ++ opsH /\
    length opsG = 2%nat /\
    Forall2 (fun g h => snd g = snd h /\ fst h = other_side (fst g)) opsG opsH.
Proof.
  intros HG HH Hs Hn HrG HrH.
  apply review_models_ok in HrG as (_ & HlG & _).
  apply review_models_ok in HrH as (_ & HlH & _).
  rewrite HG in HlG. rewrite HH, Hs, Hn in HlH. simpl in HlG, HlH.
  rewrite HlG, HlH, !review_ops_app.
  destruct (String.eqb (review_strategy (model_param (self stG))) "respectively");
    simpl; eexists _, _;
    (split; [reflexivity|]); (split; [reflexivity|]); (split; [reflexivity|]);
    repeat constructor.
Qed.

(** X9: what a successful [review_models] leaves behind.  The vector it
    returns is the one it stored in [self.model_weights], with the
    intercept flag of the initialisation parameters; the epoch counter,
    the iteration limit, the convergence flag, the validation strategy and
    the role are untouched. *)
Theorem review_models_publishes_result
    (w_self w_remote : Tensor) (st : St) (nw : list Coef) (st' : St) :
  review_models w_self w_remote st = (Ok nw, st') ->
  model_weights (self st') =
    Some {| unboxed := nw;
            lmw_fit_intercept := init_param_fit_intercept (model_param (self st)) |} /\
  same_control (self st) (self st').
Proof.
  intros Hrun. apply review_models_ok in Hrun as (_ & _ & Hmw & Hsc).
  split; assumption.
Qed.

(** X10: under ["all_review_in_guest"] HOST ends a successful review with
    no plaintext: the vector it gets is all zeros, of the size of its own
    share; it made two broadcasts and no reconstruction, kept its list of
    hosted weights, and its share of the GUEST side weights had first
    dimension at most 2. *)
Theorem review_models_host_learns_nothing
    (w_self w_remote : Tensor) (st : St) (nw : list Coef) (st' : St) :
  role (self st) = HOST ->
  review_strategy (model_param (self st)) = "all_review_in_guest" ->
  review_models w_self w_remote st = (Ok nw, st') ->
  nw = np_zeros (tensor_shape w_self) /\
  hosted_model_weights (self st') = hosted_model_weights (self st) /\
  review_ops (log st') =
    review_ops (log st) ++
      [(Broadcast, tensor_name "wb" (n_iter_ (self st)));
       (Broadcast, tensor_name "wa" (n_iter_ (self st)))] /\
  exists d rest, tensor_shape w_remote = d :: rest /\ (d <= 2)%nat.
Proof.
  intros Hrole Hstrat.
  unfold review_models, do_broadcast_reconstruct_share,
    bind, enter, get_self, call, modify_self, ret, raise.
  simpl. rewrite Hstrat, Hrole. simpl.
  destruct (tensor_shape w_remote) as [|d rest]; simpl; [discriminate|].
  destruct (Nat.ltb 2 d) eqn:Hd; simpl; [discriminate|].
  run_ext; intros Hrun; inversion Hrun; subst; simpl.
  split; [reflexivity|]. split; [reflexivity|]. split.
  - rewrite !review_ops_app. simpl. rewrite ?app_nil_r, <- ?app_assoc. reflexivity.
  - exists d, rest. split; [reflexivity|]. apply Nat.ltb_ge in Hd. exact Hd.
Qed.

(** X11: under ["all_review_in_guest"] GUEST reconstructs both vectors,
    whatever their size: it returns its own, and stores the HOST side one,
    without intercept, as the only entry of [hosted_model_weights].  It
    broadcasts nothing. *)
Theorem review_models_guest_learns_both
    (w_self w_remote : Tensor) (st : St) (nw : list Coef) (st' : St) :
  role (self st) = GUEST ->
  review_strategy (model_param (self st)) = "all_review_in_guest" ->
  review_models w_self w_remote st = (Ok nw, st') ->
  exists w1 hosted,
    reconstruct_unilateral w_self (tensor_name "wb" (n_iter_ (self st))) (world st)
      = (Ok nw, w1) /\
    reconstruct_unilateral w_remote (tensor_name "wa" (n_iter_ (self st))) w1
      = (Ok hosted, world st') /\
    hosted_model_weights (self st') =
      [ {| unboxed := hosted; lmw_fit_intercept := false |} ] /\
    review_ops (log st') =
      review_ops (log st) ++
        [(Reconstruct, tensor_name "wb" (n_iter_ (self st)));
         (Reconstruct, tensor_name "wa" (n_iter_ (self st)))].
Proof.
  intros Hrole Hstrat.
  unfold review_models, do_reconstruct_unilateral,
    bind, enter, get_self, call, modify_self, ret, raise.
  simpl. rewrite Hstrat, Hrole. simpl.
  destruct (reconstruct_unilateral w_self _ (world st)) as [[v1|e1] w1] eqn:E1;
    simpl; [|discriminate].
  destruct (reconstruct_unilateral w_remote _ w1) as [[v2|e2] w2] eqn:E2;
    simpl; [|discriminate].
  intros Hrun. inversion Hrun; subst; simpl.
  exists w1, v2. split; [reflexivity|]. split; [exact E2|]. split; [reflexivity|].
  rewrite !review_ops_app. simpl. rewrite ?app_nil_r, <- ?app_assoc. reflexivity.
Qed.

(** X13: on HOST, [share_z] without a keyword argument [z] raises
    [KeyError] and has done nothing: nothing was encrypted or sent. *)
Theorem share_z_missing_z
    (st : St) (suffix : suffix_t) (kwargs : gmap string TableTensor) :
  role (self st) = HOST ->
  kwargs !! "z" = None ->
  share_z suffix kwargs st = (Raise (KeyError "z"), st).
Proof.
  intros Hrole Hz. unfold share_z, bind, get_self. simpl. rewrite Hrole. simpl.
  unfold bind. rewrite Hz. reflexivity.
Qed.

(** X14: [share_z] looks at no keyword argument but [z] (and on GUEST at
    none at all): two calls whose [z] agree behave the same, whatever else
    is passed. *)
Theorem share_z_reads_only_z
    (st : St) (suffix : suffix_t) (kwargs1 kwargs2 : gmap string TableTensor) :
  kwargs1 !! "z" = kwargs2 !! "z" ->
  share_z suffix kwargs1 st = share_z suffix kwargs2 st.
Proof.
  intros Hz. unfold share_z, bind, get_self. simpl.
  destruct (Role_eqb (role (self st)) HOST); [|reflexivity].
  unfold bind. simpl. rewrite Hz. reflexivity.
Qed.

(** [review_models] never changes the parameters it reads. *)
Lemma review_models_keeps_param w_self w_remote st nw st' :
  review_models w_self w_remote st = (Ok nw, st') ->
  model_param (self st') = model_param (self st).
Proof.
  unfold review_models, do_reconstruct_unilateral, do_broadcast_reconstruct_share,
    bind, enter, get_self, call, modify_self, ret, raise.
  simpl.
  destruct (String.eqb _ "respectively");
    [|destruct (String.eqb _ "all_review_in_guest")];
    try destruct (Role_eqb _ GUEST); simpl;
    try (destruct (tensor_shape w_remote) as [|d ?]; simpl;
         [|destruct (Nat.ltb 2 d); simpl]);
    run_ext;
    intros Hrun; inversion Hrun; subst; reflexivity.
Qed.

Lemma review_ops_of_log (s : Self) (w_self w_remote : Tensor) :
  review_ops
    (if Role_eqb (role s) GUEST then
       [EvReconstructUnilateral w_self (tensor_name "wb" (n_iter_ s));
        if negb (String.eqb (review_strategy (model_param s)) "respectively")
        then EvReconstructUnilateral w_remote (tensor_name "wa" (n_iter_ s))
        else EvBroadcastReconstructShare w_remote (tensor_name "wa" (n_iter_ s))]
     else
       [EvBroadcastReconstructShare w_remote (tensor_name "wb" (n_iter_ s));
        if negb (String.eqb (review_strategy (model_param s)) "respectively")
        then EvBroadcastReconstructShare w_self (tensor_name "wa" (n_iter_ s))
        else EvReconstructUnilateral w_self (tensor_name "wa" (n_iter_ s))]) =
  review_ops_of (role s) (review_strategy (model_param s)) (n_iter_ s).
Proof.
  unfold review_ops_of.
  destruct (Role_eqb (role s) GUEST), (String.eqb _ "respectively"); reflexivity.
Qed.

Lemma prediction_suffixes_review (s : Self) (w_self w_remote : Tensor) :
  prediction_suffixes
    (if Role_eqb (role s) GUEST then
       [EvReconstructUnilateral w_self (tensor_name "wb" (n_iter_ s));
        if negb (String.eqb (review_strategy (model_param s)) "respectively")
        then EvReconstructUnilateral w_remote (tensor_name "wa" (n_iter_ s))
        else EvBroadcastReconstructShare w_remote (tensor_name "wa" (n_iter_ s))]
     else
       [EvBroadcastReconstructShare w_remote (tensor_name "wb" (n_iter_ s));
        if negb (String.eqb (review_strategy (model_param s)) "respectively")
        then EvBroadcastReconstructShare w_self (tensor_name "wa" (n_iter_ s))
        else EvReconstructUnilateral w_self (tensor_name "wa" (n_iter_ s))]) = [].
Proof.
  destruct (Role_eqb (role s) GUEST), (String.eqb _ "respectively"); reflexivity.
Qed.

(** What a successful batch step adds to the log, as seen through
    [prediction_suffixes] and [review_ops]. *)
Lemma batch_step_ok mt spdz lv item st lv' st' :
  batch_step mt spdz lv item st = (Ok lv', st') ->
  prediction_suffixes (log st') =
    prediction_suffixes (log st) ++
      [[TagInt (n_iter_ (self st)); TagInt (Z.of_nat (fst item))]] /\
  review_ops (log st') =
    review_ops (log st) ++
      review_ops_of (role (self st)) (review_strategy (model_param (self st)))
        (n_iter_ (self st)) /\
  model_param (self st') = model_param (self st) /\
  same_control (self st) (self st').
Proof.
  unfold batch_step, bind, get_self, call, modify_self, ret, raise.
  simpl.
  destruct (cal_prediction _ _ _ _ _ _ _ _) as [[y|e] w1] eqn:Ey; simpl;
    [|discriminate].
  assert (Hfinish : forall a b st1,
    self st1 = self st ->
    prediction_suffixes (log st1) =
      prediction_suffixes (log st) ++
        [[TagInt (n_iter_ (self st)); TagInt (Z.of_nat (fst item))]] ->
    review_ops (log st1) = review_ops (log st) ->
    (let (r, st2) := review_models a b st1 in
     match r with
     | Ok nw =>
         (Ok {| w_self := a; w_remote := b; new_w := Some nw;
                last_models := last_models lv |},
          {| self := set_model_weights
                       (Some {| unboxed := nw;
                                lmw_fit_intercept :=
                                  init_param_fit_intercept (model_param (self st)) |})
                       (self st2);
             world := world st2; log := log st2 |})
     | Raise e => (Raise e, st2)
     end) = (Ok lv', st') ->
    prediction_suffixes (log st') =
      prediction_suffixes (log st) ++
        [[TagInt (n_iter_ (self st)); TagInt (Z.of_nat (fst item))]] /\
    review_ops (log st') =
      review_ops (log st) ++
        review_ops_of (role (self st)) (review_strategy (model_param (self st)))
          (n_iter_ (self st)) /\
    model_param (self st') = model_param (self st) /\
    same_control (self st) (self st')).
  { intros a b st1 Hself Hp Hr.
    destruct (review_models a b st1) as [[nw|e] st2] eqn:Erev; [|discriminate].
    pose proof (review_models_keeps_param _ _ _ _ _ Erev) as Hmp.
    apply review_models_ok in Erev as (_ & Hlog & _ & Hsc).
    rewrite Hself in Hlog, Hmp, Hsc.
    intros Hrun. inversion Hrun; subst; simpl.
    rewrite Hlog.
    change (?l ++ ?x :: ?t) with (l ++ [x] ++ t).
    rewrite !prediction_suffixes_app, !review_ops_app, Hp, Hr.
    rewrite prediction_suffixes_review, review_ops_of_log. simpl.
    rewrite !app_nil_r.
    split; [reflexivity|]. split; [reflexivity|]. split; [exact Hmp|exact Hsc]. }
  destruct (Role_eqb (role (self st)) GUEST); simpl.
  - destruct (labels (self st)) as [lbl|]; simpl;
      [destruct (fixpoint_encoder (self st)) as [enc|]; simpl|];
      try discriminate.
    destruct (compute_gradient _ _ _ _ _ _ _ _) as [[gr|e] w2] eqn:Eg; simpl;
      [|discriminate].
    apply Hfinish; simpl; [reflexivity| |].
    + rewrite !prediction_suffixes_app. simpl. rewrite <- app_assoc. reflexivity.
    + rewrite !review_ops_app. simpl. rewrite !app_nil_r. reflexivity.
  - destruct (compute_gradient _ _ _ _ _ _ _ _) as [[gr|e] w2] eqn:Eg; simpl;
      [|discriminate].
    apply Hfinish; simpl; [reflexivity| |].
    + rewrite !prediction_suffixes_app. simpl. rewrite <- app_assoc. reflexivity.
    + rewrite !review_ops_app. simpl. rewrite !app_nil_r. reflexivity.
Qed.

Lemma for_batches_ok mt spdz items : forall lv st lv' st',
  for_batches mt spdz items lv st = (Ok lv', st') ->
  prediction_suffixes (log st') =
    prediction_suffixes (log st) ++
      map (fun it => [TagInt (n_iter_ (self st)); TagInt (Z.of_nat (fst it))]) items /\
  review_ops (log st') =
    review_ops (log st) ++
      concat (replicate (length items)
        (review_ops_of (role (self st)) (review_strategy (model_param (self st)))
           (n_iter_ (self st)))) /\
  model_param (self st') = model_param (self st) /\
  same_control (self st) (self st').
Proof.
  induction items as [|item rest IH]; intros lv st lv' st' Hrun; simpl in Hrun.
  - unfold ret in Hrun. inversion Hrun; subst. simpl. rewrite !app_nil_r.
    repeat split.
  - apply bind_inv in Hrun as [(lv1 & st1 & Hstep & Hrest)|(e & _ & Hr)];
      [|discriminate Hr].
    apply batch_step_ok in Hstep as (Hp1 & Hr1 & Hm1 & Hsc1).
    apply IH in Hrest as (Hp2 & Hr2 & Hm2 & Hsc2).
    destruct Hsc1 as (Hn & Hmax & Hconv & Hvs & Hrole).
    rewrite Hp2, Hr2, Hp1, Hr1, Hm1, Hn, Hrole. simpl.
    rewrite <- !app_assoc. simpl.
    split; [reflexivity|]. split; [reflexivity|]. split; [congruence|].
    eapply same_control_trans; [|exact Hsc2]. repeat split; assumption.
Qed.

(** A completed epoch, taken apart: the batches, then the convergence
    check, then (with a validation strategy) the validation calls. *)
Lemma epoch_inv mt spdz batches lv st fl lv' st' :
  epoch mt spdz batches lv st = (Ok (fl, lv'), st') ->
  exists lv1 st1 tail,
    for_batches mt spdz (enumerate batches) lv st = (Ok lv1, st1) /\
    is_Some (new_w lv1) /\
    log st' = log st1 ++ EvCheckConverge [TagInt (n_iter_ (self st1))] :: tail /\
    (tail = [] \/ tail = [EvValidate (n_iter_ (self st1)); EvNeedStop]) /\
    n_iter_ (self st') =
      match fl with
      | Continue => n_iter_ (self st1) + 1
      | _ => n_iter_ (self st1)
      end /\
    max_iter (self st') = max_iter (self st1).
Proof.
  unfold epoch. intros Hrun.
  apply bind_inv in Hrun as [(lv1 & st1 & Hfor & Hrun)|(e & _ & Hr)];
    [|discriminate Hr].
  exists lv1, st1.
  destruct (new_w lv1) as [nw|]; [|discriminate Hrun].
  revert Hrun.
  unfold bind, get_self, call, modify_self, ret, raise. simpl.
  destruct (check_converge _ _ _ _) as [[conv|e] w1] eqn:Econv; simpl;
    [|discriminate].
  destruct (validation_strategy (self st1)) as [vs|] eqn:Evs; simpl.
  - destruct (validate vs _ _) as [[[]|e] w2] eqn:Eval; simpl; [|discriminate].
    destruct (need_stop vs w2) as [[stop|e] w3] eqn:Estop; simpl; [|discriminate].
    destruct stop; [|destruct conv]; simpl;
      intros Hrun; inversion Hrun; subst; simpl;
      exists [EvValidate (n_iter_ (self st1)); EvNeedStop];
      rewrite <- !app_assoc; simpl; repeat split; eauto.
  - destruct conv; simpl;
      intros Hrun; inversion Hrun; subst; simpl;
      exists []; repeat split; eauto.
Qed.

Lemma map_fst_imap {A B} (f : nat -> B) (l : list A) : forall g : nat -> nat,
  map (fun it => f (fst it)) (imap (fun i x => (g i, x)) l) =
  imap (fun i _ => f (g i)) l.
Proof.
  induction l as [|x l IH]; intros g; [reflexivity|].
  rewrite !imap_cons. simpl. f_equal. exact (IH (fun i => g (S i))).
Qed.

Lemma map_enumerate {A B} (f : nat -> B) (l : list A) :
  map (fun it => f (fst it)) (enumerate l) = imap (fun i _ => f i) l.
Proof. exact (map_fst_imap f l (fun i => i)). Qed.

Lemma epoch_counter mt spdz batches lv st fl lv' st' :
  epoch mt spdz batches lv st = (Ok (fl, lv'), st') ->
  n_iter_ (self st') =
    match fl with
    | Continue => n_iter_ (self st) + 1
    | _ => n_iter_ (self st)
    end /\
  max_iter (self st') = max_iter (self st).
Proof.
  intros Hrun. apply epoch_inv in Hrun
    as (lv1 & st1 & tl & Hfor & _ & _ & _ & Hn & Hm).
  apply for_batches_ok in Hfor as (_ & _ & _ & (Hn1 & Hm1 & _)).
  rewrite Hn, Hm, Hn1, Hm1. split; reflexivity.
Qed.

(** No batches: fed a list of no batches while epochs remain to be run, the
    training loop fails in its first epoch: [new_w] was never assigned, so
    the convergence check is never reached and [UnboundLocalError] is
    raised with the state as it was. *)
Lemma while_loop_no_batches
    (fuel : nat) (mt : Methods) (spdz : Spdz) (lv : Locals) (st : St) :
  n_iter_ (self st) < max_iter (self st) ->
  new_w lv = None ->
  while_loop (S fuel) mt spdz [] lv st =
    Some (Raise (UnboundLocalError
                   "local variable 'new_w' referenced before assignment"), st).
Proof.
  intros Hlt Hnew. simpl. apply Z.ltb_lt in Hlt. rewrite Hlt.
  unfold epoch, bind, ret, raise. simpl. rewrite Hnew. reflexivity.
Qed.

(** [fit_binary] up to the loop: when the key exchange and the two share
    constructions succeed, what is left is the loop, entered with the
    fresh shares and [new_w] unbound. *)
Lemma fit_binary_prepared fuel mt spdz vs w label_table batches st
    pk w1 t_own t_peer w2 w3 :
  let s1 := prepared_self vs label_table (self st) in
  let enc := create_fixpoint_encoder (pubkey_n pk) in
  let own_name := if Role_eqb (local_party_role (self st)) GUEST then "wb" else "wa" in
  let peer_name := if Role_eqb (local_party_role (self st)) GUEST then "wa" else "wb" in
  transfer_pubkey mt s1 (world st) = (Ok pk, w1) ->
  from_source (tensor_name own_name (-1)) (inl w) enc (random_field (self st)) w1
    = (Ok t_own, w2) ->
  from_source (tensor_name peer_name (-1)) (inr (other_party (self st))) enc
    (random_field (self st)) w2 = (Ok t_peer, w3) ->
  fit_binary fuel mt spdz vs w label_table batches st =
    while_loop fuel mt spdz batches
      {| w_self := t_own; w_remote := t_peer; new_w := None;
         last_models := (w, hosted_model_weights (self st)) |}
      {| self := set_fixpoint_encoder (Some enc) s1; world := w3;
         log := log st ++
                  [EvTransferPubkey;
                   EvFromSource (tensor_name own_name (-1)) (inl w);
                   EvFromSource (tensor_name peer_name (-1))
                     (inr (other_party (self st)))] |}.
Proof.
  intros s1 enc own_name peer_name. subst s1 enc own_name peer_name.
  unfold fit_binary, prepared_self, share_init_model,
    bind, get_self, call, modify_self, ret.
  simpl.
  destruct (Role_eqb (role (self st)) GUEST); simpl;
    intros Hpk; rewrite Hpk; simpl;
    destruct (Role_eqb (local_party_role (self st)) GUEST); simpl;
    intros Hown Hpeer; rewrite Hown; simpl; rewrite Hpeer; simpl;
    rewrite <- !app_assoc; reflexivity.
Qed.

(** X16: [fit_binary] on an empty list of batches.  With epochs left to
    run, the key exchange and the share construction still take place, and
    then the first epoch raises [UnboundLocalError]; no prediction, review
    or convergence check is ever made. *)
Theorem fit_binary_no_batches
    (fuel : nat) (mt : Methods) (spdz : Spdz) (vs : option ValidationStrategy)
    (w : list Coef) (label_table : Table) (st : St)
    (pk : PubKey) (w1 : World) (t_own t_peer : Tensor) (w2 w3 : World) :
  let s1 := prepared_self vs label_table (self st) in
  let enc := create_fixpoint_encoder (pubkey_n pk) in
  let own_name := if Role_eqb (local_party_role (self st)) GUEST then "wb" else "wa" in
  let peer_name := if Role_eqb (local_party_role (self st)) GUEST then "wa" else "wb" in
  n_iter_ (self st) < max_iter (self st) ->
  transfer_pubkey mt s1 (world st) = (Ok pk, w1) ->
  from_source (tensor_name own_name (-1)) (inl w) enc (random_field (self st)) w1
    = (Ok t_own, w2) ->
  from_source (tensor_name peer_name (-1)) (inr (other_party (self st))) enc
    (random_field (self st)) w2 = (Ok t_peer, w3) ->
  fit_binary (S fuel) mt spdz vs w label_table [] st =
    Some (Raise (UnboundLocalError
                   "local variable 'new_w' referenced before assignment"),
          {| self := set_fixpoint_encoder (Some enc) s1; world := w3;
             log := log st ++
                      [EvTransferPubkey;
                       EvFromSource (tensor_name own_name (-1)) (inl w);
                       EvFromSource (tensor_name peer_name (-1))
                         (inr (other_party (self st)))] |}).
Proof.
  intros s1 enc own_name peer_name Hlt Hpk Hown Hpeer.
  rewrite (fit_binary_prepared (S fuel) mt spdz vs w label_table [] st
             pk w1 t_own t_peer w2 w3 Hpk Hown Hpeer).
  apply while_loop_no_batches; [|reflexivity].
  subst s1. unfold prepared_self. simpl.
  destruct (Role_eqb (role (self st)) GUEST); simpl; exact Hlt.
Qed.

Lemma while_loop_done fuel mt spdz batches lv st :
  max_iter (self st) <= n_iter_ (self st) ->
  while_loop fuel mt spdz batches lv st = Some (Ok (MaxIterReached, lv), st).
Proof.
  intros Hge. apply Z.ltb_ge in Hge. destruct fuel; simpl; rewrite Hge; reflexivity.
Qed.

(** X17: [fit_binary] on an object whose epoch counter has already
    reached [max_iter] (a loaded model, say).  The key exchange and the
    share construction take place and the loop is left at once, whatever
    the fuel and the batches: no epoch is run, and the weights, the
    counter and the convergence flag are those the object came with. *)
Theorem fit_binary_nothing_left
    (fuel : nat) (mt : Methods) (spdz : Spdz) (vs : option ValidationStrategy)
    (w : list Coef) (label_table : Table) (batches : list TableTensor) (st : St)
    (pk : PubKey) (w1 : World) (t_own t_peer : Tensor) (w2 w3 : World) :
  let s1 := prepared_self vs label_table (self st) in
  let enc := create_fixpoint_encoder (pubkey_n pk) in
  let own_name := if Role_eqb (local_party_role (self st)) GUEST then "wb" else "wa" in
  let peer_name := if Role_eqb (local_party_role (self st)) GUEST then "wa" else "wb" in
  max_iter (self st) <= n_iter_ (self st) ->
  transfer_pubkey mt s1 (world st) = (Ok pk, w1) ->
  from_source (tensor_name own_name (-1)) (inl w) enc (random_field (self st)) w1
    = (Ok t_own, w2) ->
  from_source (tensor_name peer_name (-1)) (inr (other_party (self st))) enc
    (random_field (self st)) w2 = (Ok t_peer, w3) ->
  exists lv' st',
    fit_binary fuel mt spdz vs w label_table batches st
      = Some (Ok (MaxIterReached, lv'), st') /\
    w_self lv' = t_own /\ w_remote lv' = t_peer /\
    log st' = (log st ++
                 [EvTransferPubkey;
                  EvFromSource (tensor_name own_name (-1)) (inl w);
                  EvFromSource (tensor_name peer_name (-1))
                    (inr (other_party (self st)))]) /\
    model_weights (self st') = model_weights (self st) /\
    n_iter_ (self st') = n_iter_ (self st) /\
    is_converged (self st') = is_converged (self st).
Proof.
  intros s1 enc own_name peer_name Hge Hpk Hown Hpeer.
  rewrite (fit_binary_prepared fuel mt spdz vs w label_table batches st
             pk w1 t_own t_peer w2 w3 Hpk Hown Hpeer).
  rewrite while_loop_done.
  - eexists _, _. split; [reflexivity|]. simpl. unfold prepared_self. simpl.
    destruct (Role_eqb (role (self st)) GUEST); simpl; repeat split.
  - simpl. unfold prepared_self. simpl.
    destruct (Role_eqb (role (self st)) GUEST); simpl; exact Hge.
Qed.

(** Where the loop leaves the epoch counter. *)
Lemma while_loop_counter mt spdz batches : forall fuel lv st ex lv' st',
  while_loop fuel mt spdz batches lv st = Some (Ok (ex, lv'), st') ->
  n_iter_ (self st) <= max_iter (self st) ->
  max_iter (self st') = max_iter (self st) /\
  match ex with
  | MaxIterReached => n_iter_ (self st') = max_iter (self st)
  | _ => n_iter_ (self st) <= n_iter_ (self st') < max_iter (self st)
  end.
Proof.
  induction fuel as [|fuel IH]; intros lv st ex lv' st' Hrun Hle; simpl in Hrun.
  - destruct (n_iter_ (self st) <? max_iter (self st)) eqn:Hlt; [discriminate|].
    inversion Hrun; subst. apply Z.ltb_ge in Hlt. split; [reflexivity|lia].
  - destruct (n_iter_ (self st) <? max_iter (self st)) eqn:Hlt.
    + apply Z.ltb_lt in Hlt.
      destruct (epoch mt spdz batches lv st) as [[[fl lv1]|e] st1] eqn:Hep;
        [|discriminate].
      apply epoch_counter in Hep as [Hn Hm].
      destruct fl.
      * apply IH in Hrun as [Hm' Hex]; [|lia].
        split; [congruence|].
        rewrite Hm in Hex. destruct ex; lia.
      * inversion Hrun; subst. split; [exact Hm|]. lia.
      * inversion Hrun; subst. split; [exact Hm|]. lia.
    + inversion Hrun; subst. apply Z.ltb_ge in Hlt. split; [reflexivity|lia].
Qed.

(** X18: the epoch counter when training ends.  Entered with the counter
    not beyond [max_iter], a loop that runs out of epochs leaves it equal
    to [max_iter]; a loop left through convergence or an early stop leaves
    it below [max_iter], at the number of the epoch in which it stopped:
    the two [break]s skip the increment. *)
Theorem while_loop_exit_counter
    (fuel : nat) (mt : Methods) (spdz : Spdz) (batches : list TableTensor)
    (lv : Locals) (st : St) (ex : Exit) (lv' : Locals) (st' : St) :
  while_loop fuel mt spdz batches lv st = Some (Ok (ex, lv'), st') ->
  n_iter_ (self st) <= max_iter (self st) ->
  match ex with
  | MaxIterReached => n_iter_ (self st') = max_iter (self st)
  | _ => n_iter_ (self st) <= n_iter_ (self st') < max_iter (self st)
  end.
Proof.
  intros Hrun Hle.
  apply (while_loop_counter mt spdz batches fuel lv st ex lv' st' Hrun Hle).
Qed.

Lemma no_prediction_in_tail (n : Z) (tl : list Event) :
  tl = [] \/ tl = [EvValidate n; EvNeedStop] ->
  prediction_suffixes (EvCheckConverge [TagInt n] :: tl) = [] /\
  review_ops (EvCheckConverge [TagInt n] :: tl) = [].
Proof. intros [->| ->]; split; reflexivity. Qed.

(** X19: the tags of the predictions of one epoch.  An epoch that
    completes has called [cal_prediction] once per batch, in order, with
    the suffix [(n_iter_, batch_idx)] for batch indices 0, 1, ... and the
    epoch number it started with. *)
Theorem epoch_prediction_tags
    (mt : Methods) (spdz : Spdz) (batches : list TableTensor)
    (lv : Locals) (st : St) (fl : Flow) (lv' : Locals) (st' : St) :
  epoch mt spdz batches lv st = (Ok (fl, lv'), st') ->
  prediction_suffixes (log st') =
    prediction_suffixes (log st) ++
      imap (fun i _ => [TagInt (n_iter_ (self st)); TagInt (Z.of_nat i)]) batches.
Proof.
  intros Hrun. apply epoch_inv in Hrun
    as (lv1 & st1 & tl & Hfor & _ & Hlog & Htl & _).
  apply for_batches_ok in Hfor as (Hp & _).
  destruct (no_prediction_in_tail (n_iter_ (self st1)) tl Htl) as [Hnp _].
  rewrite Hlog, prediction_suffixes_app, Hnp, app_nil_r, Hp.
  f_equal.
  exact (map_enumerate
           (fun i => [TagInt (n_iter_ (self st)); TagInt (Z.of_nat i)]) batches).
Qed.

(** X20: the tags of the reviews of one epoch.  The reconstruction tags
    carry the epoch number only, so an epoch that completes has made the
    same two reconstruction calls, under the same two tags, once for every
    batch. *)
Theorem epoch_review_tags_repeat
    (mt : Methods) (spdz : Spdz) (batches : list TableTensor)
    (lv : Locals) (st : St) (fl : Flow) (lv' : Locals) (st' : St) :
  epoch mt spdz batches lv st = (Ok (fl, lv'), st') ->
  review_ops (log st') =
    review_ops (log st) ++
      concat (replicate (length batches)
        (review_ops_of (role (self st)) (review_strategy (model_param (self st)))
           (n_iter_ (self st)))).
Proof.
  intros Hrun. apply epoch_inv in Hrun
    as (lv1 & st1 & tl & Hfor & _ & Hlog & Htl & _).
  apply for_batches_ok in Hfor as (_ & Hr & _).
  destruct (no_prediction_in_tail (n_iter_ (self st1)) tl Htl) as [_ Hnr].
  rewrite Hlog, review_ops_app, Hnr, app_nil_r, Hr, length_enumerate.
  reflexivity.
Qed.

(** The dictionary loop in general: it succeeds exactly when every index
    has a coefficient; its keys are the header names on top of those it
    started with, and a name that occurs several times keeps the
    coefficient of its last occurrence. *)
Lemma fill_weight_dict_ok (mw : LinearModelWeights Coef) :
  forall (hdr : list string) (k : nat) (d d' : gmap string Coef),
    fill_weight_dict (imap (fun i x => (k + i, x)%nat) hdr) (Some mw) d = Ok d' ->
    (k + length hdr <= length (coef_ mw) \/ hdr = [])%nat /\
    dom d' = list_to_set hdr ∪ dom d /\
    (forall name, name ∉ hdr -> d' !! name = d !! name) /\
    (forall i name,
       hdr !! i = Some name ->
       (forall j, (i < j)%nat -> hdr !! j <> Some name) ->
       d' !! name = coef_ mw !! (k + i)%nat).
Proof.
  induction hdr as [|name0 tl IH]; intros k d d' Hrun.
  - simpl in Hrun. inversion Hrun; subst.
    split; [right; reflexivity|].
    split; [simpl; rewrite union_empty_l_L; reflexivity|].
    split; [reflexivity|]. intros i name Hi. discriminate Hi.
  - rewrite imap_cons in Hrun. simpl in Hrun.
    destruct (coef_ mw !! (k + 0)%nat) as [c|] eqn:Hc; [|discriminate].
    rewrite imap_shift in Hrun.
    apply IH in Hrun as (Hlen & Hdom & Hout & Hin).
    assert (Hk : (k < length (coef_ mw))%nat).
    { apply lookup_lt_Some in Hc. lia. }
    split.
    { left. destruct Hlen as [Hlen| ->]; simpl; lia. }
    split.
    { rewrite Hdom, dom_insert_L, list_to_set_cons.
      rewrite (assoc_L (∪)), (comm_L (∪) (list_to_set tl)). reflexivity. }
    split.
    { intros name Hname. apply not_elem_of_cons in Hname as [Hne Hname].
      rewrite (Hout name Hname). apply lookup_insert_ne. congruence. }
    intros [|i] name Hi Hlast; simpl in Hi.
    + inversion Hi; subst. rewrite Hout.
      * rewrite lookup_insert_eq. symmetry. exact Hc.
      * intros Hel. apply list_elem_of_lookup in Hel as [j Hj].
        apply (Hlast (S j)); [lia|exact Hj].
    + rewrite (Hin i name Hi).
      * f_equal. lia.
      * intros j Hj. apply (Hlast (S j)). lia.
Qed.

Lemma fill_weight_dict_total (mw : LinearModelWeights Coef) :
  forall (hdr : list string) (k : nat) (d : gmap string Coef),
    (k + length hdr <= length (coef_ mw))%nat ->
    exists d', fill_weight_dict (imap (fun i x => (k + i, x)%nat) hdr) (Some mw) d = Ok d'.
Proof.
  induction hdr as [|name0 tl IH]; intros k d Hlen.
  - exists d. reflexivity.
  - rewrite imap_cons. simpl. simpl in Hlen.
    destruct (lookup_lt_is_Some_2 (coef_ mw) (k + 0)) as [c Hc]; [lia|].
    rewrite Hc, imap_shift. apply IH. lia.
Qed.

Lemma fill_weight_dict_short (mw : LinearModelWeights Coef) :
  forall (hdr : list string) (k : nat) (d : gmap string Coef),
    (length (coef_ mw) < k + length hdr)%nat ->
    (k <= length (coef_ mw))%nat ->
    fill_weight_dict (imap (fun i x => (k + i, x)%nat) hdr) (Some mw) d =
      Raise (IndexError "index is out of bounds").
Proof.
  induction hdr as [|name0 tl IH]; intros k d Hlen Hk.
  - simpl in Hlen. lia.
  - rewrite imap_cons. simpl. simpl in Hlen.
    destruct (coef_ mw !! (k + 0)%nat) as [c|] eqn:Hc; [|reflexivity].
    rewrite imap_shift. apply lookup_lt_Some in Hc. apply IH; lia.
Qed.

(** The header and the weights [get_single_model_param] works with. *)
Lemma get_single_model_param_inv (s : Self) mw_arg hdr_arg rec :
  get_single_model_param s mw_arg hdr_arg = Ok rec ->
  exists mw smw hdr,
    model_weights s = Some smw /\
    mw = match mw_arg with Some m => m | None => smw end /\
    match hdr_arg with
    | Some (h :: t) => hdr = h :: t
    | _ => header s = Some hdr
    end /\
    fill_weight_dict (enumerate hdr) (Some mw) ∅ = Ok (weight rec) /\
    res_header rec = hdr /\
    intercept rec = intercept_ zero smw /\
    iters rec = n_iter_ s /\
    res_is_converged rec = is_converged s /\
    res_loss_history rec = loss_history s.
Proof.
  unfold get_single_model_param, rbind.
  set (hdr_used := match hdr_arg with Some (h :: t) => Some (h :: t) | _ => header s end).
  destruct hdr_used as [hdr|] eqn:Hh; [|discriminate].
  set (mw_used := match mw_arg with Some m => Some m | None => model_weights s end).
  destruct (fill_weight_dict (enumerate hdr) mw_used ∅) as [d|] eqn:Hfill;
    [|discriminate].
  destruct (model_weights s) as [smw|] eqn:Hsmw; [|discriminate].
  intros Hrec. inversion Hrec; subst; simpl.
  exists (match mw_arg with Some m => m | None => smw end), smw, hdr.
  split; [reflexivity|]. split; [reflexivity|].
  split.
  { subst hdr_used. destruct hdr_arg as [[|h t]|]; try exact Hh.
    inversion Hh. reflexivity. }
  split.
  { subst mw_used. destruct mw_arg; exact Hfill. }
  repeat split.
Qed.

(** X21: the weight dictionary of the saved record.  Its keys are exactly
    the names of the header; each name is bound to the coefficient at the
    index of its last occurrence in the header, so of two features with
    the same name only the later one is saved. *)
Theorem get_single_model_param_weights
    (s : Self) (mw_arg : option (LinearModelWeights Coef))
    (hdr_arg : option (list string)) (rec : SingleModelParam) :
  get_single_model_param s mw_arg hdr_arg = Ok rec ->
  exists mw,
    (mw_arg = Some mw \/ (mw_arg = None /\ model_weights s = Some mw)) /\
    dom (weight rec) = list_to_set (res_header rec) /\
    forall i name,
      res_header rec !! i = Some name ->
      (forall j, (i < j)%nat -> res_header rec !! j <> Some name) ->
      weight rec !! name = coef_ mw !! i.
Proof.
  intros Hget. apply get_single_model_param_inv in Hget
    as (mw & smw & hdr & Hsmw & Hmw & _ & Hfill & Hhdr & _).
  exists mw. split.
  { subst mw. destruct mw_arg; [left; reflexivity|right; split; [reflexivity|exact Hsmw]]. }
  rewrite Hhdr. rewrite enumerate_from in Hfill.
  apply fill_weight_dict_ok in Hfill as (_ & Hdom & _ & Hin).
  split; [rewrite Hdom, dom_empty_L, union_empty_r_L; reflexivity|].
  intros i name Hi Hlast. exact (Hin i name Hi Hlast).
Qed.

(** X22: the saved intercept, epoch counter, convergence flag and loss
    history are always those of the object itself; a [model_weights]
    argument replaces the coefficients only, and a header argument the
    header only when it is non-empty. *)
Theorem get_single_model_param_from_self
    (s : Self) (mw_arg : option (LinearModelWeights Coef))
    (hdr_arg : option (list string)) (rec : SingleModelParam) :
  get_single_model_param s mw_arg hdr_arg = Ok rec ->
  exists smw,
    model_weights s = Some smw /\
    intercept rec = intercept_ zero smw /\
    iters rec = n_iter_ s /\
    res_is_converged rec = is_converged s /\
    res_loss_history rec = loss_history s /\
    match hdr_arg with
    | Some (h :: t) => res_header rec = h :: t
    | _ => header s = Some (res_header rec)
    end.
Proof.
  intros Hget. apply get_single_model_param_inv in Hget
    as (mw & smw & hdr & Hsmw & _ & Hh & _ & Hhdr & Hi & Hn & Hc & Hl).
  exists smw. rewrite Hhdr. repeat split; try assumption.
Qed.

(** X23: saving needs a coefficient for every header entry.  With the
    object's own header and weights, [get_single_model_param] succeeds
    exactly when the header is no longer than the coefficient vector, and
    a longer header ends in [IndexError]; coefficients beyond the header
    are left out without notice. *)
Theorem get_single_model_param_header_length
    (s : Self) (hdr : list string) (mw : LinearModelWeights Coef) :
  header s = Some hdr ->
  model_weights s = Some mw ->
  ((length hdr <= length (coef_ mw))%nat ->
     exists rec, get_single_model_param s None None = Ok rec /\
                 res_header rec = hdr) /\
  ((length (coef_ mw) < length hdr)%nat ->
     get_single_model_param s None None =
       Raise (IndexError "index is out of bounds")).
Proof.
  intros Hh Hmw. unfold get_single_model_param, rbind. rewrite Hh, Hmw.
  rewrite enumerate_from. split; intros Hlen.
  - destruct (fill_weight_dict_total mw hdr 0 ∅) as [d Hd]; [simpl; lia|].
    rewrite Hd. eexists. split; reflexivity.
  - rewrite fill_weight_dict_short; [reflexivity|simpl; lia|lia].
Qed.

(** The array loop in general: it never fails; every position takes the
    weight of its header name, or [nan] when the name has none. *)
Lemma fill_tmp_vars_total (d : gmap string Coef) :
  forall (hdr : list string) (k : nat) (tv : list Coef),
    length tv = (k + length hdr)%nat ->
    fill_tmp_vars (imap (fun i x => (k + i, x)%nat) hdr) d tv =
      Ok (take k tv ++ ((fun name => default nan (d !! name)) <$> hdr)).
Proof.
  induction hdr as [|name0 tl IH]; intros k tv Hlen.
  - simpl in *. rewrite app_nil_r, take_ge by lia. reflexivity.
  - rewrite imap_cons. simpl. rewrite imap_shift. simpl in Hlen.
    replace (k + 0)%nat with k by lia.
    assert (Hstep : forall v,
      fill_tmp_vars (imap (fun i x => (S k + i, x)%nat) tl) d (<[k:=v]> tv) =
        Ok (take k tv ++ v :: ((fun name => default nan (d !! name)) <$> tl))).
    { intros v. rewrite IH by (rewrite length_insert; lia).
      rewrite (take_S_r (<[k:=v]> tv) k v) by (apply list_lookup_insert_eq; lia).
      rewrite take_insert_ge by lia. rewrite <- app_assoc. reflexivity. }
    destruct (d !! name0); simpl; apply Hstep.
Qed.

(** X24: what [load_single_model] builds.  It reads the object's own
    header, not the record's, and it never fails on a header: the new
    vector lists, in header order, the weight the record has under each
    name, and [nan] for a name the record has no weight for; the record's
    intercept follows exactly when the object's [fit_intercept] is set,
    and the epoch counter becomes the record's.  Weights under other names
    are ignored. *)
Theorem load_single_model_by_header
    (s : Self) (hdr : list string) (rec : SingleModelParam) :
  header s = Some hdr ->
  load_single_model s rec =
    Ok (set_n_iter_ (iters rec)
          (set_model_weights
             (Some {| unboxed :=
                        ((fun name => default nan (weight rec !! name)) <$> hdr) ++
                        (if fit_intercept s then [intercept rec] else []);
                      lmw_fit_intercept := fit_intercept s |})
             s)).
Proof.
  intros Hh. unfold load_single_model, rbind. rewrite Hh. rewrite enumerate_from.
  rewrite fill_tmp_vars_total.
  - simpl. destruct (fit_intercept s); [reflexivity|].
    rewrite app_nil_r. reflexivity.
  - unfold np_zeros. simpl. rewrite length_replicate. lia.
Qed.

(** X12: under ["respectively"] each party reconstructs its own vector
    only.  A successful review returns what [reconstruct_unilateral] gave
    for [w_self], under the tag of the party's own vector ([wb] on GUEST,
    [wa] on HOST); the other share is broadcast, and the list of hosted
    weights stays as it was. *)
Theorem review_models_respectively_own_share
    (w_self w_remote : Tensor) (st : St) (nw : list Coef) (st' : St) :
  review_strategy (model_param (self st)) = "respectively" ->
  review_models w_self w_remote st = (Ok nw, st') ->
  (exists w0 w1,
     reconstruct_unilateral w_self
       (tensor_name (if Role_eqb (role (self st)) GUEST then "wb" else "wa")
          (n_iter_ (self st))) w0 = (Ok nw, w1)) /\
  hosted_model_weights (self st') = hosted_model_weights (self st) /\
  review_ops (log st') =
    review_ops (log st) ++
      review_ops_of (role (self st)) "respectively" (n_iter_ (self st)).
Proof.
  intros Hstrat.
  unfold review_models, do_reconstruct_unilateral, do_broadcast_reconstruct_share,
    bind, enter, get_self, call, modify_self, ret, raise, review_ops_of.
  simpl. rewrite Hstrat. simpl.
  destruct (Role_eqb (role (self st)) GUEST); simpl.
  - destruct (reconstruct_unilateral w_self _ (world st)) as [[v1|e1] w1] eqn:E1;
      simpl; [|discriminate].
    destruct (broadcast_reconstruct_share w_remote _ w1) as [[[]|e2] w2] eqn:E2;
      simpl; [|discriminate].
    intros Hrun. inversion Hrun; subst; simpl.
    split; [eexists _, _; exact E1|]. split; [reflexivity|].
    rewrite !review_ops_app. simpl. rewrite ?app_nil_r, <- ?app_assoc. reflexivity.
  - destruct (broadcast_reconstruct_share w_remote _ (world st)) as [[[]|e1] w1] eqn:E1;
      simpl; [|discriminate].
    destruct (reconstruct_unilateral w_self _ w1) as [[v2|e2] w2] eqn:E2;
      simpl; [|discriminate].
    intros Hrun. inversion Hrun; subst; simpl.
    split; [eexists _, _; exact E2|]. split; [reflexivity|].
    rewrite !review_ops_app. simpl. rewrite ?app_nil_r, <- ?app_assoc. reflexivity.
Qed.

Lemma loop_calls_app l1 l2 : loop_calls (l1 ++ l2) = loop_calls l1 ++ loop_calls l2.
Proof. unfold loop_calls. apply omap_app. Qed.

Lemma tensor_ops_no_loop_calls evs :
  forallb is_tensor_op evs = true -> loop_calls evs = [].
Proof.
  unfold loop_calls. induction evs as [|ev evs IH]; simpl; [reflexivity|].
  intros Hall. apply andb_true_iff in Hall as [Hev Hall].
  destruct ev; simpl in *; try discriminate; apply IH, Hall.
Qed.

(** The calls of the loop over the batches: three per batch, in order. *)
Lemma for_batches_calls mt spdz items : forall lv st lv' st',
  for_batches mt spdz items lv st = (Ok lv', st') ->
  loop_calls (log st') =
    loop_calls (log st) ++
      concat (map (fun it =>
                [CallPrediction [TagInt (n_iter_ (self st)); TagInt (Z.of_nat (fst it))];
                 CallGradient [TagInt (n_iter_ (self st)); TagInt (Z.of_nat (fst it))];
                 CallReview]) items).
Proof.
  induction items as [|item rest IH]; intros lv st lv' st' Hrun; simpl in Hrun.
  - unfold ret in Hrun. inversion Hrun; subst. simpl. rewrite app_nil_r. reflexivity.
  - apply bind_inv in Hrun as [(lv1 & st1 & Hstep & Hrest)|(e & _ & Hr)];
      [|discriminate Hr].
    apply batch_step_run in Hstep as [(Hn & _) Hstep].
    destruct (Hstep lv1 eq_refl) as (error & gr & w0 & w1 & evs & _ & Hlog & Hevs & _).
    rewrite (IH _ _ _ _ Hrest), Hlog, Hn, !loop_calls_app,
      (tensor_ops_no_loop_calls evs Hevs).
    simpl. rewrite <- !app_assoc. reflexivity.
Qed.

(** C3 (as the code has it): [review_models] is called inside the loop
    over the batches, right after the gradient step of each batch.  Of the
    calls its body makes, an epoch that completes has made, for each batch
    in order, the prediction and the gradient step of that batch (both
    under the suffix [(n_iter_, batch_idx)]) and then [review_models], and
    after the last batch the convergence check; so every review directly
    follows a gradient step and comes before the prediction of the next
    batch, and the epoch has entered [review_models] as many times as
    there are batches. *)
Theorem review_models_after_each_gradient
    (mt : Methods) (spdz : Spdz) (batches : list TableTensor)
    (lv : Locals) (st : St) (fl : Flow) (lv' : Locals) (st' : St) :
  epoch mt spdz batches lv st = (Ok (fl, lv'), st') ->
  loop_calls (log st') =
    loop_calls (log st) ++
      concat (imap (fun i _ =>
                [CallPrediction [TagInt (n_iter_ (self st)); TagInt (Z.of_nat i)];
                 CallGradient [TagInt (n_iter_ (self st)); TagInt (Z.of_nat i)];
                 CallReview]) batches) ++
      [CallCheckConverge [TagInt (n_iter_ (self st))]] /\
  review_calls (log st') = (review_calls (log st) + length batches)%nat.
Proof.
  intros Hrun. split.
  - apply epoch_inv in Hrun as (lv1 & st1 & tl & Hfor & _ & Hlog & Htl & _).
    pose proof (for_batches_run _ _ _ _ _ _ _ Hfor) as [(Hn & _) _].
    apply for_batches_calls in Hfor.
    rewrite Hlog, loop_calls_app, Hfor, Hn, <- app_assoc.
    rewrite (map_enumerate
               (fun i => [CallPrediction [TagInt (n_iter_ (self st)); TagInt (Z.of_nat i)];
                          CallGradient [TagInt (n_iter_ (self st)); TagInt (Z.of_nat i)];
                          CallReview]) batches).
    destruct Htl as [-> | ->]; reflexivity.
  - apply epoch_run in Hrun as [_ Hrun]. apply (Hrun fl lv' eq_refl).
Qed.










(** X15: [fit_binary] on [HeteroLRBase] itself.  Given the values of the
    preparation steps (the validation strategy, the initial weights, the
    label table, the batches), the method stores the validation strategy
    and, on GUEST, the labels; then the public-key exchange raises
    [NotImplementedError].  The encoder is not set and the world is
    untouched; of the calls the log records, the key exchange is the one
    made: no share is built and no epoch is run. *)
Theorem fit_binary_base_stops_at_key_exchange
    (fuel : nat) (spdz : Spdz) (vs : option ValidationStrategy) (w : list Coef)
    (label_table : Table) (batches : list TableTensor) (st : St) :
  fit_binary fuel HeteroLRBase_methods spdz vs w label_table batches st =
    Some (Raise (NotImplementedError "Should not call here"),
          {| self := prepared_self vs label_table (self st);
             world := world st;
             log := log st ++ [EvTransferPubkey] |}).
Proof.
  unfold fit_binary, prepared_self, bind, get_self, call, modify_self, ret. simpl.
  destruct (Role_eqb (role (self st)) GUEST); reflexivity.
Qed.

End MoreProofs.

Import Example ExampleMore.

#[local] Existing Instance test_engine.

(** An unknown strategy on the concrete engine. *)
Lemma review_models_unknown_strategy_witness :
  review_models (share "wa" 1) (share "wb" 1) (test_st HOST "everyone" 1) =
    (Raise (NotImplementedError "review strategy: {} has not been implemented."),
     {| self := test_self HOST "everyone" 1; world := tt;
        log := [EvReviewModels (share "wa" 1) (share "wb" 1)] |}).
Proof.
  apply (review_models_unknown_strategy (eng := test_engine)
           (share "wa" 1) (share "wb" 1) (test_st HOST "everyone" 1));
    vm_compute; discriminate.
Defined.

(** GUEST and HOST reviewing the same epoch under ["respectively"]. *)
Lemma review_models_tags_pair_up_witness :
  exists opsG opsH,
    review_ops (log (snd (review_models (H := test_engine) (share "wb" 2) (share "wa" 3)
                            (test_st GUEST "respectively" 1)))) =
      review_ops (log (test_st GUEST "respectively" 1)) ++ opsG /\
    review_ops (log (snd (review_models (H := test_engine) (share "wa" 3) (share "wb" 2)
                            (test_st HOST "respectively" 1)))) =
      review_ops (log (test_st HOST "respectively" 1)) ++ opsH /\
    length opsG = 2%nat /\
    Forall2 (fun g h => snd g = snd h /\ fst h = other_side (fst g)) opsG opsH.
Proof.
  apply (review_models_tags_pair_up (eng := test_engine)
           (share "wb" 2) (share "wa" 3) (test_st GUEST "respectively" 1) [1; 1]
           (snd (review_models (H := test_engine) (share "wb" 2) (share "wa" 3)
                   (test_st GUEST "respectively" 1)))
           (share "wa" 3) (share "wb" 2) (test_st HOST "respectively" 1) [1; 1; 1]
           (snd (review_models (H := test_engine) (share "wa" 3) (share "wb" 2)
                   (test_st HOST "respectively" 1))));
    vm_compute; reflexivity.
Defined.

Lemma review_models_publishes_result_witness :
  model_weights
    (self (snd (review_models (H := test_engine) (share "wb" 2) (share "wa" 3)
                  (test_st GUEST "respectively" 1)))) =
    Some {| unboxed := [1; 1]; lmw_fit_intercept := false |}.
Proof.
  apply (review_models_publishes_result (eng := test_engine)
           (share "wb" 2) (share "wa" 3) (test_st GUEST "respectively" 1) [1; 1]
           (snd (review_models (H := test_engine) (share "wb" 2) (share "wa" 3)
                   (test_st GUEST "respectively" 1)))).
  vm_compute. reflexivity.
Defined.

Lemma review_models_host_learns_nothing_witness :
  [0; 0; 0; 0] = np_zeros (H := test_engine) (tensor_shape (share "wa" 4)).
Proof.
  apply (review_models_host_learns_nothing (eng := test_engine)
           (share "wa" 4) (share "wb" 1) (test_st HOST "all_review_in_guest" 1)
           [0; 0; 0; 0]
           (snd (review_models (H := test_engine) (share "wa" 4) (share "wb" 1)
                   (test_st HOST "all_review_in_guest" 1))));
    vm_compute; reflexivity.
Defined.

Lemma review_models_guest_learns_both_witness :
  hosted_model_weights
    (self (snd (review_models (H := test_engine) (share "wb" 1) (share "wa" 4)
                  (test_st GUEST "all_review_in_guest" 1)))) =
    [ {| unboxed := [1; 1; 1; 1]; lmw_fit_intercept := false |} ].
Proof.
  destruct (review_models_guest_learns_both (eng := test_engine)
              (share "wb" 1) (share "wa" 4) (test_st GUEST "all_review_in_guest" 1)
              [1]
              (snd (review_models (H := test_engine) (share "wb" 1) (share "wa" 4)
                      (test_st GUEST "all_review_in_guest" 1))))
    as (w1 & hosted & _ & Hh & Hhosted & _);
    [vm_compute; reflexivity | vm_compute; reflexivity | vm_compute; reflexivity |].
  rewrite Hhosted. vm_compute in Hh. inversion Hh. reflexivity.
Defined.

Lemma review_models_respectively_own_share_witness :
  review_ops
    (log (snd (review_models (H := test_engine) (share "wa" 3) (share "wb" 2)
                 (test_st HOST "respectively" 1)))) =
    review_ops (log (test_st HOST "respectively" 1)) ++
      review_ops_of HOST "respectively" 0.
Proof.
  apply (review_models_respectively_own_share (eng := test_engine)
           (share "wa" 3) (share "wb" 2) (test_st HOST "respectively" 1) [1; 1; 1]
           (snd (review_models (H := test_engine) (share "wa" 3) (share "wb" 2)
                   (test_st HOST "respectively" 1))));
    vm_compute; reflexivity.
Defined.

Lemma share_z_missing_z_witness :
  share_z [TagInt 0; TagInt 0] (∅ : gmap string string)
    (test_st HOST "respectively" 1) =
    (Raise (KeyError "z"), test_st HOST "respectively" 1).
Proof.
  apply (share_z_missing_z (eng := test_engine)); vm_compute; reflexivity.
Defined.

(** The higher-order terms are ignored. *)
Lemma share_z_reads_only_z_witness :
  share_z [TagInt 0; TagInt 0] {[ "z" := "zval" ]}
    (test_st HOST "respectively" 1) =
  share_z [TagInt 0; TagInt 0]
    (<[ "z_square" := "zsq" ]> {[ "z" := "zval" ]})
    (test_st HOST "respectively" 1).
Proof.
  apply (share_z_reads_only_z (eng := test_engine)). vm_compute. reflexivity.
Defined.

Lemma fit_binary_no_batches_witness :
  fit_binary 5 test_methods tt None [1; 2] "labels" []
    (test_st HOST "respectively" 3) =
    Some (Raise (UnboundLocalError
                   "local variable 'new_w' referenced before assignment"),
          {| self := test_self HOST "respectively" 3; world := tt;
             log := [EvTransferPubkey;
                     EvFromSource "wa_-1" (inl [1; 2]);
                     EvFromSource "wb_-1" (inr "peer")] |}).
Proof.
  apply (fit_binary_no_batches (eng := test_engine) 4 test_methods tt None [1; 2]
           "labels" (test_st HOST "respectively" 3) 7 tt
           {| tt_name := "wa_-1"; tt_source := inl [1; 2]; tt_shape := [2%nat] |}
           {| tt_name := "wb_-1"; tt_source := inr "peer"; tt_shape := [0%nat] |}
           tt tt);
    vm_compute; reflexivity.
Defined.

(** A loaded model whose counter equals [max_iter]. *)
Lemma fit_binary_nothing_left_witness :
  exists lv' st',
    fit_binary 5 test_methods tt None [1; 2] "labels" ["b0"]
      (test_st HOST "respectively" 0) = Some (Ok (MaxIterReached, lv'), st') /\
    model_weights (self st') = None.
Proof.
  destruct (fit_binary_nothing_left (eng := test_engine) 5 test_methods tt None
              [1; 2] "labels" ["b0"] (test_st HOST "respectively" 0) 7 tt
              {| tt_name := "wa_-1"; tt_source := inl [1; 2]; tt_shape := [2%nat] |}
              {| tt_name := "wb_-1"; tt_source := inr "peer"; tt_shape := [0%nat] |}
              tt tt)
    as (lv' & st' & Hrun & _ & _ & _ & Hmw & _);
    [vm_compute; discriminate | reflexivity | reflexivity | reflexivity |].
  exists lv', st'. split; [exact Hrun|exact Hmw].
Defined.

Lemma while_loop_exit_counter_witness :
  n_iter_
    (self (snd (default (Ok (MaxIterReached,
                             test_locals (share "own" 2) (share "peer" 2)),
                         test_st HOST "respectively" 3)
                  (while_loop 3 test_methods tt ["b0"]
                     (test_locals (share "own" 2) (share "peer" 2))
                     (test_st HOST "respectively" 3))))) = 3.
Proof.
  destruct (while_loop 3 test_methods tt ["b0"]
              (test_locals (share "own" 2) (share "peer" 2))
              (test_st HOST "respectively" 3))
    as [[[[ex lv']|e] st']|] eqn:Hrun;
    [|vm_compute in Hrun; discriminate Hrun|vm_compute in Hrun; discriminate Hrun].
  pose proof (while_loop_exit_counter (eng := test_engine) 3 test_methods tt ["b0"]
                (test_locals (share "own" 2) (share "peer" 2))
                (test_st HOST "respectively" 3) ex lv' st' Hrun) as Hex.
  destruct ex; [|vm_compute in Hrun; discriminate Hrun
                |vm_compute in Hrun; discriminate Hrun].
  simpl. apply Hex. vm_compute. discriminate.
Defined.

Lemma epoch_prediction_tags_witness :
  prediction_suffixes
    (log (snd (epoch (H := test_engine) test_methods tt ["b0"; "b1"]
                 (test_locals (share "own" 2) (share "peer" 2))
                 (test_st GUEST "respectively" 1)))) =
    [[TagInt 0; TagInt 0]; [TagInt 0; TagInt 1]].
Proof.
  destruct (epoch (H := test_engine) test_methods tt ["b0"; "b1"]
              (test_locals (share "own" 2) (share "peer" 2))
              (test_st GUEST "respectively" 1))
    as [[[fl lv']|e] st'] eqn:Hrun; [|vm_compute in Hrun; discriminate Hrun].
  simpl.
  rewrite (epoch_prediction_tags (eng := test_engine) test_methods tt ["b0"; "b1"]
             (test_locals (share "own" 2) (share "peer" 2))
             (test_st GUEST "respectively" 1) fl lv' st' Hrun).
  reflexivity.
Defined.

Lemma epoch_review_tags_repeat_witness :
  review_ops
    (log (snd (epoch (H := test_engine) test_methods tt ["b0"; "b1"]
                 (test_locals (share "own" 2) (share "peer" 2))
                 (test_st GUEST "respectively" 1)))) =
    [(Reconstruct, "wb_0"); (Broadcast, "wa_0");
     (Reconstruct, "wb_0"); (Broadcast, "wa_0")].
Proof.
  destruct (epoch (H := test_engine) test_methods tt ["b0"; "b1"]
              (test_locals (share "own" 2) (share "peer" 2))
              (test_st GUEST "respectively" 1))
    as [[[fl lv']|e] st'] eqn:Hrun; [|vm_compute in Hrun; discriminate Hrun].
  simpl.
  rewrite (epoch_review_tags_repeat (eng := test_engine) test_methods tt ["b0"; "b1"]
             (test_locals (share "own" 2) (share "peer" 2))
             (test_st GUEST "respectively" 1) fl lv' st' Hrun).
  reflexivity.
Defined.

(** The header [x; x] with coefficients [1; 2]: the one key holds 2. *)
Lemma get_single_model_param_weights_witness :
  exists rec,
    get_single_model_param dup_self None None = Ok rec /\
    weight rec !! "x" = Some 2.
Proof.
  destruct (get_single_model_param dup_self None None) as [rec|e] eqn:Hget;
    [|vm_compute in Hget; discriminate Hget].
  exists rec. split; [reflexivity|].
  destruct (get_single_model_param_weights (eng := test_engine) dup_self None None
              rec Hget) as (mw & Hmw & _ & Hlast).
  destruct Hmw as [Hmw|[_ Hmw]]; [discriminate Hmw|].
  assert (Hh : res_header rec = ["x"; "x"]).
  { vm_compute in Hget. inversion Hget. reflexivity. }
  rewrite Hh in Hlast.
  transitivity (coef_ mw !! 1%nat).
  - apply (Hlast 1%nat "x" eq_refl).
    intros [|[|j]] Hj; try lia; simpl; discriminate.
  - inversion Hmw. reflexivity.
Defined.

(** Another weight vector is passed in; the intercept saved is still the
    object's own. *)
Lemma get_single_model_param_from_self_witness :
  exists rec,
    get_single_model_param fitted_self
      (Some {| unboxed := [7; 8; 9]; lmw_fit_intercept := true |}) None = Ok rec /\
    intercept rec = 5.
Proof.
  destruct (get_single_model_param fitted_self
              (Some {| unboxed := [7; 8; 9]; lmw_fit_intercept := true |}) None)
    as [rec|e] eqn:Hget; [|vm_compute in Hget; discriminate Hget].
  exists rec. split; [reflexivity|].
  destruct (get_single_model_param_from_self (eng := test_engine) fitted_self _ None
              rec Hget) as (smw & Hsmw & Hi & _).
  rewrite Hi. inversion Hsmw. reflexivity.
Defined.

(** Three header names, two coefficients. *)
Lemma get_single_model_param_header_length_witness :
  get_single_model_param long_header_self None None =
    Raise (IndexError "index is out of bounds").
Proof.
  apply (get_single_model_param_header_length (eng := test_engine)
           long_header_self ["a"; "b"; "c"]
           {| unboxed := [1; 2]; lmw_fit_intercept := false |});
    [reflexivity | reflexivity | vm_compute; lia].
Defined.

(** A record with a spare key and with its own, different header; and a
    record that has no weight for [x1]. *)
Lemma load_single_model_by_header_witness :
  load_single_model fitted_self spare_record =
    Ok (set_n_iter_ 9
          (set_model_weights
             (Some {| unboxed := [3; 4; 5]; lmw_fit_intercept := true |})
             fitted_self)) /\
  load_single_model fitted_self partial_record =
    Ok (set_n_iter_ 9
          (set_model_weights
             (Some {| unboxed := [3; nan; 5]; lmw_fit_intercept := true |})
             fitted_self)).
Proof.
  split.
  - rewrite (load_single_model_by_header (eng := test_engine) fitted_self
               ["x0"; "x1"] spare_record eq_refl).
    vm_compute. reflexivity.
  - rewrite (load_single_model_by_header (eng := test_engine) fitted_self
               ["x0"; "x1"] partial_record eq_refl).
    vm_compute. reflexivity.
Defined.

(** An epoch over two batches. *)
Lemma review_models_after_each_gradient_witness :
  let st' := snd (epoch (H := test_engine) test_methods tt ["b0"; "b1"]
                    (test_locals (share "own" 2) (share "peer" 2))
                    (test_st GUEST "respectively" 1)) in
  loop_calls (log st') =
    [CallPrediction [TagInt 0; TagInt 0]; CallGradient [TagInt 0; TagInt 0]; CallReview;
     CallPrediction [TagInt 0; TagInt 1]; CallGradient [TagInt 0; TagInt 1]; CallReview;
     CallCheckConverge [TagInt 0]] /\
  review_calls (log st') = 2%nat.
Proof.
  destruct (epoch (H := test_engine) test_methods tt ["b0"; "b1"]
              (test_locals (share "own" 2) (share "peer" 2))
              (test_st GUEST "respectively" 1))
    as [[[fl lv']|e] st'] eqn:Hrun; [|vm_compute in Hrun; discriminate Hrun].
  simpl.
  destruct (review_models_after_each_gradient (eng := test_engine) test_methods tt
              ["b0"; "b1"] (test_locals (share "own" 2) (share "peer" 2))
              (test_st GUEST "respectively" 1) fl lv' st' Hrun) as [Hcalls Hcount].
  split; [rewrite Hcalls|rewrite Hcount]; reflexivity.
Defined.



End BaseMoreProofs.
